(** * lazy-gantt: column validation, interval composition, milestone filter

    A shallow embedding of [lazygantt/lazygantt.py] (classes [LazyGantt] and
    [DataColumnChecker]) and of the part of [lazygantt/visuals.py] that
    decides which rows of the chart are drawn.

    Conventions of the embedding.
    - A pandas [DataFrame] is a list of labelled rows plus a schema; a cell
      is a null, an integer or a text.  Cells of numeric columns are
      integers (fractions do not occur in the input format).
    - Python lists that are shared between objects live in a heap of
      locations; a list-valued attribute is a location.
    - [print] appends a line to the standard output carried by the world.
    - Exceptions abort the computation and keep the effects done so far.
    - [astype('int32')] and the arithmetic on the converted columns are
      32-bit two's complement. *)

From stdpp Require Import gmap strings list fin_maps sorting.
From Stdlib Require Import ZArith Lia.

Local Open Scope Z_scope.

(** ** 32-bit integers of the converted columns *)

Definition wrap32 (z : Z) : Z := (z + 2 ^ 31) mod 2 ^ 32 - 2 ^ 31.

Definition add32 (a b : Z) : Z := wrap32 (a + b).

Definition int32 (z : Z) : Prop := - 2 ^ 31 <= z < 2 ^ 31.

(** ** Tables *)

Inductive cell :=
  | Null
  | Num (z : Z)
  | Text (s : string).

Definition is_null (c : cell) : bool :=
  match c with Null => true | _ => false end.

Definition is_text (c : cell) : bool :=
  match c with Text _ => true | _ => false end.

Definition is_num (c : cell) : bool :=
  match c with Num _ => true | _ => false end.

(** The integer held by a cell of a converted column. *)
Definition int_of_cell (c : cell) : Z :=
  match c with Num z => z | _ => 0 end.

(** A row maps column names to cells; a name without entry reads as null
    (a short line of the file). *)
Definition row_get (r : gmap string cell) (c : string) : cell :=
  default Null (r !! c).

(** [df_rows] pairs every row with its index label. *)
Record DataFrame := {
  df_columns : list string;
  df_rows : list (nat * gmap string cell)
}.

(** A column of a frame with the index labels of its rows. *)
Abbreviation Series A := (list (nat * A)) (only parsing).

Definition values {A} (s : Series A) : list A := s.*2.

Definition index {A} (s : Series A) : list nat := s.*1.

(** The content of a delimited file: header and records. *)
Record table := {
  t_columns : list string;
  t_rows : list (gmap string cell)
}.

(** [pd.read_csv]: rows are labelled by their position (RangeIndex). *)
Definition read_csv (t : table) : DataFrame :=
  {| df_columns := t_columns t;
     df_rows := imap (λ i r, (i, r)) (t_rows t) |}.

(** ** Exceptions, output and the world *)

Inductive exn :=
  | Exception (msg : string)
  | KeyError (key : string)
  | ValueError
  | TypeError
  | IndexError.

(** A printed line.  The two milestone messages carry the arrays that the
    source formats into the text. *)
Inductive line :=
  | Message (msg : string)
  | NegativeMilestones (vals : list Z)
  | ExceedingMilestones (max : Z) (vals : list Z).

Definition loc := nat.

Record world := {
  heap : gmap loc (list string);
  stdout : list line
}.

Inductive outcome (A : Type) :=
  | Return (a : A)
  | Raise (e : exn).
Arguments Return {A} a.
Arguments Raise {A} e.

(** Code without effects on the world is written in [outcome]. *)
#[global] Instance outcome_ret : MRet outcome := λ A a, Return a.
#[global] Instance outcome_bind : MBind outcome := λ A B k m,
  match m with
  | Return a => k a
  | Raise e => Raise e
  end.

#[global] Instance outcome_fmap : FMap outcome := λ A B f m,
  match m with
  | Return a => Return (f a)
  | Raise e => Raise e
  end.

Definition Py (A : Type) : Type := world → outcome A * world.

Definition ret {A} (a : A) : Py A := λ w, (Return a, w).

Definition bind {A B} (m : Py A) (k : A → Py B) : Py B :=
  λ w, match m w with
       | (Return a, w') => k a w'
       | (Raise e, w') => (Raise e, w')
       end.

Definition raise {A} (e : exn) : Py A := λ w, (Raise e, w).

Definition lift {A} (o : outcome A) : Py A := λ w, (o, w).

Declare Scope py_scope.
Delimit Scope py_scope with py.
Notation "x <- m ;; k" := (bind m (λ x, k))
  (at level 100, m at next level, right associativity) : py_scope.
Notation "m ;;; k" := (bind m (λ _, k))
  (at level 100, right associativity) : py_scope.
Local Open Scope py_scope.

Definition print (l : line) : Py unit :=
  λ w, (Return tt, {| heap := heap w; stdout := stdout w ++ [l] |}).

(** Reading a list object; a dangling location reads as the empty list. *)
Definition deref (l : loc) : Py (list string) :=
  λ w, (Return (default [] (heap w !! l)), w).

Definition assign (l : loc) (v : list string) : Py unit :=
  λ w, (Return tt, {| heap := <[l := v]> (heap w); stdout := stdout w |}).

(** [list.remove(x)]: removes the first occurrence, [ValueError] if there is
    none. *)
Fixpoint remove_first (x : string) (l : list string) : option (list string) :=
  match l with
  | [] => None
  | y :: l' =>
      if decide (x = y) then Some l'
      else (λ r, y :: r) <$> remove_first x l'
  end.

Definition list_remove (l : loc) (x : string) : Py unit :=
  v <- deref l ;;
  match remove_first x v with
  | Some v' => assign l v'
  | None => raise ValueError
  end.

(** ** DataFrame access *)

(** [column in data.columns] *)
Definition has_column (data : DataFrame) (column : string) : bool :=
  bool_decide (column ∈ df_columns data).

(** [data[column]]: the labelled cells of a column that exists. *)
Definition column_of (data : DataFrame) (column : string) : Series cell :=
  (λ r, (r.1, row_get r.2 column)) <$> df_rows data.

Definition getitem (data : DataFrame) (column : string)
  : outcome (Series cell) :=
  if has_column data column then Return (column_of data column)
  else Raise (KeyError column).

(** ** DataColumnChecker *)

Module DataColumnChecker.

Record t := {
  target_columns : loc;
  mandatory_columns : list string
}.

(** [_check_existence] *)
Definition _check_existence (column : string) (data : DataFrame)
  : outcome (bool * string) :=
  if has_column data column
  then Return (true, "Column '" +:+ column +:+ "' exists.")
  else Return (false, "Column '" +:+ column +:+
                      "' is missing in your input data!").

(** [_check_content]: [isnull().values.all()] is true on a column without
    rows. *)
Definition _check_content (column : string) (data : DataFrame)
  : outcome (bool * string) :=
  s ← getitem data column;
  if negb (forallb is_null (values s))
  then Return (true, "Column '" +:+ column +:+ "' contains content.")
  else Return (false, "Column '" +:+ column +:+
                      "' is ignored, since it is empty!").

(** [_check_for_strings]: the reader gives a column the string (object)
    dtype as soon as one of its cells is a text. *)
Definition is_string_dtype (s : Series cell) : bool :=
  existsb is_text (values s).

Definition _check_for_strings (column : string) (data : DataFrame)
  : outcome (bool * string) :=
  s ← getitem data column;
  if negb (is_string_dtype s)
  then Return (true, "Column '" +:+ column +:+ "' does not contain text.")
  else Return (false, "Column '" +:+ column +:+
                      "' is ignored, since it holds text instead " +:+
                      "of numeric data!").

(** [self.conditions], in insertion order. *)
Definition conditions
  : list (string * (string → DataFrame → outcome (bool * string))) :=
  [ ("existent_column", _check_existence);
    ("content_in_column", _check_content);
    ("string_in_column", _check_for_strings) ].

(** The inner loop over the conditions for one column.  The result says
    whether the loop ended by [break]; nothing after the inner loop
    depends on it. *)
Fixpoint check_cascade (self : t) (column : string) (data : DataFrame)
    (conds : list (string * (string → DataFrame → outcome (bool * string))))
  : Py bool :=
  match conds with
  | [] => ret false
  | (key, check) :: conds' =>
      r <- lift (check column data) ;;
      let '(is_valid, message) := r in
      if is_valid then check_cascade self column data conds'
      else
        if bool_decide (column ∈ mandatory_columns self)
        then raise (Exception
               ("Mandatory column cannot be processed! " +:+ message))
        else
          list_remove (target_columns self) column ;;;
          print (Message message) ;;;
          ret true
  end.

(** The outer loop [for column in self.target_columns]: a list iterator is
    a position in the list object, re-read at every step, so removals
    made by the body shift what the iterator sees next.  [fuel] bounds the
    number of steps; the length of the list at entry is enough
    ([columns_loop_fuel]). *)
Fixpoint columns_loop (fuel : nat) (self : t) (data : DataFrame) (i : nat)
  : Py unit :=
  match fuel with
  | O => ret tt
  | S fuel' =>
      l <- deref (target_columns self) ;;
      match l !! i with
      | None => ret tt
      | Some column =>
          check_cascade self column data conditions ;;;
          columns_loop fuel' self data (S i)
      end
  end.

Definition _filter_for_valid_columns (self : t) (data : DataFrame)
  : Py unit :=
  l <- deref (target_columns self) ;;
  columns_loop (length l) self data 0.

(** [__init__]; [mandatory_columns=None] is the empty list. *)
Definition __init__ (data : DataFrame) (target_columns : loc)
    (mandatory_columns : option (list string)) : Py t :=
  l <- deref target_columns ;;
  match l with
  | [] => raise (Exception "Empty target_columns! No filtering possible!")
  | _ :: _ =>
      let self := {| target_columns := target_columns;
                     mandatory_columns := default [] mandatory_columns |} in
      _filter_for_valid_columns self data ;;;
      ret self
  end.

Definition get_valid_columns (self : t) : loc := target_columns self.

End DataColumnChecker.

(** A [for] loop over a list whose body updates a local state and may
    raise. *)
Fixpoint for_each {A S} (body : S → A → outcome S) (s : S) (l : list A)
  : outcome S :=
  match l with
  | [] => Return s
  | x :: l' => s' ← body s x; for_each body s' l'
  end.

(** ** Insertion-ordered dictionaries with string keys *)

Fixpoint dict_get (d : list (string * string)) (k : string) : option string :=
  match d with
  | [] => None
  | (k', v) :: d' => if decide (k = k') then Some v else dict_get d' k
  end.

(** [d[k] = v]: replaces the value of an existing key in place, appends a
    new key. *)
Fixpoint dict_set (d : list (string * string)) (k v : string)
  : list (string * string) :=
  match d with
  | [] => [(k, v)]
  | (k', v') :: d' =>
      if decide (k = k') then (k, v) :: d' else (k', v') :: dict_set d' k v
  end.

(** [d[k]] *)
Definition dict_item (d : list (string * string)) (k : string)
  : outcome string :=
  match dict_get d k with
  | Some v => Return v
  | None => Raise (KeyError k)
  end.

(** ** Operations on frames and series *)

(** Index labels of the cells selected by a mask. *)
Definition labels_where {A} (P : A → bool) (s : Series A) : list nat :=
  index (filter (λ p, P p.2 = true) s).

(** [data.drop(labels, inplace=True)] *)
Definition drop_rows (labels : list nat) (data : DataFrame) : DataFrame :=
  {| df_columns := df_columns data;
     df_rows := filter (λ r, r.1 ∉ labels) (df_rows data) |}.

(** [series.astype('int32')]: no integer for a null or a text. *)
Definition astype_int32 (s : Series cell) : outcome (Series cell) :=
  mapM (λ p, match p.2 with
             | Num z => Return (p.1, Num (wrap32 z))
             | _ => Raise ValueError
             end) s.

(** [data[column] = series] for a series taken from [data] itself, so the
    labels agree position by position. *)
Definition setitem (data : DataFrame) (column : string) (s : Series cell)
  : DataFrame :=
  {| df_columns := if has_column data column then df_columns data
                   else df_columns data ++ [column];
     df_rows := zip_with (λ r p, (r.1, <[column := p.2]> r.2))
                         (df_rows data) s |}.

(** [data[column] = data[column].astype('int32')] *)
Definition convert_column (data : DataFrame) (column : string)
  : outcome DataFrame :=
  s ← getitem data column;
  s' ← astype_int32 s;
  Return (setitem data column s').

(** The integers of a converted column. *)
Definition ints (s : Series cell) : Series Z :=
  (λ p, (p.1, int_of_cell p.2)) <$> s.

(** [series.max()] of a series that is not empty. *)
Definition series_max (s : Series Z) : option Z :=
  match values s with
  | [] => None
  | x :: l => Some (foldl Z.max x l)
  end.

(** [series.idxmax()]: the label of the first occurrence of the maximum. *)
Definition idxmax (s : Series Z) : option nat :=
  m ← series_max s;
  p ← list_find (λ p, p.2 = m) s;
  Some (p.2.1).

(** [series[label]], [data.at[label, column]]: the value at a label (labels
    are unique in a frame read from a file). *)
Definition at_label {A} (s : Series A) (label : nat) : outcome A :=
  match list_find (λ p, p.1 = label) s with
  | Some p => Return (p.2.2)
  | None => Raise (KeyError "")
  end.

(** [series[labels].values] *)
Definition at_labels {A} (s : Series A) (labels : list nat)
  : outcome (list A) :=
  mapM (at_label s) labels.

(** [series.diff()]: the first entry has no predecessor (NaN). *)
Fixpoint diff_from (prev : Z) (s : Series Z) : Series (option Z) :=
  match s with
  | [] => []
  | (l, x) :: s' => (l, Some (x - prev)) :: diff_from x s'
  end.

Definition diff (s : Series Z) : Series (option Z) :=
  match s with
  | [] => []
  | (l, x) :: s' => (l, None) :: diff_from x s'
  end.

(** [d != 0] on an entry of a difference; NaN differs from 0. *)
Definition nonzero (d : option Z) : bool :=
  match d with
  | None => true
  | Some z => negb (z =? 0)
  end.

(** [len(series.unique())] *)
Definition nunique (s : Series Z) : nat := length (remove_dups (values s)).

(** Assignment of a one-dimensional array to a slice of [n] places: equal
    length, or one value for all places. *)
Definition broadcast {A} (n : nat) (v : list A) : outcome (list A) :=
  if decide (length v = n) then Return v
  else match v with
       | [x] => Return (replicate n x)
       | _ => Raise ValueError
       end.

(** ** Chart: the part of [plot_gantt] that chooses the rows *)

Abbreviation grid := (list (list bool)) (only parsing).

Record Figure := {
  fig_subplots : nat * nat;
  fig_slots : list (string * grid);
  fig_events : list Z
}.

Module Chart.

(** [_plot_slots]: nothing is drawn for absent data. *)
Definition _plot_slots (data : option grid) (color_key : string)
  : list (string * grid) :=
  match data with
  | None => []
  | Some g => [(color_key, g)]
  end.

Definition plot_gantt (main_slots voluntary_slots : option grid)
    (events : list Z) : Figure :=
  {| fig_subplots := match voluntary_slots with
                     | Some _ => (2, 1)%nat
                     | None => (1, 1)%nat
                     end;
     fig_slots := _plot_slots main_slots "primary" ++
                  _plot_slots voluntary_slots "secondary";
     fig_events := events |}.

End Chart.

(** ** LazyGantt *)

Module LazyGantt.

Definition VARIABLE_MAPPER : list (string * string) :=
  [ ("start", "start"); ("duration", "length"); ("phase_number", "phase") ].

(** The class attribute [ALL_COLUMNS] is one list object, made once when
    the class body runs and shared by all instances. *)
Definition ALL_COLUMNS : loc := 0%nat.

Definition MANDATORY_COLUMNS : list string := ["start"; "duration"].

(** The world after the module is imported. *)
Definition initial_world : world :=
  {| heap := {[ ALL_COLUMNS := VARIABLE_MAPPER.*1 ]}; stdout := [] |}.

Record t := {
  no_months : Z;
  no_packages : Z;
  no_phases : option Z;
  packages : list (Z * Z);
  phases : option (list (Z * Z));
  milestones : list Z
}.

(** [_build_key_mapper] *)
Definition _build_key_mapper (key_mapper : list (string * string))
    (column : string) : list (string * string) :=
  match dict_get VARIABLE_MAPPER column with
  | Some role => dict_set key_mapper role column
  | None => key_mapper
  end.

(** [_compose_phases] *)
Definition _compose_phases (self : t)
    (phases_assigned months_started months_lasting : Series Z)
  : outcome (list (Z * Z)) :=
  n ← match no_phases self with
      | Some n => if n <? 0 then Raise ValueError else Return (Z.to_nat n)
      | None => Raise TypeError
      end;
  let phases := replicate n (0, 0) in
  let idx_phase_change := labels_where nonzero (diff phases_assigned) in
  starts ← at_labels months_started idx_phase_change;
  col0 ← broadcast n starts;
  let phases := zip_with (λ p x, (x, p.2)) phases col0 in
  a ← at_labels months_started (tail idx_phase_change);
  b ← at_labels months_lasting (tail idx_phase_change);
  col1 ← broadcast (n - 1) (zip_with add32 a b);
  let phases := zip_with (λ p x, (p.1, x)) (take (n - 1) phases) col1 ++
                drop (n - 1) phases in
  match n with
  | O => Raise IndexError
  | S n' => Return (alter (λ p, (p.1, no_months self)) n' phases)
  end.

(** [_fill_from_csv], lines 173 to 205: key mapper, row filter, type
    conversion, total duration and packages. *)
Definition fill_packages (self : t) (data : DataFrame)
    (filtered_columns : list string)
  : outcome (t * DataFrame * list (string * string)) :=
  let key_mapper := foldl _build_key_mapper [] filtered_columns in
  start_column ← dict_item key_mapper "start";
  starts ← getitem data start_column;
  let nan_rows := labels_where is_null starts in
  let data := drop_rows nan_rows data in
  data ← for_each (λ data kv, convert_column data kv.2) data key_mapper;
  start_column ← dict_item key_mapper "start";
  starts ← getitem data start_column;
  match series_max (ints starts), idxmax (ints starts) with
  | Some last_package_start, Some label =>
      length_column ← dict_item key_mapper "length";
      lengths ← getitem data length_column;
      last_package_duration ← at_label (ints lengths) label;
      let no_months := add32 last_package_start last_package_duration in
      let no_packages := Z.of_nat (max_list (df_rows data).*1) in
      let packages_start := values (ints starts) in
      let packages_duration := values (ints lengths) in
      let packages := zip packages_start
                        (zip_with add32 packages_start packages_duration) in
      Return ({| no_months := no_months;
                 no_packages := no_packages;
                 no_phases := no_phases self;
                 packages := packages;
                 phases := phases self;
                 milestones := milestones self |}, data, key_mapper)
  | _, _ => Raise ValueError
  end.

(** [_fill_from_csv], lines 207 to 219.  In line 214 the variable [k] is
    the last key left by the conversion loop. *)
Definition fill_phases (self : t) (data : DataFrame)
    (key_mapper : list (string * string)) : outcome t :=
  match dict_get key_mapper "phase" with
  | None =>
      Return {| no_months := no_months self;
                no_packages := no_packages self;
                no_phases := None;
                packages := packages self;
                phases := None;
                milestones := milestones self |}
  | Some phase_column =>
      assigned ← getitem data phase_column;
      if bool_decide (1 < nunique (ints assigned))%nat then
        data ← match last key_mapper with
               | Some kv => convert_column data kv.2
               | None => Return data
               end;
        assigned ← getitem data phase_column;
        match series_max (ints assigned) with
        | None => Raise ValueError
        | Some m =>
            let self := {| no_months := no_months self;
                           no_packages := no_packages self;
                           no_phases := Some m;
                           packages := packages self;
                           phases := phases self;
                           milestones := milestones self |} in
            start_column ← dict_item key_mapper "start";
            starts ← getitem data start_column;
            length_column ← dict_item key_mapper "length";
            lengths ← getitem data length_column;
            p ← _compose_phases self (ints assigned) (ints starts)
                                (ints lengths);
            Return {| no_months := no_months self;
                      no_packages := no_packages self;
                      no_phases := no_phases self;
                      packages := packages self;
                      phases := Some p;
                      milestones := milestones self |}
        end
      else Return self
  end.

(** [_fill_from_csv] up to line 205: the column checker is built on the
    class attribute itself, and its result is read through the same
    list. *)
Definition load_packages (self : t) (data : DataFrame)
  : Py (t * DataFrame * list (string * string)) :=
  myColumnChecker <- DataColumnChecker.__init__ data ALL_COLUMNS
                       (Some MANDATORY_COLUMNS) ;;
  filtered_columns <-
    deref (DataColumnChecker.get_valid_columns myColumnChecker) ;;
  lift (fill_packages self data filtered_columns).

(** [_fill_from_csv] *)
Definition _fill_from_csv (self : t) (data : DataFrame) : Py t :=
  r <- load_packages self data ;;
  let '(self, data, key_mapper) := r in
  lift (fill_phases self data key_mapper).

(** [_filter_milestones] *)
Definition _filter_milestones (self : t) : Py t :=
  let too_small := filter (λ m, m < 0) (milestones self) in
  ms <- match too_small with
        | [] => ret (milestones self)
        | _ :: _ =>
            print (NegativeMilestones too_small) ;;;
            ret (filter (λ m, ¬ m < 0) (milestones self))
        end ;;
  let too_big := filter (λ m, m > no_months self) ms in
  ms <- match too_big with
        | [] => ret ms
        | _ :: _ =>
            print (ExceedingMilestones (no_months self) too_big) ;;;
            ret (filter (λ m, ¬ m > no_months self) ms)
        end ;;
  ret {| no_months := no_months self;
         no_packages := no_packages self;
         no_phases := no_phases self;
         packages := packages self;
         phases := phases self;
         milestones := ms |}.

(** [__init__] *)
Definition __init__ (data : option DataFrame) (milestones : option (list Z))
  : Py t :=
  let self :=
    {| no_months := 24;
       no_packages := 6;
       no_phases := Some 3;
       packages := [(0, 3); (3, 7); (5, 12); (12, 18); (17, 24); (19, 24)];
       phases := Some [(0, 6); (6, 16); (16, 24)];
       milestones := default [5; 8; 14; 19; 22] milestones |} in
  match data with
  | None => ret self
  | Some data =>
      self <- _fill_from_csv self data ;;
      match milestones with
      | Some _ => _filter_milestones self
      | None => ret self
      end
  end.

(** [load_data] *)
Definition load_data (file : table) (milestones : option (list Z)) : Py t :=
  __init__ (Some (read_csv file)) milestones.

(** Python slice bound on a sequence of length [n]. *)
Definition slice_bound (n x : Z) : Z :=
  if x <? 0 then Z.max (x + n) 0 else Z.min x n.

(** [row[s:e] = True] *)
Definition set_slice (s e : Z) (row : list bool) : list bool :=
  let n := Z.of_nat (length row) in
  imap (λ k b, if (slice_bound n s <=? Z.of_nat k) &&
                  (Z.of_nat k <? slice_bound n e)
               then true else b) row.

(** [_to_boolean_array]; the second dimension of the reshape is
    [self.no_months]; a negative dimension asks numpy to infer it from the
    size of the array, which it refuses for an array without rows. *)
Definition _to_boolean_array (self : t) (arr : option (list (Z * Z)))
    (x_range : Z) : outcome (option grid) :=
  match arr with
  | None => Return None
  | Some arr =>
      let y_range := Z.of_nat (length arr) in
      if y_range * x_range <? 0 then Raise ValueError
      else
        columns ←
          (if 0 <=? no_months self
           then if y_range * no_months self =? y_range * x_range
                then Return (no_months self) else Raise ValueError
           else if 0 <? y_range
                then Return x_range else Raise ValueError);
        let boolean_arr :=
          replicate (length arr) (replicate (Z.to_nat columns) false) in
        Return (Some (zip_with (λ p row, set_slice p.1 p.2 row)
                               arr boolean_arr))
  end.

(** [plot], up to the figure handed to the drawing library. *)
Definition plot (self : t) : outcome Figure :=
  packages ← _to_boolean_array self (Some (packages self)) (no_months self);
  phases ← _to_boolean_array self (phases self) (no_months self);
  Return (Chart.plot_gantt packages phases (milestones self)).

End LazyGantt.

(** * Notions used in the statements *)

(** The first of the three checks that a column fails, with the message of
    that check; [None] when the column passes all three. *)
Definition first_failure (data : DataFrame) (column : string)
  : option string :=
  if negb (has_column data column)
  then Some ("Column '" +:+ column +:+ "' is missing in your input data!")
  else if forallb is_null (values (column_of data column))
  then Some ("Column '" +:+ column +:+ "' is ignored, since it is empty!")
  else if existsb is_text (values (column_of data column))
  then Some ("Column '" +:+ column +:+
             "' is ignored, since it holds text instead " +:+
             "of numeric data!")
  else None.

Definition usable (data : DataFrame) (column : string) : Prop :=
  first_failure data column = None.

(** The list object behind a location. *)
Definition list_at (w : world) (l : loc) : list string :=
  default [] (heap w !! l).

(** The recognized columns of the class [LazyGantt] in a world. *)
Definition recognized (w : world) : list string :=
  list_at w LazyGantt.ALL_COLUMNS.

(** A world with one list object. *)
Definition world_with (l : loc) (v : list string) : world :=
  {| heap := {[ l := v ]}; stdout := [] |}.

(** A record of a file with its three roles. *)
Definition record (start duration : cell) : gmap string cell :=
  <["start" := start]> (<["duration" := duration]> ∅).

Definition record_in_phase (start duration phase : cell)
  : gmap string cell :=
  <["phase_number" := phase]> (record start duration).

(** The default object of [LazyGantt.__init__] before any data is read. *)
Definition fresh (milestones : list Z) : LazyGantt.t :=
  {| LazyGantt.no_months := 24;
     LazyGantt.no_packages := 6;
     LazyGantt.no_phases := Some 3;
     LazyGantt.packages :=
       [(0, 3); (3, 7); (5, 12); (12, 18); (17, 24); (19, 24)];
     LazyGantt.phases := Some [(0, 6); (6, 16); (16, 24)];
     LazyGantt.milestones := milestones |}.

(** [drops_only data mand l w w']: from [w] to [w'] the only change of the
    heap is that columns were removed from the list at [l], each of them an
    optional column that fails a check on [data]; output is only added. *)
Definition drops_only (data : DataFrame) (mand : list string) (l : loc)
    (w w' : world) : Prop :=
  (∀ l', l' ≠ l → heap w' !! l' = heap w !! l') ∧
  list_at w' l `sublist_of` list_at w l ∧
  (∀ c, c ∈ list_at w l →
        c ∈ list_at w' l ∨ (first_failure data c ≠ None ∧ c ∉ mand)) ∧
  stdout w `prefix_of` stdout w'.

(** A session of the process: loads run one after the other on the same
    class. *)
Definition session (loads : list (table * option (list Z))) (w : world)
  : world :=
  foldl (λ w l, (LazyGantt.load_data l.1 l.2 w).2) w loads.

(** The object with another list of milestones. *)
Definition with_milestones (self : LazyGantt.t) (ms : list Z)
  : LazyGantt.t :=
  {| LazyGantt.no_months := LazyGantt.no_months self;
     LazyGantt.no_packages := LazyGantt.no_packages self;
     LazyGantt.no_phases := LazyGantt.no_phases self;
     LazyGantt.packages := LazyGantt.packages self;
     LazyGantt.phases := LazyGantt.phases self;
     LazyGantt.milestones := ms |}.

(** The lines printed for a list of milestones: one for all negative
    values, one for all values beyond the project, each only if there is
    such a value. *)
Definition milestone_report (total : Z) (ms : list Z) : list line :=
  match filter (λ m, m < 0) ms with
  | [] => []
  | neg => [NegativeMilestones neg]
  end ++
  match filter (λ m, 0 ≤ m ∧ total < m) ms with
  | [] => []
  | big => [ExceedingMilestones total big]
  end.

(** Scenario A: two packages, no phase column. *)
Definition scenario_A : table :=
  {| t_columns := ["start"; "duration"];
     t_rows := [record (Num 0) (Num 3); record (Num 3) (Num 4)] |}.

(** Scenario B: four packages in two phases. *)
Definition scenario_B : table :=
  {| t_columns := ["start"; "duration"; "phase_number"];
     t_rows := [record_in_phase (Num 0) (Num 3) (Num 1);
                record_in_phase (Num 3) (Num 6) (Num 1);
                record_in_phase (Num 6) (Num 14) (Num 2);
                record_in_phase (Num 8) (Num 4) (Num 2)] |}.

(** A series over the labels 0, 1, 2, ... *)
Definition range_series {A} (l : list A) : Series A :=
  imap (λ i x, (i, x)) l.

(** A frame with a numeric column [start] and a textual column [label]. *)
Definition labelled_frame : DataFrame :=
  read_csv {| t_columns := ["start"; "label"];
              t_rows := [ <["start" := Num 0]> {[ "label" := Text "kickoff" ]};
                          <["start" := Num 3]> {[ "label" := Text "build" ]} ]
           |}.

(** A frame without the column [start]. *)
Definition frame_without_start : DataFrame :=
  read_csv {| t_columns := ["duration"];
              t_rows := [ {[ "duration" := Num 3 ]} ] |}.

(** Two packages in one single phase. *)
Definition single_phase : table :=
  {| t_columns := ["start"; "duration"; "phase_number"];
     t_rows := [record_in_phase (Num 0) (Num 3) (Num 1);
                record_in_phase (Num 3) (Num 4) (Num 1)] |}.

(** The object that [_fill_from_csv] hands to [_compose_phases] in
    scenario B. *)
Definition scenario_B_self : LazyGantt.t :=
  {| LazyGantt.no_months := 12;
     LazyGantt.no_packages := 3;
     LazyGantt.no_phases := Some 2;
     LazyGantt.packages := [(0, 3); (3, 9); (6, 20); (8, 12)];
     LazyGantt.phases := Some [(0, 6); (6, 16); (16, 24)];
     LazyGantt.milestones := [5; 8; 14; 19; 22] |}.

(** An object of a project of five months. *)
Definition five_months : LazyGantt.t :=
  {| LazyGantt.no_months := 5;
     LazyGantt.no_packages := 1;
     LazyGantt.no_phases := None;
     LazyGantt.packages := [(0, 3); (3, 5)];
     LazyGantt.phases := None;
     LazyGantt.milestones := [] |}.

(** Positions from [i] on at which the group id differs from the one
    before; [prev] is the id before the first. *)
Fixpoint boundaries_from (prev : Z) (i : nat) (ids : list Z) : list nat :=
  match ids with
  | [] => []
  | x :: ids' =>
      if decide (x = prev) then boundaries_from x (S i) ids'
      else i :: boundaries_from x (S i) ids'
  end.

(** The first position of every contiguous run of [ids]. *)
Definition run_starts (ids : list Z) : list nat :=
  match ids with
  | [] => []
  | x :: ids' => 0%nat :: boundaries_from x 1 ids'
  end.

#[global] Instance int32_dec z : Decision (int32 z).
Proof. unfold int32. apply _. Defined.

(** Two phases numbered 1 and 3. *)
Definition gapped_phases : table :=
  {| t_columns := ["start"; "duration"; "phase_number"];
     t_rows := [record_in_phase (Num 0) (Num 3) (Num 1);
                record_in_phase (Num 3) (Num 6) (Num 1);
                record_in_phase (Num 6) (Num 14) (Num 3);
                record_in_phase (Num 8) (Num 4) (Num 3)] |}.

(** The object that [_fill_from_csv] hands to [_compose_phases] for
    [gapped_phases]: [no_phases] is the largest id. *)
Definition gapped_phases_self : LazyGantt.t :=
  {| LazyGantt.no_months := 12;
     LazyGantt.no_packages := 3;
     LazyGantt.no_phases := Some 3;
     LazyGantt.packages := [(0, 3); (3, 9); (6, 20); (8, 12)];
     LazyGantt.phases := Some [(0, 6); (6, 16); (16, 24)];
     LazyGantt.milestones := [5; 8; 14; 19; 22] |}.

(** The rows of a file that the load retains. *)
Definition retained (file : table) : list (gmap string cell) :=
  filter (λ r, is_null (row_get r "start") = false) (t_rows file).

Definition start_of (r : gmap string cell) : Z :=
  int_of_cell (row_get r "start").

Definition duration_of (r : gmap string cell) : Z :=
  int_of_cell (row_get r "duration").

(** Every retained row has an integer in column [c]. *)
Definition numeric_in (file : table) (c : string) : Prop :=
  Forall (λ r, is_num (row_get r c) = true) (retained file).

(** The states of the class attribute that loads can reach. *)
Definition class_ok (w : world) : Prop :=
  recognized w = ["start"; "duration"; "phase_number"] ∨
  recognized w = ["start"; "duration"].

(** Start, duration and their sum are 32-bit integers. *)
Definition fits32 (r : gmap string cell) : Prop :=
  int32 (start_of r) ∧ int32 (duration_of r) ∧
  int32 (start_of r + duration_of r).

(** [data[c] = data[c].astype('int32')] on one row. *)
Definition convert_row (c : string) (r : gmap string cell)
  : gmap string cell :=
  <[c := Num (wrap32 (int_of_cell (row_get r c)))]> r.

(** A row after the conversion of the columns [cs], in this order. *)
Definition convert_rows (cs : list string)
    (rows : list (nat * gmap string cell)) : list (nat * gmap string cell) :=
  (λ p, (p.1, foldl (λ r c, convert_row c r) p.2 cs)) <$> rows.

(** The interval of a record, as computed on the converted columns. *)
Definition package_of (r : gmap string cell) : Z * Z :=
  (wrap32 (start_of r), add32 (wrap32 (start_of r)) (wrap32 (duration_of r))).

#[global] Instance fits32_dec r : Decision (fits32 r).
Proof. unfold fits32. apply _. Defined.

(** A table whose second record has no duration. *)
Definition missing_duration : table :=
  {| t_columns := ["start"; "duration"];
     t_rows := [record (Num 0) (Num 3); record (Num 3) Null] |}.

(** A table whose only record ends beyond the 32-bit range. *)
Definition late_record : table :=
  {| t_columns := ["start"; "duration"];
     t_rows := [record (Num 2147483647) (Num 1)] |}.

(** * Notions used in the further properties *)

(** What the checker's loop leaves of a list without repeated columns:
    a column that passes stays; a column that fails goes, and the column
    right after it stays without being looked at. *)
Fixpoint surviving (data : DataFrame) (l : list string) : list string :=
  match l with
  | [] => []
  | c :: l' =>
      match first_failure data c with
      | None => c :: surviving data l'
      | Some _ =>
          match l' with
          | [] => []
          | c' :: l'' => c' :: surviving data l''
          end
      end
  end.

(** The messages of the columns that the loop drops, in order. *)
Fixpoint dropped_messages (data : DataFrame) (l : list string) : list line :=
  match l with
  | [] => []
  | c :: l' =>
      match first_failure data c with
      | None => dropped_messages data l'
      | Some m =>
          Message m :: match l' with
                       | [] => []
                       | _ :: l'' => dropped_messages data l''
                       end
      end
  end.

(** The columns that the loop looks at. *)
Fixpoint visited (data : DataFrame) (l : list string) : list string :=
  match l with
  | [] => []
  | c :: l' =>
      match first_failure data c with
      | None => c :: visited data l'
      | Some _ =>
          c :: match l' with
               | [] => []
               | _ :: l'' => visited data l''
               end
      end
  end.

(** [logged data mand l w w']: from [w] to [w'] the output grew by one
    message per column removed from the list at [l], each the message of
    the first failing check of an optional column of that list. *)
Definition logged (data : DataFrame) (mand : list string) (l : loc)
    (w w' : world) : Prop :=
  ∃ msgs : list string,
    stdout w' = stdout w ++ (Message <$> msgs) ∧
    length (list_at w l) = (length (list_at w' l) + length msgs)%nat ∧
    Forall (λ m, ∃ c, c ∈ list_at w l ∧ (c ∉ mand) ∧
                      first_failure data c = Some m) msgs.


(** The first failure among the mandatory columns of [LazyGantt], in the
    order in which the checker meets them. *)
Definition first_mandatory_failure (data : DataFrame) : option string :=
  match first_failure data "start" with
  | Some m => Some m
  | None => first_failure data "duration"
  end.

(** The lines that a load prints for its milestones. *)
Definition milestone_lines (total : Z) (ms : option (list Z)) : list line :=
  match ms with
  | Some ms => milestone_report total ms
  | None => []
  end.

(** The retained rows of a file with their labels. *)
Definition labelled_retained (file : table) : list (nat * gmap string cell) :=
  filter (λ r, is_null (row_get r.2 "start") = false)
         (df_rows (read_csv file)).

(** The columns that the checker of a load leaves recognized. *)
Definition validated (w : world) (file : table) : list string :=
  surviving (read_csv file) (recognized w).

(** The key mapper of a load. *)
Definition load_key_mapper (w : world) (file : table)
  : list (string * string) :=
  foldl LazyGantt._build_key_mapper [] (validated w file).

(** The frame of a load after the rows without start are dropped and the
    mapped columns are converted. *)
Definition converted_frame (w : world) (file : table) : DataFrame :=
  {| df_columns := t_columns file;
     df_rows := convert_rows (load_key_mapper w file).*2
                             (labelled_retained file) |}.

(** The world after the checker of a load. *)
Definition world_after_checker (w : world) (file : table) : world :=
  {| heap := <[LazyGantt.ALL_COLUMNS := validated w file]> (heap w);
     stdout := stdout w ++ dropped_messages (read_csv file) (recognized w) |}.

(** The object of a load after line 205, where [r] is the record that
    gives the total duration. *)
Definition loaded_packages (self : LazyGantt.t) (file : table)
    (r : gmap string cell) : LazyGantt.t :=
  {| LazyGantt.no_months :=
       add32 (wrap32 (start_of r)) (wrap32 (duration_of r));
     LazyGantt.no_packages :=
       Z.of_nat (max_list (labelled_retained file).*1);
     LazyGantt.no_phases := LazyGantt.no_phases self;
     LazyGantt.packages := package_of <$> retained file;
     LazyGantt.phases := LazyGantt.phases self;
     LazyGantt.milestones := LazyGantt.milestones self |}.

(** The grid that the conversion fills for a width that is the object's
    [no_months]: one row of that width per interval, set on the slice of
    the interval. *)
Definition filled (self : LazyGantt.t) (arr : list (Z * Z))
  : list (list bool) :=
  zip_with (λ p row, LazyGantt.set_slice p.1 p.2 row) arr
    (replicate (length arr)
       (replicate (Z.to_nat (LazyGantt.no_months self)) false)).

(** The phase number of a record. *)
Definition phase_of (r : gmap string cell) : Z :=
  int_of_cell (row_get r "phase_number").

(** The converted columns of the retained records of a file. *)
Definition phase_ids (file : table) : list Z :=
  (λ r, wrap32 (phase_of r)) <$> retained file.

Definition starts_of (file : table) : list Z :=
  (λ r, wrap32 (start_of r)) <$> retained file.

Definition durations_of (file : table) : list Z :=
  (λ r, wrap32 (duration_of r)) <$> retained file.

(** The frame of a load after line 214, which converts the phase column
    once more. *)
Definition reconverted (w : world) (file : table) : DataFrame :=
  {| df_columns := t_columns file;
     df_rows := (λ p, (p.1, convert_row "phase_number" p.2)) <$>
                df_rows (converted_frame w file) |}.

(** * The chart of [lazygantt/visuals.py]: configuration and labels

    A configuration is the document that [yaml.safe_load] returns for a
    configuration file: a mapping from section names to sections, a section
    a mapping from names to scalars, both in the order of the file and
    without repeated keys.  An empty file gives no document.  A float is
    kept as its literal.  A color whose value is a sequence or a mapping,
    and a color section that is not a mapping, are not configurations of
    this model: for them the source leaves the loop over the colors with a
    [TypeError] or an [AttributeError]. *)

Inductive scalar :=
  | SNull
  | SBool (b : bool)
  | SInt (z : Z)
  | SFloat (literal : string)
  | SStr (s : string).

(** [d.get(k)] on an insertion-ordered mapping with string keys. *)
Fixpoint assoc_get {V} (d : list (string * V)) (k : string) : option V :=
  match d with
  | [] => None
  | (k', v) :: d' => if decide (k = k') then Some v else assoc_get d' k
  end.

Module ChartConfig.

Record t := {
  colors : list (string * string);
  image : list (string * scalar);
  font : list (string * scalar);
  milestones : list (string * scalar);
  labels : list (string * scalar)
}.

(** The attributes that [Chart.__init__] sets before it looks at
    [config]. *)
Definition defaults : t :=
  {| colors := [ ("primary", "steelblue"); ("secondary", "yellowgreen");
                 ("contrast", "darkred"); ("background", "beige") ];
     image := [ ("width", SInt 25); ("height", SInt 10);
                ("aspect", SFloat "1."); ("dpi", SInt 150);
                ("format", SStr "png") ];
     font := [ ("fontsize", SStr "16") ];
     milestones := [ ("linewidth", SFloat "2.5") ];
     labels := [ ("package_abbr", SStr "WP");
                 ("package_ylabel", SStr "Work Packages");
                 ("milestones_abbr", SStr "MS");
                 ("phase_abbr", SStr "P");
                 ("phase_ylabel", SStr "Phases");
                 ("xlabel", SStr "Months");
                 ("xticks_steps", SInt 2) ] |}.

Section Colors.

(** The keys of [mcolors.CSS4_COLORS], and the text that [%s] gives for
    the list of them. *)
Variable CSS4_COLORS : list string.
Variable CSS4_text : string.

(** [mcolors.CSS4_COLORS[v]] finds an entry only for a string that is one
    of the keys; for every other scalar the lookup raises [KeyError]. *)
Definition is_color (v : scalar) : option string :=
  match v with
  | SStr s => if decide (s ∈ CSS4_COLORS) then Some s else None
  | _ => None
  end.

(** The line printed for a color that does not exist.  The string literal
    of the source continues over a line break, so it contains the
    indentation of its second line. *)
Definition unknown_color (k : string) : line :=
  Message ("Color stated for '" +:+ k +:+ "' does not exist! " +:+
           "                      Choose color from: '" +:+
           CSS4_text +:+ "'").

(** The loop over [config['colors'].items()] for scalar values: the
    [KeyError] of the lookup is caught, so the loop goes through all of
    them. *)
Fixpoint colors_loop (colors : list (string * string))
    (items : list (string * scalar)) (w : world)
  : list (string * string) * world :=
  match items with
  | [] => (colors, w)
  | (k, v) :: items' =>
      match is_color v with
      | Some s => colors_loop (dict_set colors k s) items' w
      | None => colors_loop colors items' (print (unknown_color k) w).2
      end
  end.

(** [_process_config]: the chart is updated in place, so the result
    carries the chart as it is when the method returns or raises. *)
Definition _process_config (self : t)
    (config : list (string * list (string * scalar))) (w : world)
  : outcome unit * t * world :=
  match assoc_get config "colors" with
  | None => (Raise (KeyError "colors"), self, w)
  | Some items =>
      let '(colors', w) := colors_loop (colors self) items w in
      let self := {| colors := colors'; image := image self;
                     font := font self; milestones := milestones self;
                     labels := labels self |} in
      match assoc_get config "image" with
      | None => (Raise (KeyError "image"), self, w)
      | Some s =>
          let self := {| colors := colors self; image := s;
                         font := font self; milestones := milestones self;
                         labels := labels self |} in
          match assoc_get config "font" with
          | None => (Raise (KeyError "font"), self, w)
          | Some s =>
              let self := {| colors := colors self; image := image self;
                             font := s; milestones := milestones self;
                             labels := labels self |} in
              match assoc_get config "milestones" with
              | None => (Raise (KeyError "milestones"), self, w)
              | Some s =>
                  let self := {| colors := colors self;
                                 image := image self; font := font self;
                                 milestones := s; labels := labels self |} in
                  match assoc_get config "labels" with
                  | None => (Raise (KeyError "labels"), self, w)
                  | Some s =>
                      (Return tt,
                       {| colors := colors self; image := image self;
                          font := font self;
                          milestones := milestones self; labels := s |},
                       w)
                  end
              end
          end
      end
  end.

(** [Chart.__init__] *)
Definition __init__
    (config : option (list (string * list (string * scalar)))) (w : world)
  : outcome unit * t * world :=
  match config with
  | None => (Return tt, defaults, w)
  | Some config => _process_config defaults config w
  end.

(** [load_config]: [document] is what [yaml.safe_load] returns for the
    file; subscripting the [None] of an empty file raises [TypeError]. *)
Definition load_config (self : t)
    (document : option (list (string * list (string * scalar))))
    (w : world) : outcome unit * t * world :=
  match document with
  | None => (Raise TypeError, self, w)
  | Some config => _process_config self config w
  end.

(** A chart made without configuration, after the configuration files
    [documents] were loaded one after the other; a load that raises leaves
    the chart as it is at that point. *)
Definition configured
    (documents : list (option (list (string * list (string * scalar)))))
    (w : world) : t * world :=
  foldl (λ cw document,
           let '(_, c, w) := load_config cw.1 document cw.2 in (c, w))
        ((__init__ None w).1.2, (__init__ None w).2) documents.

End Colors.

(** [np.argmax] of a row that is not empty: the first position of the
    greatest value, for booleans the first [True], or 0 without one. *)
Definition argmax (row : list bool) : nat :=
  match list_find (λ b, b = true) row with
  | Some p => p.1
  | None => 0%nat
  end.

(** [text_positions = np.argmax(data, axis=1)] in [_plot_slots], for data
    of [x_max] columns: over an axis of length 0 numpy raises. *)
Definition text_positions (x_max : nat) (data : list (list bool))
  : outcome (list nat) :=
  if decide (x_max = 0%nat) then Raise ValueError
  else Return (argmax <$> data).

End ChartConfig.

(** * Lemmas *)

(** ** The column validator *)

Section Cascade.
Import DataColumnChecker.

Lemma has_column_first_failure data column :
  has_column data column = false →
  first_failure data column =
    Some ("Column '" +:+ column +:+ "' is missing in your input data!").
Proof. intros H. unfold first_failure. by rewrite H. Qed.

Lemma usable_has_column data column :
  usable data column → has_column data column = true.
Proof.
  unfold usable, first_failure.
  destruct (has_column data column); [done | discriminate].
Qed.

(** The cascade of conditions on one column: nothing happens for a column
    that passes; a failing mandatory column raises; a failing optional
    column is removed from the shared list and its message printed. *)
Lemma check_cascade_spec self column data w :
  check_cascade self column data conditions w =
    match first_failure data column with
    | None => (Return false, w)
    | Some message =>
        if bool_decide (column ∈ mandatory_columns self)
        then (Raise (Exception
                ("Mandatory column cannot be processed! " +:+ message)), w)
        else (list_remove (target_columns self) column ;;;
              print (Message message) ;;; ret true) w
    end.
Proof.
  unfold first_failure, conditions, check_cascade.
  unfold _check_existence, _check_content, _check_for_strings,
    is_string_dtype, getitem.
  unfold bind at 1, lift at 1.
  destruct (has_column data column); simpl.
  2: { by destruct (bool_decide _). }
  unfold bind at 1, lift at 1. simpl.
  destruct (forallb is_null _); simpl.
  { by destruct (bool_decide _). }
  unfold bind at 1, lift at 1. simpl.
  destruct (existsb is_text _); simpl.
  { by destruct (bool_decide _). }
  done.
Qed.

End Cascade.

(** *** Effect of the validator on the world *)

Lemma remove_first_sublist x l l' :
  remove_first x l = Some l' → l' `sublist_of` l.
Proof.
  revert l'. induction l as [|y l IH]; intros l'; simpl; [done |].
  destruct (decide (x = y)) as [->|_].
  - intros [= <-]. by apply sublist_cons.
  - destruct (remove_first x l) as [r|]; simpl; [|done].
    intros [= <-]. apply sublist_skip. by apply IH.
Qed.

Lemma remove_first_elem x l l' c :
  remove_first x l = Some l' → c ∈ l → c ∈ l' ∨ c = x.
Proof.
  revert l'. induction l as [|y l IH]; intros l'; simpl; [done |].
  destruct (decide (x = y)) as [->|_].
  - intros [= <-]. rewrite elem_of_cons. intros [->|?]; auto.
  - destruct (remove_first x l) as [r|]; simpl; [|done].
    intros [= <-]. rewrite !elem_of_cons. intros [->|Hc]; [auto |].
    destruct (IH _ eq_refl Hc); auto.
Qed.

Lemma remove_first_is_Some x l : x ∈ l → is_Some (remove_first x l).
Proof.
  induction l as [|y l IH]; simpl; [by intros ?%elem_of_nil |].
  destruct (decide (x = y)) as [->|Hne]; [by eexists |].
  rewrite elem_of_cons. intros [?|Hin]; [done |].
  destruct (IH Hin) as [r ->]. by eexists.
Qed.

Lemma drops_only_refl data mand l w : drops_only data mand l w w.
Proof. repeat split; auto. Qed.


Section ValidatorEffect.
Import DataColumnChecker.

Lemma list_at_insert w l v out :
  list_at {| heap := <[l := v]> (heap w); stdout := out |} l = v.
Proof. unfold list_at. simpl. by rewrite lookup_insert_eq. Qed.

Lemma check_cascade_drops_only self column data w :
  column ∈ list_at w (target_columns self) →
  drops_only data (mandatory_columns self) (target_columns self)
    w (check_cascade self column data conditions w).2.
Proof.
  intros Hin. rewrite check_cascade_spec.
  destruct (first_failure data column) as [message|] eqn:Hff;
    [|apply drops_only_refl].
  destruct (bool_decide (column ∈ mandatory_columns self)) eqn:Hmand;
    [apply drops_only_refl |].
  apply bool_decide_eq_false in Hmand.
  unfold list_remove, bind, deref, assign, print, ret, raise. simpl.
  fold (list_at w (target_columns self)).
  destruct (remove_first column (list_at w (target_columns self)))
    as [v'|] eqn:Hrm; simpl; [|apply drops_only_refl].
  split; [|split; [|split]]; simpl.
  - intros l' Hl'. by rewrite lookup_insert_ne.
  - rewrite list_at_insert. by eapply remove_first_sublist.
  - intros c Hc. rewrite list_at_insert.
    destruct (remove_first_elem _ _ _ c Hrm Hc) as [?| ->]; [by left |].
    right. split; [by rewrite Hff | done].
  - by apply prefix_app_r.
Qed.

Lemma columns_loop_S fuel self data i w :
  columns_loop (S fuel) self data i w =
    match list_at w (target_columns self) !! i with
    | None => (Return tt, w)
    | Some column =>
        match check_cascade self column data conditions w with
        | (Return _, w1) => columns_loop fuel self data (S i) w1
        | (Raise e, w1) => (Raise e, w1)
        end
    end.
Proof.
  simpl. unfold bind at 1, deref at 1, list_at. simpl.
  by destruct (default [] (heap w !! target_columns self) !! i).
Qed.

Lemma columns_loop_end fuel self data i w :
  list_at w (target_columns self) !! i = None →
  columns_loop fuel self data i w = (Return tt, w).
Proof.
  intros Hi. destruct fuel; [done |]. by rewrite columns_loop_S, Hi.
Qed.


(** The bound on the steps of the outer loop is never what ends it. *)
Lemma columns_loop_fuel fuel fuel' self data i w :
  (length (list_at w (target_columns self)) - i ≤ fuel)%nat →
  (length (list_at w (target_columns self)) - i ≤ fuel')%nat →
  columns_loop fuel self data i w = columns_loop fuel' self data i w.
Proof.
  revert fuel' i w. induction fuel as [|fuel IH]; intros fuel' i w Hf Hf'.
  { rewrite !columns_loop_end; [done | apply lookup_ge_None; lia ..]. }
  destruct fuel' as [|fuel'].
  { rewrite !columns_loop_end; [done | apply lookup_ge_None; lia ..]. }
  rewrite !columns_loop_S.
  destruct (list_at w (target_columns self) !! i) as [column|] eqn:Hi;
    [|done].
  pose proof (check_cascade_drops_only self column data w
                (list_elem_of_lookup_2 _ _ _ Hi)) as (_ & Hsub & _).
  apply lookup_lt_Some in Hi.
  destruct (check_cascade self column data conditions w)
    as [[b|e] w1]; [|done].
  apply sublist_length in Hsub. simpl in Hsub. apply IH; lia.
Qed.

Lemma init_unfold data l mand w :
  __init__ data l mand w =
    let self := {| target_columns := l;
                   mandatory_columns := default [] mand |} in
    match list_at w l with
    | [] => (Raise (Exception
               "Empty target_columns! No filtering possible!"), w)
    | _ :: _ =>
        match columns_loop (length (list_at w l)) self data 0 w with
        | (Return _, w1) => (Return self, w1)
        | (Raise e, w1) => (Raise e, w1)
        end
    end.
Proof.
  unfold __init__, _filter_for_valid_columns, bind, deref, list_at.
  cbv beta iota zeta delta [target_columns].
  destruct (default [] (heap w !! l)) eqn:Hl; [done |].
  cbv beta iota. rewrite Hl.
  by destruct (columns_loop _ _ _ _ _) as [[[]|e] w1].
Qed.



End ValidatorEffect.

(** *** Effect of a load on the world *)

Section LoadEffect.
Import LazyGantt.

Lemma load_packages_world self data w :
  (load_packages self data w).2 =
  (DataColumnChecker.__init__ data ALL_COLUMNS
     (Some MANDATORY_COLUMNS) w).2.
Proof.
  unfold load_packages, bind, deref, lift.
  by destruct (DataColumnChecker.__init__ _ _ _ _) as [[chk|e] w1].
Qed.

Lemma fill_from_csv_world self data w :
  (_fill_from_csv self data w).2 =
  (DataColumnChecker.__init__ data ALL_COLUMNS
     (Some MANDATORY_COLUMNS) w).2.
Proof.
  unfold _fill_from_csv, bind at 1.
  rewrite <- (load_packages_world self data w).
  by destruct (load_packages self data w) as [[[[s d] k]|e] w1].
Qed.

Lemma filter_milestones_heap self w :
  heap (_filter_milestones self w).2 = heap w.
Proof.
  unfold _filter_milestones, bind, print, ret.
  destruct (filter _ (milestones self)); simpl;
    by destruct (filter _ _).
Qed.

Lemma load_data_heap file ms w :
  heap (load_data file ms w).2 =
  heap (DataColumnChecker.__init__ (read_csv file) ALL_COLUMNS
          (Some MANDATORY_COLUMNS) w).2.
Proof.
  unfold load_data, LazyGantt.__init__, bind at 1.
  rewrite <- (fill_from_csv_world (fresh (default [5; 8; 14; 19; 22] ms))).
  fold (fresh (default [5; 8; 14; 19; 22] ms)).
  destruct (_fill_from_csv _ _ w) as [[self|e] w1]; [|done].
  destruct ms; [|done]. apply filter_milestones_heap.
Qed.



End LoadEffect.

(** ** The milestone filter *)

Section Milestones.
Import LazyGantt.

Lemma filter_in_range total (ms : list Z) :
  filter (λ m, ¬ m > total) (filter (λ m, ¬ m < 0) ms) =
  filter (λ m, 0 ≤ m ≤ total) ms.
Proof.
  rewrite list_filter_filter. apply list_filter_iff. intros m. lia.
Qed.

Lemma filter_exceeding total (ms : list Z) :
  filter (λ m, m > total) (filter (λ m, ¬ m < 0) ms) =
  filter (λ m, 0 ≤ m ∧ total < m) ms.
Proof.
  rewrite list_filter_filter. apply list_filter_iff. intros m. lia.
Qed.

Lemma filter_none_negative (ms : list Z) :
  filter (λ m, m < 0) ms = [] → filter (λ m, ¬ m < 0) ms = ms.
Proof.
  induction ms as [|m ms IH]; [done |].
  rewrite !filter_cons. destruct (decide (m < 0)); [done |].
  intros H. destruct (decide (¬ m < 0)); [|done]. by rewrite IH.
Qed.

Lemma filter_none_exceeding total (ms : list Z) :
  filter (λ m, m > total) ms = [] → filter (λ m, ¬ m > total) ms = ms.
Proof.
  induction ms as [|m ms IH]; [done |].
  rewrite !filter_cons. destruct (decide (m > total)); [done |].
  intros H. destruct (decide (¬ m > total)); [|done]. by rewrite IH.
Qed.

End Milestones.

(** ** The occupancy grid *)

Section Grid.
Import LazyGantt.

Lemma set_slice_length s e row : length (set_slice s e row) = length row.
Proof. unfold set_slice. by rewrite length_imap. Qed.

(** With bounds that are not negative a slice is what its bounds say. *)
Lemma set_slice_lookup (n : nat) s e (k : nat) :
  0 ≤ s → 0 ≤ e ≤ Z.of_nat n → (k < n)%nat →
  set_slice s e (replicate n false) !! k =
    Some (bool_decide (s ≤ Z.of_nat k < e)).
Proof.
  intros Hs He Hk. unfold set_slice.
  rewrite list_lookup_imap, length_replicate.
  rewrite lookup_replicate_2 by done. simpl. f_equal.
  unfold slice_bound.
  destruct (Z.ltb_spec s 0); [lia |].
  destruct (Z.ltb_spec e 0); [lia |].
  rewrite (Z.min_l e) by lia.
  destruct (Z.leb_spec (Z.min s (Z.of_nat n)) (Z.of_nat k));
    destruct (Z.ltb_spec (Z.of_nat k) e); simpl;
    symmetry; (apply bool_decide_eq_true_2 || apply bool_decide_eq_false_2);
    lia.
Qed.

End Grid.

(** ** Phase aggregation *)

Section Runs.

Lemma boundaries_from_S prev i ids :
  boundaries_from prev (S i) ids = S <$> boundaries_from prev i ids.
Proof.
  revert prev i. induction ids as [|x ids IH]; intros prev i; simpl; [done |].
  destruct (decide (x = prev)); simpl; by rewrite IH.
Qed.

Lemma boundaries_from_bound prev i ids :
  Forall (λ j, i ≤ j < i + length ids)%nat (boundaries_from prev i ids).
Proof.
  revert prev i. induction ids as [|x ids IH]; intros prev i; simpl;
    [constructor |].
  assert (Forall (λ j, i ≤ j < i + S (length ids))%nat
            (boundaries_from x (S i) ids)) as Htail.
  { eapply Forall_impl; [apply IH |]. simpl. intros j. lia. }
  destruct (decide (x = prev)); [done |]. constructor; [lia | done].
Qed.

Lemma run_starts_bound ids :
  Forall (λ j, j < length ids)%nat (run_starts ids).
Proof.
  destruct ids as [|x ids]; simpl; [constructor |].
  constructor; [lia |].
  eapply Forall_impl; [apply (boundaries_from_bound x 1 ids) |].
  simpl. intros j. lia.
Qed.

Lemma labels_where_cons {A} (P : A → bool) l x (s : Series A) :
  labels_where P ((l, x) :: s) =
    if P x then l :: labels_where P s else labels_where P s.
Proof.
  unfold labels_where, index. rewrite filter_cons. simpl.
  destruct (P x); by destruct (decide _).
Qed.

Lemma labels_diff_from prev (idx : list nat) ids :
  length ids = length idx →
  labels_where nonzero (diff_from prev (zip idx ids)) =
    (λ j, idx !!! j) <$> boundaries_from prev 0 ids.
Proof.
  revert prev idx. induction ids as [|x ids IH]; intros prev idx Hlen.
  { by destruct idx. }
  destruct idx as [|l idx]; [done |]. simpl in Hlen.
  simpl. rewrite labels_where_cons, IH by lia.
  rewrite boundaries_from_S.
  destruct (decide (x = prev)) as [->|Hne]; simpl.
  - rewrite Z.sub_diag. simpl. by rewrite <- list_fmap_compose.
  - destruct (Z.eqb_spec (x - prev) 0); [lia |]. simpl.
    by rewrite <- list_fmap_compose.
Qed.

Lemma labels_diff (idx : list nat) ids :
  length ids = length idx →
  labels_where nonzero (diff (zip idx ids)) =
    (λ j, idx !!! j) <$> run_starts ids.
Proof.
  intros Hlen. destruct ids as [|x ids]; [by destruct idx |].
  destruct idx as [|l idx]; [done |]. simpl in Hlen.
  simpl. rewrite labels_where_cons. simpl.
  rewrite labels_diff_from by lia.
  by rewrite boundaries_from_S, <- list_fmap_compose.
Qed.

Lemma at_label_elem {A} (s : Series A) lbl v :
  NoDup (s.*1) → (lbl, v) ∈ s → at_label s lbl = Return v.
Proof.
  unfold at_label. induction s as [|[l x] s IH]; intros Hnd Hin.
  { by apply elem_of_nil in Hin. }
  simpl in *.
  destruct (decide (l = lbl)) as [->|Hne]; simpl.
  - apply elem_of_cons in Hin as [[= ->]|Hin]; [done |].
    apply NoDup_cons in Hnd as [Hfresh _]. destruct Hfresh.
    apply list_elem_of_fmap. by exists (lbl, v).
  - apply elem_of_cons in Hin as [[= ? ?]|Hin]; [congruence |].
    apply NoDup_cons in Hnd as [_ Hnd]. specialize (IH Hnd Hin).
    by destruct (list_find _ s) as [[i p]|].
Qed.

Lemma mapM_cons_outcome {A B} (f : A → outcome B) x l :
  mapM f (x :: l) = y ← f x; k ← mapM f l; Return (y :: k).
Proof. reflexivity. Qed.

Lemma at_labels_positions {A} `{Inhabited A} (idx : list nat) (vals : list A)
    (js : list nat) :
  NoDup idx → length vals = length idx →
  Forall (λ j, j < length idx)%nat js →
  at_labels (zip idx vals) ((λ j, idx !!! j) <$> js) =
    Return ((λ j, vals !!! j) <$> js).
Proof.
  intros Hnd Hlen Hjs. unfold at_labels.
  induction Hjs as [|j js Hj Hjs IH]; [done |].
  rewrite !fmap_cons, mapM_cons_outcome, IH.
  rewrite (at_label_elem _ _ (vals !!! j)); [done | |].
  - by rewrite fst_zip by lia.
  - apply list_elem_of_lookup. exists j. apply lookup_zip_Some.
    split; apply list_lookup_lookup_total_lt; lia.
Qed.

End Runs.

Lemma wrap32_int32 z : int32 z → wrap32 z = z.
Proof.
  unfold int32, wrap32. intros Hz. rewrite Z.mod_small; lia.
Qed.

Lemma add32_int32 a b : int32 (a + b) → add32 a b = a + b.
Proof. apply wrap32_int32. Qed.

Lemma broadcast_same {A} (n : nat) (v : list A) :
  length v = n → broadcast n v = Return v.
Proof. intros H. unfold broadcast. by rewrite decide_True. Qed.

Lemma bind_Return {A B} (a : A) (k : A → outcome B) : Return a ≫= k = k a.
Proof. reflexivity. Qed.

Section Assemble.

(** The array that [_compose_phases] fills: first column, second column
    of all rows but the last, second entry of the last row. *)
Lemma phases_array (n' : nat) (col0 col1 : list Z) (total : Z) :
  length col0 = S n' → length col1 = n' →
  let phases := (λ x, (x, 0)) <$> col0 in
  let res := alter (λ p : Z * Z, (p.1, total)) n'
               (zip_with (λ (p : Z * Z) x, (p.1, x)) (take n' phases) col1 ++
                drop n' phases) in
  length res = S n' ∧
  ∀ m x, col0 !! m = Some x →
         res !! m = Some (x, default total (col1 !! m)).
Proof.
  intros Hc0 Hc1 phases res.
  assert (length (zip_with (λ (p : Z * Z) x, (p.1, x))
                    (take n' phases) col1) = n') as HlenA.
  { rewrite length_zip_with, length_take. unfold phases.
    rewrite length_fmap. lia. }
  split.
  { unfold res. rewrite length_alter, length_app, HlenA, length_drop.
    unfold phases. rewrite length_fmap. lia. }
  intros m x Hm.
  assert (m < S n')%nat as Hlt by (rewrite <- Hc0; by eapply lookup_lt_Some).
  unfold res. destruct (decide (m = n')) as [->|Hne].
  - rewrite list_lookup_alter_eq, lookup_app_r by lia.
    rewrite HlenA, Nat.sub_diag, lookup_drop, Nat.add_0_r.
    unfold phases. rewrite list_lookup_fmap, Hm. simpl.
    rewrite (lookup_ge_None_2 col1) by lia. done.
  - rewrite list_lookup_alter_ne, lookup_app_l by lia.
    rewrite lookup_zip_with, lookup_take_lt by lia.
    unfold phases. rewrite list_lookup_fmap, Hm. simpl.
    destruct (lookup_lt_is_Some_2 col1 m) as [y Hy]; [lia |].
    by rewrite Hy.
Qed.

End Assemble.

Lemma elem_of_boundaries_from prev i ids j :
  j ∈ boundaries_from prev i ids ↔
    (i ≤ j < i + length ids)%nat ∧
    ids !! (j - i)%nat ≠ (prev :: ids) !! (j - i)%nat.
Proof.
  revert prev i. induction ids as [|x ids IH]; intros prev i.
  { simpl. split; [by intros ?%elem_of_nil | lia]. }
  assert (j ∈ boundaries_from prev i (x :: ids) ↔
          (x ≠ prev ∧ j = i) ∨ j ∈ boundaries_from x (S i) ids) as ->.
  { simpl. destruct (decide (x = prev)); [|rewrite elem_of_cons]; tauto. }
  rewrite IH. simpl length.
  destruct (decide (j = i)) as [->|Hne].
  - rewrite Nat.sub_diag. simpl. split.
    + intros [[Hx _]|[? _]]; [|lia]. split; [lia | congruence].
    + intros [_ Hx]. left. split; [congruence | done].
  - split.
    + intros [[_ ?]|[Hj Hd]]; [done |]. split; [lia |].
      replace (j - i)%nat with (S (j - S i)) by lia. done.
    + intros [Hj Hd]. right. split; [lia |].
      replace (j - i)%nat with (S (j - S i)) in Hd by lia. done.
Qed.

(** The run starts are the positions whose group id differs from the one
    before, and position 0. *)
Lemma elem_of_run_starts ids i :
  i ∈ run_starts ids ↔
    (i < length ids)%nat ∧ (i = 0%nat ∨ ids !! (i - 1)%nat ≠ ids !! i).
Proof.
  destruct ids as [|x ids]; simpl.
  { split; [by intros ?%elem_of_nil | lia]. }
  rewrite elem_of_cons, elem_of_boundaries_from.
  destruct i as [|i]; [split; [intros _; split; [lia | by left] | by left] |].
  simpl. rewrite Nat.sub_0_r. split.
  - intros [?|[Hi Hd]]; [done |]. split; [lia |]. right. congruence.
  - intros [Hi [?|Hd]]; [done |]. right. split; [lia | congruence].
Qed.

Lemma boundaries_from_sorted prev i ids :
  StronglySorted lt (boundaries_from prev i ids).
Proof.
  revert prev i. induction ids as [|x ids IH]; intros prev i; simpl;
    [constructor |].
  destruct (decide (x = prev)); [apply IH |].
  constructor; [apply IH |].
  eapply Forall_impl; [apply (boundaries_from_bound x (S i) ids) |].
  simpl. intros j. lia.
Qed.

(** The run starts are listed in increasing order, each once. *)
Lemma run_starts_sorted ids : StronglySorted lt (run_starts ids).
Proof.
  destruct ids as [|x ids]; simpl; constructor.
  - apply boundaries_from_sorted.
  - eapply Forall_impl; [apply (boundaries_from_bound x 1 ids) |].
    simpl. intros j. lia.
Qed.

(** ** Loading packages *)

Section Frames.

Lemma read_csv_labels file :
  (df_rows (read_csv file)).*1 = seq 0 (length (t_rows file)).
Proof.
  unfold read_csv. simpl. rewrite fmap_imap.
  rewrite (imap_ext _ (λ j _, id j)) by done.
  by rewrite imap_seq_0, list_fmap_id.
Qed.

Lemma read_csv_NoDup file : NoDup (df_rows (read_csv file)).*1.
Proof. rewrite read_csv_labels. apply NoDup_seq. Qed.

Lemma read_csv_rows file :
  (df_rows (read_csv file)).*2 = t_rows file.
Proof.
  unfold read_csv. simpl. rewrite fmap_imap.
  rewrite (imap_ext _ (const id)) by done.
  by rewrite imap_const, list_fmap_id.
Qed.

Lemma filter_ext_in {A} (P Q : A → Prop) `{∀ x, Decision (P x)}
    `{∀ x, Decision (Q x)} (l : list A) :
  (∀ x, x ∈ l → P x ↔ Q x) → filter P l = filter Q l.
Proof.
  induction l as [|x l IH]; intros Hext; [done |].
  rewrite !filter_cons.
  rewrite IH by (intros y Hy; apply Hext; by right).
  destruct (decide (P x)) as [HP|HP], (decide (Q x)) as [HQ|HQ]; try done.
  - destruct HQ. apply Hext; [by left | done].
  - destruct HP. apply Hext; [by left | done].
Qed.

Lemma filter_fmap {A B} (f : A → B) (P : B → Prop) `{∀ y, Decision (P y)}
    (l : list A) :
  filter P (f <$> l) = f <$> filter (λ x, P (f x)) l.
Proof.
  induction l as [|x l IH]; [done |].
  rewrite fmap_cons, !filter_cons, IH. by destruct (decide (P (f x))).
Qed.

Lemma labels_where_column data c :
  labels_where is_null (column_of data c) =
    (filter (λ r, is_null (row_get r.2 c) = true) (df_rows data)).*1.
Proof.
  unfold labels_where, index, column_of.
  rewrite filter_fmap, <- list_fmap_compose. done.
Qed.

(** Dropping the labels of the rows without start keeps the rows with a
    start, when no label occurs twice. *)
Lemma drop_nan_rows data c :
  NoDup (df_rows data).*1 →
  df_rows (drop_rows (labels_where is_null (column_of data c)) data) =
    filter (λ r, is_null (row_get r.2 c) = false) (df_rows data).
Proof.
  intros Hnd. unfold drop_rows. simpl. rewrite labels_where_column.
  apply filter_ext_in. intros [l r] Hin. simpl.
  rewrite list_elem_of_fmap. split.
  - intros Hnot. destruct (is_null (row_get r c)) eqn:Hnull; [|done].
    destruct Hnot. exists (l, r). split; [done |].
    by apply list_elem_of_filter.
  - intros Hnull [[l' r'] [Hl [Hnull' Hin']%list_elem_of_filter]].
    simpl in *. subst l'.
    assert (r' = r) as ->; [|congruence].
    clear Hnull Hnull'. induction (df_rows data) as [|[l0 r0] rows IH];
      [by apply elem_of_nil in Hin |].
    simpl in Hnd. apply NoDup_cons in Hnd as [Hfresh Hnd].
    apply elem_of_cons in Hin as [Heq|Hin];
      apply elem_of_cons in Hin' as [Heq'|Hin']; simplify_eq; try done.
    + destruct Hfresh. apply list_elem_of_fmap. by exists (l0, r').
    + destruct Hfresh. apply list_elem_of_fmap. by exists (l0, r).
    + by apply IH.
Qed.

Lemma retained_read_csv file :
  (filter (λ r, is_null (row_get r.2 "start") = false)
          (df_rows (read_csv file))).*2 = retained file.
Proof.
  unfold retained. rewrite <- (read_csv_rows file) at 1.
  by rewrite filter_fmap.
Qed.

End Frames.

Section Conversion.

Lemma row_get_convert_row c c' r :
  row_get (convert_row c r) c' =
    if decide (c = c') then Num (wrap32 (int_of_cell (row_get r c)))
    else row_get r c'.
Proof.
  unfold convert_row, row_get at 1. rewrite lookup_insert.
  by destruct (decide (c = c')).
Qed.

Lemma is_num_convert_row c c' r :
  is_num (row_get r c') = true → is_num (row_get (convert_row c r) c') = true.
Proof. rewrite row_get_convert_row. by destruct (decide (c = c')). Qed.

Lemma astype_int32_numeric (s : Series cell) :
  Forall (λ p, is_num p.2 = true) s →
  astype_int32 s =
    Return ((λ p, (p.1, Num (wrap32 (int_of_cell p.2)))) <$> s).
Proof.
  unfold astype_int32. induction 1 as [|[l x] s Hx Hs IH]; [done |].
  rewrite mapM_cons_outcome, IH. simpl in *. by destruct x.
Qed.

Lemma convert_column_numeric data c :
  has_column data c = true →
  Forall (λ p, is_num (row_get p.2 c) = true) (df_rows data) →
  convert_column data c =
    Return {| df_columns := df_columns data;
              df_rows := (λ p, (p.1, convert_row c p.2)) <$> df_rows data |}.
Proof.
  intros Hc Hnum. unfold convert_column, getitem. rewrite Hc, bind_Return.
  rewrite astype_int32_numeric.
  2: { unfold column_of. by rewrite Forall_fmap. }
  rewrite bind_Return. unfold setitem. rewrite Hc. do 2 f_equal.
  unfold column_of. rewrite <- list_fmap_compose.
  rewrite zip_with_fmap_r, zip_with_diag. done.
Qed.

Lemma is_num_converted cs c r :
  is_num (row_get r c) = true →
  is_num (row_get (foldl (λ r c, convert_row c r) r cs) c) = true.
Proof.
  revert r. induction cs as [|c0 cs IH]; intros r Hr; [done |].
  simpl. apply IH. by apply is_num_convert_row.
Qed.

Lemma row_get_converted_other cs c r :
  c ∉ cs → row_get (foldl (λ r c, convert_row c r) r cs) c = row_get r c.
Proof.
  revert r. induction cs as [|c0 cs IH]; intros r Hc; [done |].
  apply not_elem_of_cons in Hc as [Hne Hc]. simpl.
  rewrite IH by done. rewrite row_get_convert_row.
  by rewrite decide_False by done.
Qed.

Lemma row_get_converted cs c r :
  NoDup cs → c ∈ cs →
  row_get (foldl (λ r c, convert_row c r) r cs) c =
    Num (wrap32 (int_of_cell (row_get r c))).
Proof.
  revert r. induction cs as [|c0 cs IH]; intros r Hnd Hc.
  { by apply elem_of_nil in Hc. }
  apply NoDup_cons in Hnd as [Hfresh Hnd]. simpl.
  destruct (decide (c = c0)) as [->|Hne].
  - rewrite row_get_converted_other by done.
    rewrite row_get_convert_row. by rewrite decide_True.
  - apply elem_of_cons in Hc as [?|Hc]; [done |].
    rewrite IH by done. rewrite row_get_convert_row.
    by rewrite decide_False by done.
Qed.

(** The conversion loop over the key mapper. *)
Lemma convert_all (km : list (string * string)) data :
  Forall (λ kv, has_column data kv.2 = true ∧
                Forall (λ p, is_num (row_get p.2 kv.2) = true)
                       (df_rows data)) km →
  for_each (λ data kv, convert_column data kv.2) data km =
    Return {| df_columns := df_columns data;
              df_rows := convert_rows km.*2 (df_rows data) |}.
Proof.
  revert data. induction km as [|[k c] km IH]; intros data Hkm.
  { simpl. unfold convert_rows. simpl.
    rewrite (list_fmap_ext _ id) by (by intros ? []).
    rewrite list_fmap_id. by destruct data. }
  apply Forall_cons in Hkm as [[Hc Hnum] Hkm]. simpl in Hc, Hnum.
  simpl. rewrite convert_column_numeric, bind_Return by done.
  rewrite IH.
  - simpl. unfold convert_rows. by rewrite <- list_fmap_compose.
  - eapply Forall_impl; [exact Hkm |]. intros [k' c'] [Hc' Hnum']. simpl in *.
    split; [done |]. rewrite Forall_fmap.
    eapply Forall_impl; [exact Hnum' |]. intros p Hp. simpl.
    by apply is_num_convert_row.
Qed.

End Conversion.

Section Maximum.

Lemma foldl_max_spec x (l : list Z) :
  foldl Z.max x l ∈ x :: l ∧ ∀ y, y ∈ x :: l → y ≤ foldl Z.max x l.
Proof.
  revert x. induction l as [|z l IH]; intros x; simpl.
  { split; [by left |]. by intros y ->%list_elem_of_singleton. }
  destruct (IH (Z.max x z)) as [Hin Hub]. split.
  - apply elem_of_cons in Hin as [Heq|Hin]; [|by do 2 right].
    rewrite Heq. destruct (Z.max_spec x z) as [[_ ->]|[_ ->]];
      [right; left | left].
  - intros y Hy.
    assert (y ≤ Z.max x z ∨ y ∈ l) as [Hle|Hl].
    { apply elem_of_cons in Hy as [->|Hy]; [left; lia |].
      apply elem_of_cons in Hy as [->|Hy]; [left; lia | by right]. }
    + etrans; [exact Hle |]. apply Hub. by left.
    + apply Hub. by right.
Qed.

(** [idxmax] gives the label of a first entry with the greatest value. *)
Lemma idxmax_spec (s : Series Z) :
  s ≠ [] →
  ∃ m lbl i,
    series_max s = Some m ∧ idxmax s = Some lbl ∧
    s !! i = Some (lbl, m) ∧ ∀ p, p ∈ s → p.2 ≤ m.
Proof.
  intros Hne. unfold idxmax, series_max, values.
  destruct s as [|[l0 x0] s]; [done |]. rewrite fmap_cons. cbn [snd].
  set (m := foldl Z.max x0 s.*2).
  destruct (foldl_max_spec x0 s.*2) as [Hin Hub]. fold m in Hin, Hub.
  change (x0 :: s.*2) with (((l0, x0) :: s).*2) in Hin, Hub.
  apply list_elem_of_fmap in Hin as [[lm xm] [Hxm Hin]]. simpl in Hxm.
  destruct (list_find_elem_of (λ p : nat * Z, p.2 = m) _ (lm, xm) Hin)
    as [[i [lbl y]] Hfind]; [done |].
  pose proof Hfind as (Hi & Hy & _)%list_find_Some. simpl in Hy. subst y.
  exists m, lbl, i. split; [done |]. split; [|split; [done |]].
  - change (list_find (λ p : nat * Z, p.2 = m) ((l0, x0) :: s)
              ≫= (λ p, Some p.2.1) = Some lbl).
    by rewrite Hfind.
  - intros p Hp. apply Hub. apply list_elem_of_fmap. by exists p.
Qed.

End Maximum.

Section Packages.
Import LazyGantt.

Lemma ints_column_converted cs c data rows :
  NoDup cs → c ∈ cs → df_rows data = convert_rows cs rows →
  ints (column_of data c) =
    (λ p, (p.1, wrap32 (int_of_cell (row_get p.2 c)))) <$> rows.
Proof.
  intros Hnd Hc Hrows. unfold ints, column_of. rewrite Hrows.
  unfold convert_rows. rewrite <- !list_fmap_compose. apply list_fmap_ext. intros i p _. simpl.
  by rewrite row_get_converted.
Qed.

Lemma usable_no_text data c p :
  usable data c → p ∈ df_rows data → is_text (row_get p.2 c) = false.
Proof.
  unfold usable, first_failure. intros Hu Hp.
  destruct (has_column data c); [|done]. simpl in Hu.
  destruct (forallb is_null _); [done |].
  destruct (existsb is_text (values (column_of data c))) eqn:Htext; [done |].
  destruct (is_text (row_get p.2 c)) eqn:Hp'; [|done].
  rewrite <- Htext. symmetry. apply existsb_exists.
  exists (row_get p.2 c). split; [|done].
  apply list_elem_of_In. unfold values, column_of.
  rewrite <- list_fmap_compose. apply list_elem_of_fmap. by exists p.
Qed.

Lemma usable_some_content data c :
  usable data c →
  filter (λ r, is_null (row_get r.2 c) = false) (df_rows data) ≠ [].
Proof.
  unfold usable, first_failure. intros Hu Hnil.
  destruct (has_column data c); [|done]. simpl in Hu.
  destruct (forallb is_null (values (column_of data c))) eqn:Hnull; [done |].
  clear Hu. rewrite <- not_true_iff_false in Hnull. apply Hnull.
  apply forallb_forall. intros x Hx%list_elem_of_In.
  unfold values, column_of in Hx. rewrite <- list_fmap_compose in Hx.
  apply list_elem_of_fmap in Hx as [p [-> Hp]]. simpl.
  destruct (is_null (row_get p.2 c)) eqn:Hpn; [done |].
  assert (p ∈ filter (λ r, is_null (row_get r.2 c) = false) (df_rows data))
    as Hin by (by apply list_elem_of_filter).
  rewrite Hnil in Hin. by apply elem_of_nil in Hin.
Qed.

Lemma cell_num c : is_null c = false → is_text c = false → is_num c = true.
Proof. by destruct c. Qed.

Lemma dict_item_Some d k v : dict_get d k = Some v → dict_item d k = Return v.
Proof. intros H. unfold dict_item. by rewrite H. Qed.

Lemma getitem_has data c :
  has_column data c = true → getitem data c = Return (column_of data c).
Proof. intros H. unfold getitem. by rewrite H. Qed.

Lemma zip_packages {A} (fa fb : A → nat * Z) (l : list A) :
  zip (values (fa <$> l))
      (zip_with add32 (values (fa <$> l)) (values (fb <$> l))) =
    (λ p, ((fa p).2, add32 (fa p).2 (fb p).2)) <$> l.
Proof. induction l as [|x l IH]; [done |]. simpl. by f_equal. Qed.

(** Lines 173 to 205 on a file, for a key mapper that maps the roles
    [start] and [length] to columns that convert. *)
Lemma fill_packages_spec (file : table) (cols : list string)
    (km : list (string * string)) :
  let data := read_csv file in
  let R := filter (λ r, is_null (row_get r.2 "start") = false)
                  (df_rows data) in
  foldl _build_key_mapper [] cols = km →
  dict_get km "start" = Some "start" →
  dict_get km "length" = Some "duration" →
  NoDup km.*2 → "start" ∈ km.*2 → "duration" ∈ km.*2 →
  Forall (λ kv, has_column data kv.2 = true ∧
                Forall (λ p, is_num (row_get p.2 kv.2) = true) R) km →
  R ≠ [] →
  ∃ lbl r data',
    (lbl, r) ∈ R ∧
    (∀ p, p ∈ R → wrap32 (start_of p.2) ≤ wrap32 (start_of r)) ∧
    ∀ self,
      fill_packages self data cols =
        Return ({| no_months := add32 (wrap32 (start_of r))
                                      (wrap32 (duration_of r));
                   no_packages := Z.of_nat (max_list R.*1);
                   no_phases := no_phases self;
                   packages :=
                     (λ p, (wrap32 (start_of p.2),
                            add32 (wrap32 (start_of p.2))
                                  (wrap32 (duration_of p.2)))) <$> R;
                   phases := phases self;
                   milestones := milestones self |}, data', km).
Proof.
  intros data R Hkm Hks Hkl Hnd Hs Hd Hcols HR.
  assert (has_column data "start" = true) as Hhs.
  { apply list_elem_of_fmap in Hs as [[k c] [-> Hin]].
    by apply (proj1 (Forall_forall _ _) Hcols _ Hin). }
  assert (has_column data "duration" = true) as Hhd.
  { apply list_elem_of_fmap in Hd as [[k c] [-> Hin]].
    by apply (proj1 (Forall_forall _ _) Hcols _ Hin). }
  destruct (idxmax_spec
              ((λ p, (p.1, wrap32 (int_of_cell (row_get p.2 "start")))) <$> R))
    as (m & lbl & i & Hmax & Hidx & Hi & Hub).
  { by destruct R. }
  apply list_lookup_fmap_Some in Hi as [[lbl' r] [[= -> ->] Hi]].
  simpl in Hi.
  set (data1 := drop_rows (labels_where is_null (column_of data "start"))
                          data).
  set (data2 := {| df_columns := df_columns data1;
                   df_rows := convert_rows km.*2 R |}).
  exists lbl', r, data2. split; [by eapply list_elem_of_lookup_2 |].
  split.
  { intros p Hp. apply (Hub (p.1, wrap32 (start_of p.2))).
    apply list_elem_of_fmap. by exists p. }
  intros self. unfold fill_packages. rewrite Hkm. cbv zeta.
  rewrite (dict_item_Some _ _ _ Hks), !bind_Return.
  rewrite (getitem_has _ _ Hhs), bind_Return. fold data data1.
  assert (df_rows data1 = R) as Hrows1
    by (apply drop_nan_rows, read_csv_NoDup).
  rewrite (convert_all km data1), bind_Return by (by rewrite Hrows1).
  rewrite Hrows1. clear Hrows1. fold data2. rewrite bind_Return.
  rewrite (getitem_has data2 "start" Hhs), bind_Return.
  assert ((df_rows data2).*1 = R.*1) as ->.
  { unfold data2, convert_rows. simpl. by rewrite <- list_fmap_compose. }
  rewrite !(ints_column_converted km.*2 "start" data2 R) by done.
  rewrite Hmax, Hidx.
  rewrite (dict_item_Some _ _ _ Hkl), bind_Return.
  rewrite (getitem_has data2 "duration" Hhd), bind_Return.
  rewrite !(ints_column_converted km.*2 "duration" data2 R) by done.
  rewrite (at_label_elem _ lbl' (wrap32 (duration_of r))), bind_Return.
  - by rewrite zip_packages.
  - rewrite <- list_fmap_compose. simpl.
    eapply sublist_NoDup; [apply (read_csv_NoDup file) |].
    apply fmap_sublist, sublist_filter.
  - apply list_elem_of_fmap. exists (lbl', r).
    split; [done | by eapply list_elem_of_lookup_2].
Qed.

End Packages.

Section ClassState.
Import LazyGantt.

Lemma phase_number_optional :
  bool_decide ("phase_number" ∈ MANDATORY_COLUMNS) = false.
Proof. by vm_compute. Qed.

(** The checker of a load on a reachable class state: the two mandatory
    columns pass, and the phase column stays exactly if it was still
    recognized and passes as well. *)
Lemma validator_ok w data :
  class_ok w → usable data "start" → usable data "duration" →
  ∃ chk w1,
    DataColumnChecker.__init__ data ALL_COLUMNS (Some MANDATORY_COLUMNS) w =
      (Return chk, w1) ∧
    DataColumnChecker.get_valid_columns chk = ALL_COLUMNS ∧
    ((recognized w1 = ["start"; "duration"; "phase_number"] ∧
      "phase_number" ∈ recognized w ∧ usable data "phase_number") ∨
     recognized w1 = ["start"; "duration"]).
Proof.
  intros Hclass Hs Hd. rewrite init_unfold. cbv zeta.
  unfold class_ok, recognized in *. unfold usable in Hs, Hd.
  destruct Hclass as [Hw|Hw]; rewrite Hw; cbn [length].
  - do 3 (rewrite columns_loop_S; cbn [DataColumnChecker.target_columns];
          rewrite Hw; cbn [lookup list_lookup];
          rewrite check_cascade_spec, ?Hs, ?Hd).
    destruct (first_failure data "phase_number") as [message|] eqn:Hp.
    + cbn [DataColumnChecker.mandatory_columns
             DataColumnChecker.target_columns default from_option id].
      rewrite phase_number_optional.
      unfold list_remove, bind, deref, assign, print, ret.
      cbn [DataColumnChecker.target_columns fst snd heap stdout].
      fold (list_at w ALL_COLUMNS). rewrite Hw.
      change (remove_first "phase_number"
                ["start"; "duration"; "phase_number"])
        with (Some ["start"; "duration"]).
      cbv beta iota zeta. cbn [DataColumnChecker.columns_loop ret].
      eexists _, _. split; [reflexivity |]. split; [done |]. right.
      unfold list_at. cbn [heap]. by rewrite lookup_insert_eq.
    + eexists _, _. split; [reflexivity |]. split; [done |]. left.
      rewrite Hw. split; [done |]. split; [|done]. set_solver.
  - do 2 (rewrite columns_loop_S; cbn [DataColumnChecker.target_columns];
          rewrite Hw; cbn [lookup list_lookup];
          rewrite check_cascade_spec, ?Hs, ?Hd).
    eexists _, _. split; [reflexivity |]. split; [done |]. by right.
Qed.

End ClassState.

Section Load.
Import LazyGantt.

Variables (w : world) (file : table).
Hypothesis Hclass : class_ok w.
Hypothesis Hstart : usable (read_csv file) "start".
Hypothesis Hdur : usable (read_csv file) "duration".
Hypothesis Hdur_num : numeric_in file "duration".
Hypothesis Hphase_num :
  "phase_number" ∈ recognized w → usable (read_csv file) "phase_number" →
  numeric_in file "phase_number".

Let R := filter (λ r, is_null (row_get r.2 "start") = false)
                (df_rows (read_csv file)).

Lemma numeric_in_rows c :
  numeric_in file c → Forall (λ p, is_num (row_get p.2 c) = true) R.
Proof.
  unfold numeric_in. rewrite <- retained_read_csv. by rewrite Forall_fmap.
Qed.

Lemma numeric_start : Forall (λ p, is_num (row_get p.2 "start") = true) R.
Proof.
  apply Forall_forall. intros p [Hnull Hp]%list_elem_of_filter.
  apply cell_num; [done |]. by eapply usable_no_text.
Qed.

(** The load up to line 205 succeeds and computes the total duration from a
    retained record of greatest start, and one package per retained
    record. *)
Lemma load_packages_spec :
  ∃ r,
    r ∈ retained file ∧
    (∀ r', r' ∈ retained file → wrap32 (start_of r') ≤ wrap32 (start_of r)) ∧
    ∀ self, ∃ self1 data1 km w1,
      load_packages self (read_csv file) w =
        (Return (self1, data1, km), w1) ∧
      no_months self1 =
        add32 (wrap32 (start_of r)) (wrap32 (duration_of r)) ∧
      packages self1 = package_of <$> retained file.
Proof.
  destruct (validator_ok w (read_csv file) Hclass Hstart Hdur)
    as (chk & w1 & Hinit & Hchk & Hcols).
  assert (∃ km,
    foldl _build_key_mapper [] (recognized w1) = km ∧
    dict_get km "start" = Some "start" ∧
    dict_get km "length" = Some "duration" ∧
    NoDup km.*2 ∧ "start" ∈ km.*2 ∧ "duration" ∈ km.*2 ∧
    Forall (λ kv, has_column (read_csv file) kv.2 = true ∧
                  Forall (λ p, is_num (row_get p.2 kv.2) = true) R) km)
    as (km & Hkm & Hks & Hkl & Hnd & Hs & Hd & Hall).
  { pose proof numeric_start as Hns.
    pose proof (numeric_in_rows _ Hdur_num) as Hnd.
    pose proof (usable_has_column _ _ Hstart) as Hhs.
    pose proof (usable_has_column _ _ Hdur) as Hhd.
    destruct Hcols as [[Hc [Hin Hu]]|Hc]; rewrite Hc.
    - exists [("start", "start"); ("length", "duration");
              ("phase", "phase_number")].
      split; [done |]. split; [done |]. split; [done |].
      split; [apply (bool_decide_unpack _); by vm_compute |].
      split; [set_solver |]. split; [set_solver |].
      repeat constructor; simpl; try done.
      + by apply usable_has_column.
      + by apply numeric_in_rows, Hphase_num.
    - exists [("start", "start"); ("length", "duration")].
      split; [done |]. split; [done |]. split; [done |].
      split; [apply (bool_decide_unpack _); by vm_compute |].
      split; [set_solver |]. split; [set_solver |].
      repeat constructor; simpl; done. }
  destruct (fill_packages_spec file (recognized w1) km
              Hkm Hks Hkl Hnd Hs Hd Hall)
    as (lbl & r & data1 & Hr & Hmax & Hfill).
  { by apply usable_some_content. }
  exists r. split; [|split].
  - rewrite <- retained_read_csv. apply list_elem_of_fmap. by exists (lbl, r).
  - intros r'. rewrite <- retained_read_csv.
    intros [p [-> Hp]]%list_elem_of_fmap. by apply Hmax.
  - intros self. eexists _, data1, km, w1. split; [|split].
    + unfold load_packages, bind. rewrite Hinit. unfold deref, lift.
      rewrite Hchk. fold (list_at w1 ALL_COLUMNS). fold (recognized w1).
      by rewrite Hfill.
    + done.
    + simpl. rewrite <- retained_read_csv. by rewrite <- list_fmap_compose.
Qed.

End Load.

Section Completed.
Import LazyGantt.

Lemma fill_phases_keeps self data km o :
  fill_phases self data km = Return o →
  packages o = packages self ∧ no_months o = no_months self.
Proof.
  unfold fill_phases, mbind, outcome_bind.
  repeat (case_match; simplify_eq/=; try done); by intros [= <-].
Qed.

Lemma filter_milestones_keeps self w o w' :
  _filter_milestones self w = (Return o, w') →
  packages o = packages self ∧ no_months o = no_months self.
Proof.
  unfold _filter_milestones, bind, print, ret.
  destruct (filter _ (milestones self)); simpl;
    destruct (filter _ _); by intros [= <- _].
Qed.

(** A completed load went through the package stage, and kept its total
    duration and packages. *)
Lemma load_data_inv file ms w o w2 :
  load_data file ms w = (Return o, w2) →
  ∃ self1 data1 km w1,
    load_packages (fresh (default [5; 8; 14; 19; 22] ms)) (read_csv file) w =
      (Return (self1, data1, km), w1) ∧
    packages o = packages self1 ∧ no_months o = no_months self1.
Proof.
  unfold load_data, LazyGantt.__init__.
  fold (fresh (default [5; 8; 14; 19; 22] ms)).
  unfold _fill_from_csv, bind at 1 2.
  destruct (load_packages _ _ w) as [[[[self1 data1] km]|e] w1]; [|done].
  unfold lift.
  destruct (fill_phases self1 data1 km) as [o1|e] eqn:Hph; [|done].
  apply fill_phases_keeps in Hph as [Hp Hn].
  intros Hms. exists self1, data1, km, w1. split; [done |].
  destruct ms as [ms|].
  - apply filter_milestones_keeps in Hms as [Hp' Hn']. split; congruence.
  - injection Hms as <- _. done.
Qed.

End Completed.

Lemma package_of_fits r :
  fits32 r → package_of r = (start_of r, start_of r + duration_of r).
Proof.
  intros (Hs & Hd & Hsd). unfold package_of.
  by rewrite !wrap32_int32, add32_int32.
Qed.

(** ** The first record of greatest start *)

Section FirstMaximum.
Import LazyGantt.

(** [idxmax] gives the label of the first entry with the greatest value:
    the entries before it are smaller. *)
Lemma idxmax_first (s : Series Z) :
  s ≠ [] →
  ∃ m lbl i,
    series_max s = Some m ∧ idxmax s = Some lbl ∧
    s !! i = Some (lbl, m) ∧ (∀ p, p ∈ s → p.2 ≤ m) ∧
    ∀ j p, s !! j = Some p → (j < i)%nat → p.2 < m.
Proof.
  intros Hne. unfold idxmax, series_max, values.
  destruct s as [|[l0 x0] s]; [done |]. rewrite fmap_cons. cbn [snd].
  set (m := foldl Z.max x0 s.*2).
  destruct (foldl_max_spec x0 s.*2) as [Hin Hub]. fold m in Hin, Hub.
  change (x0 :: s.*2) with (((l0, x0) :: s).*2) in Hin, Hub.
  apply list_elem_of_fmap in Hin as [[lm xm] [Hxm Hin]]. simpl in Hxm.
  destruct (list_find_elem_of (λ p : nat * Z, p.2 = m) _ (lm, xm) Hin)
    as [[i [lbl y]] Hfind]; [done |].
  pose proof Hfind as (Hi & Hy & Hfirst)%list_find_Some. simpl in Hy. subst y.
  exists m, lbl, i. split; [done |]. split; [|split; [done |split]].
  - change (list_find (λ p : nat * Z, p.2 = m) ((l0, x0) :: s)
              ≫= (λ p, Some p.2.1) = Some lbl).
    by rewrite Hfind.
  - intros p Hp. apply Hub. apply list_elem_of_fmap. by exists p.
  - intros j p Hj Hlt.
    assert (p.2 ≤ m) as Hle.
    { apply Hub. apply list_elem_of_fmap. exists p.
      split; [done | by eapply list_elem_of_lookup_2]. }
    assert (p.2 ≠ m) as Hne' by (by eapply Hfirst).
    lia.
Qed.

(** Lines 173 to 205 on a file: the total duration comes from the first
    retained row of greatest start. *)
Lemma fill_packages_first (file : table) (cols : list string)
    (km : list (string * string)) :
  let data := read_csv file in
  let R := filter (λ r, is_null (row_get r.2 "start") = false)
                  (df_rows data) in
  foldl _build_key_mapper [] cols = km →
  dict_get km "start" = Some "start" →
  dict_get km "length" = Some "duration" →
  NoDup km.*2 → "start" ∈ km.*2 → "duration" ∈ km.*2 →
  Forall (λ kv, has_column data kv.2 = true ∧
                Forall (λ p, is_num (row_get p.2 kv.2) = true) R) km →
  R ≠ [] →
  ∃ i lbl r data',
    R !! i = Some (lbl, r) ∧
    (∀ p, p ∈ R → wrap32 (start_of p.2) ≤ wrap32 (start_of r)) ∧
    (∀ j p, R !! j = Some p → (j < i)%nat →
            wrap32 (start_of p.2) < wrap32 (start_of r)) ∧
    ∀ self,
      fill_packages self data cols =
        Return ({| no_months := add32 (wrap32 (start_of r))
                                      (wrap32 (duration_of r));
                   no_packages := Z.of_nat (max_list R.*1);
                   no_phases := no_phases self;
                   packages :=
                     (λ p, (wrap32 (start_of p.2),
                            add32 (wrap32 (start_of p.2))
                                  (wrap32 (duration_of p.2)))) <$> R;
                   phases := phases self;
                   milestones := milestones self |}, data', km).
Proof.
  intros data R Hkm Hks Hkl Hnd Hs Hd Hcols HR.
  assert (has_column data "start" = true) as Hhs.
  { apply list_elem_of_fmap in Hs as [[k c] [-> Hin]].
    by apply (proj1 (Forall_forall _ _) Hcols _ Hin). }
  assert (has_column data "duration" = true) as Hhd.
  { apply list_elem_of_fmap in Hd as [[k c] [-> Hin]].
    by apply (proj1 (Forall_forall _ _) Hcols _ Hin). }
  destruct (idxmax_first
              ((λ p, (p.1, wrap32 (int_of_cell (row_get p.2 "start")))) <$> R))
    as (m & lbl & i & Hmax & Hidx & Hi & Hub & Hfirst).
  { by destruct R. }
  apply list_lookup_fmap_Some in Hi as [[lbl' r] [[= -> ->] Hi]].
  simpl in Hi.
  set (data1 := drop_rows (labels_where is_null (column_of data "start"))
                          data).
  set (data2 := {| df_columns := df_columns data1;
                   df_rows := convert_rows km.*2 R |}).
  exists i, lbl', r, data2. split; [done |].
  split.
  { intros p Hp. apply (Hub (p.1, wrap32 (start_of p.2))).
    apply list_elem_of_fmap. by exists p. }
  split.
  { intros j p Hj Hlt.
    apply (Hfirst j (p.1, wrap32 (start_of p.2))); [|done].
    by rewrite list_lookup_fmap, Hj. }
  intros self. unfold fill_packages. rewrite Hkm. cbv zeta.
  rewrite (dict_item_Some _ _ _ Hks), !bind_Return.
  rewrite (getitem_has _ _ Hhs), bind_Return. fold data data1.
  assert (df_rows data1 = R) as Hrows1
    by (apply drop_nan_rows, read_csv_NoDup).
  rewrite (convert_all km data1), bind_Return by (by rewrite Hrows1).
  rewrite Hrows1. clear Hrows1. fold data2. rewrite bind_Return.
  rewrite (getitem_has data2 "start" Hhs), bind_Return.
  assert ((df_rows data2).*1 = R.*1) as ->.
  { unfold data2, convert_rows. simpl. by rewrite <- list_fmap_compose. }
  rewrite !(ints_column_converted km.*2 "start" data2 R) by done.
  rewrite Hmax, Hidx.
  rewrite (dict_item_Some _ _ _ Hkl), bind_Return.
  rewrite (getitem_has data2 "duration" Hhd), bind_Return.
  rewrite !(ints_column_converted km.*2 "duration" data2 R) by done.
  rewrite (at_label_elem _ lbl' (wrap32 (duration_of r))), bind_Return.
  - by rewrite zip_packages.
  - rewrite <- list_fmap_compose. simpl.
    eapply sublist_NoDup; [apply (read_csv_NoDup file) |].
    apply fmap_sublist, sublist_filter.
  - apply list_elem_of_fmap. exists (lbl', r).
    split; [done | by eapply list_elem_of_lookup_2].
Qed.

End FirstMaximum.

Section FirstRecord.
Import LazyGantt.

Variables (w : world) (file : table).
Hypothesis Hclass : class_ok w.
Hypothesis Hstart : usable (read_csv file) "start".
Hypothesis Hdur : usable (read_csv file) "duration".
Hypothesis Hdur_num : numeric_in file "duration".
Hypothesis Hphase_num :
  "phase_number" ∈ recognized w → usable (read_csv file) "phase_number" →
  numeric_in file "phase_number".

Let R := filter (λ r, is_null (row_get r.2 "start") = false)
                (df_rows (read_csv file)).

(** The load up to line 205 computes the total duration from the first
    retained record of greatest start. *)
Lemma load_packages_first :
  ∃ i r,
    retained file !! i = Some r ∧
    (∀ r', r' ∈ retained file → wrap32 (start_of r') ≤ wrap32 (start_of r)) ∧
    (∀ j r', retained file !! j = Some r' → (j < i)%nat →
             wrap32 (start_of r') < wrap32 (start_of r)) ∧
    ∀ self, ∃ self1 data1 km w1,
      load_packages self (read_csv file) w =
        (Return (self1, data1, km), w1) ∧
      no_months self1 =
        add32 (wrap32 (start_of r)) (wrap32 (duration_of r)) ∧
      packages self1 = package_of <$> retained file.
Proof.
  destruct (validator_ok w (read_csv file) Hclass Hstart Hdur)
    as (chk & w1 & Hinit & Hchk & Hcols).
  assert (∃ km,
    foldl _build_key_mapper [] (recognized w1) = km ∧
    dict_get km "start" = Some "start" ∧
    dict_get km "length" = Some "duration" ∧
    NoDup km.*2 ∧ "start" ∈ km.*2 ∧ "duration" ∈ km.*2 ∧
    Forall (λ kv, has_column (read_csv file) kv.2 = true ∧
                  Forall (λ p, is_num (row_get p.2 kv.2) = true) R) km)
    as (km & Hkm & Hks & Hkl & Hnd & Hs & Hd & Hall).
  { pose proof (numeric_start file Hstart) as Hns.
    pose proof (numeric_in_rows file _ Hdur_num) as Hnd.
    pose proof (usable_has_column _ _ Hstart) as Hhs.
    pose proof (usable_has_column _ _ Hdur) as Hhd.
    destruct Hcols as [[Hc [Hin Hu]]|Hc]; rewrite Hc.
    - exists [("start", "start"); ("length", "duration");
              ("phase", "phase_number")].
      split; [done |]. split; [done |]. split; [done |].
      split; [apply (bool_decide_unpack _); by vm_compute |].
      split; [set_solver |]. split; [set_solver |].
      repeat constructor; simpl; try done.
      + by apply usable_has_column.
      + by apply (numeric_in_rows file), Hphase_num.
    - exists [("start", "start"); ("length", "duration")].
      split; [done |]. split; [done |]. split; [done |].
      split; [apply (bool_decide_unpack _); by vm_compute |].
      split; [set_solver |]. split; [set_solver |].
      repeat constructor; simpl; done. }
  destruct (fill_packages_first file (recognized w1) km
              Hkm Hks Hkl Hnd Hs Hd Hall)
    as (i & lbl & r & data1 & Hr & Hmax & Hfirst & Hfill).
  { by apply usable_some_content. }
  exists i, r. split; [|split; [|split]].
  - rewrite <- retained_read_csv. by rewrite list_lookup_fmap, Hr.
  - intros r'. rewrite <- retained_read_csv.
    intros [p [-> Hp]]%list_elem_of_fmap. by apply Hmax.
  - intros j r'. rewrite <- retained_read_csv. rewrite list_lookup_fmap.
    intros Hj Hlt.
    destruct (filter _ _ !! j) as [p|] eqn:Hp; [|done].
    injection Hj as <-. by apply (Hfirst j p).
  - intros self. eexists _, data1, km, w1. split; [|split].
    + unfold load_packages, bind. rewrite Hinit. unfold deref, lift.
      rewrite Hchk. fold (list_at w1 ALL_COLUMNS). fold (recognized w1).
      by rewrite Hfill.
    + done.
    + simpl. rewrite <- retained_read_csv. by rewrite <- list_fmap_compose.
Qed.

End FirstRecord.

(** * The claims *)

(** C1.  The column that follows a dropped column in the list is never
    checked: on [labelled_frame], with the recognized columns
    [phase_number; label; start] of which [start] is mandatory, the missing
    [phase_number] is dropped with its message, and the result keeps
    [label], a column of texts that fails the third check. *)
Theorem C1_column_after_a_dropped_one_is_kept :
  DataColumnChecker.__init__ labelled_frame 7%nat (Some ["start"])
    (world_with 7%nat ["phase_number"; "label"; "start"]) =
    (Return {| DataColumnChecker.target_columns := 7%nat;
               DataColumnChecker.mandatory_columns := ["start"] |},
     {| heap := {[ 7%nat := ["label"; "start"] ]};
        stdout :=
          [Message "Column 'phase_number' is missing in your input data!"]
     |}) ∧
  first_failure labelled_frame "label" =
    Some "Column 'label' is ignored, since it holds text instead of numeric data!".
Proof. split; vm_compute; reflexivity. Qed.

(** C2.  With a valid phase column of one distinct value the load leaves the
    phase data of the default object in place: three phases that are not in
    the table, which the plot then draws as a second row. *)
Theorem C2_single_phase_keeps_default_phases :
  (LazyGantt.load_data single_phase None LazyGantt.initial_world).1 =
    Return {| LazyGantt.no_months := 7;
              LazyGantt.no_packages := 1;
              LazyGantt.no_phases := Some 3;
              LazyGantt.packages := [(0, 3); (3, 7)];
              LazyGantt.phases := Some [(0, 6); (6, 16); (16, 24)];
              LazyGantt.milestones := [5; 8; 14; 19; 22] |} ∧
  fig_subplots <$>
    ((LazyGantt.load_data single_phase None LazyGantt.initial_world).1
       ≫= LazyGantt.plot) = Return (2, 1)%nat.
Proof. split; vm_compute; reflexivity. Qed.

(** C3, amended.  Take group ids, starts and durations of equal length over
    an index without repeated labels, such that the largest group id is the
    number of contiguous runs (as it is when phases are numbered 1, 2, ...,
    n in ascending order) and [no_phases] was set to it, and such that start
    plus duration fits in 32 bits at the first record of every run after the
    first.  Then phase aggregation returns exactly one interval per run:
    run [m], whose first position is [i], starts at [starts[i]]; it ends at
    [starts[j] + durations[j]] for the first position [j] of the next run,
    and the last run ends at the total duration. *)
Theorem C3_phase_intervals (self : LazyGantt.t) (idx : list nat)
    (ids starts durs : list Z)
    (Hidx : NoDup idx)
    (Hids : length ids = length idx)
    (Hstarts : length starts = length idx)
    (Hdurs : length durs = length idx)
    (Hmax : series_max (zip idx ids) =
              Some (Z.of_nat (length (run_starts ids))))
    (Hself : LazyGantt.no_phases self = series_max (zip idx ids))
    (Hfit : Forall (λ j, int32 (starts !!! j + durs !!! j))
                   (tail (run_starts ids))) :
  ∃ res : list (Z * Z),
    LazyGantt._compose_phases self (zip idx ids) (zip idx starts)
      (zip idx durs) = Return res ∧
    length res = length (run_starts ids) ∧
    ∀ m i, run_starts ids !! m = Some i →
      res !! m =
        Some (starts !!! i,
              match run_starts ids !! S m with
              | Some j => starts !!! j + durs !!! j
              | None => LazyGantt.no_months self
              end).
Proof.
  unfold LazyGantt._compose_phases. rewrite Hself, Hmax.
  destruct (Z.ltb_spec (Z.of_nat (length (run_starts ids))) 0); [lia |].
  rewrite Nat2Z.id, bind_Return.
  pose proof (run_starts_bound ids) as Hbound. rewrite Hids in Hbound.
  rewrite labels_diff by done.
  rewrite (at_labels_positions idx starts), bind_Return by done.
  rewrite broadcast_same, bind_Return by (by rewrite length_fmap).
  rewrite <- fmap_tail.
  rewrite (at_labels_positions idx starts), bind_Return
    by (done || by apply Forall_tail).
  rewrite (at_labels_positions idx durs), bind_Return
    by (done || by apply Forall_tail).
  assert (zip_with add32 ((λ j, starts !!! j) <$> tail (run_starts ids))
            ((λ j, durs !!! j) <$> tail (run_starts ids)) =
          (λ j, add32 (starts !!! j) (durs !!! j)) <$> tail (run_starts ids))
    as -> by (by rewrite zip_with_fmap_l, zip_with_fmap_r, zip_with_diag).
  rewrite broadcast_same, bind_Return by (by rewrite length_fmap, length_tl).
  destruct (run_starts ids) as [|r0 rest] eqn:Hrs.
  { destruct ids; [|done]. by destruct idx. }
  cbn [length tail]. rewrite Nat.sub_succ, Nat.sub_0_r.
  rewrite zip_with_replicate_l by (by rewrite length_fmap).
  eexists. split; [reflexivity |].
  pose proof (phases_array (length rest) ((λ j, starts !!! j) <$> r0 :: rest)
                ((λ j, add32 (starts !!! j) (durs !!! j)) <$> rest)
                (LazyGantt.no_months self)) as Harr.
  rewrite !length_fmap in Harr.
  destruct Harr as [Hlen Hres]; [done .. |].
  split; [exact Hlen |].
  intros m i Hm.
  etrans; [apply (Hres m (starts !!! i)); by rewrite list_lookup_fmap, Hm |].
  f_equal. f_equal. rewrite list_lookup_fmap.
  change ((r0 :: rest) !! S m) with (rest !! m).
  destruct (rest !! m) as [j|] eqn:Hj; simpl; [|done].
  apply add32_int32.
  simpl in Hfit. by eapply (proj1 (Forall_lookup _ _) Hfit).
Qed.

Lemma C3_phase_intervals_witness :
  ∃ res : list (Z * Z),
    LazyGantt._compose_phases scenario_B_self
      (zip [0; 1; 2; 3]%nat [1; 1; 2; 2]) (zip [0; 1; 2; 3]%nat [0; 3; 6; 8])
      (zip [0; 1; 2; 3]%nat [3; 6; 14; 4]) = Return res ∧
    length res = length (run_starts [1; 1; 2; 2]) ∧
    ∀ m i, run_starts [1; 1; 2; 2] !! m = Some i →
      res !! m =
        Some ([0; 3; 6; 8] !!! i,
              match run_starts [1; 1; 2; 2] !! S m with
              | Some j => [0; 3; 6; 8] !!! j + [3; 6; 14; 4] !!! j
              | None => LazyGantt.no_months scenario_B_self
              end).
Proof.
  apply (C3_phase_intervals scenario_B_self [0; 1; 2; 3]%nat
           [1; 1; 2; 2] [0; 3; 6; 8] [3; 6; 14; 4]).
  - apply (bool_decide_unpack _). vm_compute. exact I.
  - reflexivity.
  - reflexivity.
  - reflexivity.
  - vm_compute. reflexivity.
  - vm_compute. reflexivity.
  - apply (bool_decide_unpack _). vm_compute. exact I.
Defined.

(** C3 as stated fails: the ids [1,1,3,3] form two contiguous runs with two
    distinct ids, but the array is sized by the largest id, 3, and the two
    run starts do not fit its three rows; the aggregation raises and so does
    the load. *)
Lemma C3_gapped_ids_counterexample :
  run_starts [1; 1; 3; 3] = [0; 2]%nat ∧
  LazyGantt._compose_phases gapped_phases_self
    (range_series [1; 1; 3; 3]) (range_series [0; 3; 6; 8])
    (range_series [3; 6; 14; 4]) = Raise ValueError ∧
  (LazyGantt.load_data gapped_phases None LazyGantt.initial_world).1 =
    Raise ValueError.
Proof. repeat split; vm_compute; reflexivity. Qed.

(** C4 as stated fails: the aggregation of scenario B does not give
    [(0,6)] for phase 1. *)
Lemma C4_scenario_B_counterexample :
  LazyGantt._compose_phases scenario_B_self
    (range_series [1; 1; 2; 2]) (range_series [0; 3; 6; 8])
    (range_series [3; 6; 14; 4]) ≠ Return [(0, 6); (6, 12)].
Proof. vm_compute. discriminate. Qed.

(** C4, amended.  For group ids [1,1,2,2], starts [0,3,6,8], durations
    [3,6,14,4] and a total duration of 12, phase aggregation returns
    phase 1 = (0,20), whose end is start plus duration of the first record
    of the second run (6 + 14), and phase 2 = (6,12), whose end is the total
    duration; the load of that table gives these phases and the total
    duration 12. *)
Theorem C4_scenario_B :
  LazyGantt._compose_phases scenario_B_self
    (range_series [1; 1; 2; 2]) (range_series [0; 3; 6; 8])
    (range_series [3; 6; 14; 4]) = Return [(0, 20); (6, 12)] ∧
  (LazyGantt.load_data scenario_B None LazyGantt.initial_world).1 =
    Return {| LazyGantt.no_months := 12;
              LazyGantt.no_packages := 3;
              LazyGantt.no_phases := Some 2;
              LazyGantt.packages := [(0, 3); (3, 9); (6, 20); (8, 12)];
              LazyGantt.phases := Some [(0, 20); (6, 12)];
              LazyGantt.milestones := [5; 8; 14; 19; 22] |}.
Proof. split; vm_compute; reflexivity. Qed.

(** C5 as stated fails for a negative start, which the slice counts from the
    end of the row: the interval (-2, 3) on a width of 5 leaves column 0
    unset although 0 lies in [-2, 3). *)
Lemma C5_negative_start_counterexample :
  ∃ row : list bool,
    LazyGantt._to_boolean_array five_months (Some [(-2, 3)]) 5 =
      Return (Some [row]) ∧
    3 ≤ 5 ∧ -2 ≤ 0 < 3 ∧ row !! 0%nat = Some false.
Proof.
  exists [false; false; false; false; false].
  split; [vm_compute; reflexivity |]. split; [lia |]. split; [lia | done].
Qed.

(** C5, amended.  For every sequence of intervals whose bounds are not
    negative and every width that is not negative and at least every
    interval's end, the conversion, called as [plot] calls it with the
    object's [no_months] as width, returns a boolean grid of shape (number
    of intervals, width) in which row [i] is true exactly at the columns of
    [start_i, end_i) and false elsewhere. *)
Theorem C5_occupancy_grid (self : LazyGantt.t) (arr : list (Z * Z))
    (width : Z)
    (Hself : LazyGantt.no_months self = width)
    (Hwidth : 0 ≤ width)
    (Hbounds : Forall (λ p, 0 ≤ p.1 ∧ 0 ≤ p.2 ≤ width) arr) :
  ∃ g : list (list bool),
    LazyGantt._to_boolean_array self (Some arr) width = Return (Some g) ∧
    length g = length arr ∧
    ∀ i p, arr !! i = Some p →
      ∃ row, g !! i = Some row ∧
             length row = Z.to_nat width ∧
             ∀ k, (k < Z.to_nat width)%nat →
                  row !! k = Some (bool_decide (p.1 ≤ Z.of_nat k < p.2)).
Proof.
  unfold LazyGantt._to_boolean_array. rewrite Hself.
  destruct (Z.ltb_spec (Z.of_nat (length arr) * width) 0); [nia |].
  destruct (Z.leb_spec 0 width); [|lia].
  rewrite Z.eqb_refl. simpl.
  eexists. split; [reflexivity |]. split.
  { rewrite length_zip_with, length_replicate. lia. }
  intros i p Hi.
  exists (LazyGantt.set_slice p.1 p.2 (replicate (Z.to_nat width) false)).
  split; [|split].
  - rewrite lookup_zip_with, Hi. simpl.
    rewrite lookup_replicate_2; [done |]. by eapply lookup_lt_Some.
  - by rewrite set_slice_length, length_replicate.
  - intros k Hk.
    pose proof (proj1 (Forall_lookup _ _) Hbounds i p Hi) as [Hp1 Hp2].
    apply set_slice_lookup; [done | lia | done].
Qed.

Lemma C5_occupancy_grid_witness :
  ∃ g : list (list bool),
    LazyGantt._to_boolean_array five_months (Some [(0, 3); (3, 5)]) 5 =
      Return (Some g) ∧
    length g = 2%nat ∧
    ∀ i p, [(0, 3); (3, 5)] !! i = Some p →
      ∃ row, g !! i = Some row ∧
             length row = Z.to_nat 5 ∧
             ∀ k, (k < Z.to_nat 5)%nat →
                  row !! k = Some (bool_decide (p.1 ≤ Z.of_nat k < p.2)).
Proof.
  apply (C5_occupancy_grid five_months [(0, 3); (3, 5)] 5).
  - reflexivity.
  - lia.
  - repeat constructor; simpl; lia.
Defined.

(** C6.  A mandatory column that follows a dropped column in the list is
    never checked: on [frame_without_start], with the recognized columns
    [phase_number; start] of which [start] is mandatory, the checker returns
    normally and keeps [start], although that column is missing. *)
Theorem C6_mandatory_column_after_a_dropped_one_is_not_checked :
  DataColumnChecker.__init__ frame_without_start 7%nat (Some ["start"])
    (world_with 7%nat ["phase_number"; "start"]) =
    (Return {| DataColumnChecker.target_columns := 7%nat;
               DataColumnChecker.mandatory_columns := ["start"] |},
     {| heap := {[ 7%nat := ["start"] ]};
        stdout :=
          [Message "Column 'phase_number' is missing in your input data!"]
     |}) ∧
  first_failure frame_without_start "start" =
    Some "Column 'start' is missing in your input data!".
Proof. split; vm_compute; reflexivity. Qed.

(** C7 as stated fails: both columns of [missing_duration] pass the three
    checks and both rows have a start, so both are retained, but the null
    duration of the second cannot be converted to an integer, and the load
    raises instead of returning intervals. *)
Lemma C7_null_duration_counterexample :
  usable (read_csv missing_duration) "start" ∧
  usable (read_csv missing_duration) "duration" ∧
  retained missing_duration =
    [record (Num 0) (Num 3); record (Num 3) Null] ∧
  (LazyGantt.load_data missing_duration None LazyGantt.initial_world).1 =
    Raise ValueError.
Proof. repeat split; vm_compute; reflexivity. Qed.

Section PackageClaims.
Import LazyGantt.

Variables (w : world) (file : table).
Hypothesis Hclass : class_ok w.
Hypothesis Hstart : usable (read_csv file) "start".
Hypothesis Hdur : usable (read_csv file) "duration".
Hypothesis Hdur_num : numeric_in file "duration".
Hypothesis Hphase_num :
  "phase_number" ∈ recognized w → usable (read_csv file) "phase_number" →
  numeric_in file "phase_number".

(** C7, amended.  Take a table whose start and duration columns pass the
    three checks, loaded on a reachable state of the class, in which every
    row with a start has an integer duration (and an integer phase, when the
    phase column is still recognized and passes the checks).  Then the rows
    without start are dropped, and the load computes exactly one interval
    per retained row, in row order, on the 32-bit columns; so the number of
    intervals is the number of retained rows, and every completed load
    carries these intervals.  When start, duration and their sum fit in 32
    bits for every retained row, the intervals are [(s, s + d)], and with
    every duration positive, every interval has [end > start]. *)
Theorem C7_package_intervals (self : t) :
  ∃ self1 data1 km w1,
    load_packages self (read_csv file) w = (Return (self1, data1, km), w1) ∧
    packages self1 = package_of <$> retained file ∧
    length (packages self1) = length (retained file) ∧
    (∀ ms o w2, load_data file ms w = (Return o, w2) →
                packages o = packages self1) ∧
    (Forall fits32 (retained file) →
     packages self1 =
       (λ r, (start_of r, start_of r + duration_of r)) <$> retained file ∧
     (Forall (λ r, 0 < duration_of r) (retained file) →
      Forall (λ p, p.1 < p.2) (packages self1))).
Proof.
  destruct (load_packages_spec w file Hclass Hstart Hdur Hdur_num Hphase_num)
    as (r & _ & _ & Hload).
  destruct (Hload self) as (self1 & data1 & km & w1 & Hself & _ & Hpk).
  exists self1, data1, km, w1. split; [done |]. split; [done |].
  split; [by rewrite Hpk, length_fmap |]. split.
  - intros ms o w2 Ho.
    apply load_data_inv in Ho as (s & d & k & w' & Hs & Hp & _).
    destruct (Hload (fresh (default [5; 8; 14; 19; 22] ms)))
      as (s' & d' & k' & w'' & Hs' & _ & Hp').
    rewrite Hs in Hs'. injection Hs' as -> _ _ _. congruence.
  - intros Hfit.
    assert (packages self1 =
            (λ r, (start_of r, start_of r + duration_of r)) <$> retained file)
      as Hexact.
    { rewrite Hpk. apply Forall_fmap_ext_1.
      eapply Forall_impl; [exact Hfit |]. apply package_of_fits. }
    split; [exact Hexact |]. intros Hpos. rewrite Hexact.
    rewrite Forall_fmap. eapply Forall_impl; [exact Hpos |].
    intros r0 Hr0. unfold compose. cbn beta in *. cbn [fst snd]. lia.
Qed.

(** C8, amended.  Under the assumptions of C7, and when start, duration and
    their sum fit in 32 bits for every retained row, the derived project
    duration is the start of the retained record of greatest start, the
    first one if several have it, plus the duration of that same record, at
    the package stage and in every completed load. *)
Theorem C8_total_duration (self : t)
    (Hfit : Forall fits32 (retained file)) :
  ∃ i r self1 data1 km w1,
    retained file !! i = Some r ∧
    (∀ r', r' ∈ retained file → start_of r' ≤ start_of r) ∧
    (∀ j r', retained file !! j = Some r' → (j < i)%nat →
             start_of r' < start_of r) ∧
    load_packages self (read_csv file) w = (Return (self1, data1, km), w1) ∧
    no_months self1 = start_of r + duration_of r ∧
    (∀ ms o w2, load_data file ms w = (Return o, w2) →
                no_months o = start_of r + duration_of r).
Proof.
  destruct (load_packages_first w file Hclass Hstart Hdur Hdur_num
              Hphase_num) as (i & r & Hi & Hmax & Hfirst & Hload).
  pose proof (proj1 (Forall_forall _ _) Hfit) as Hfits.
  assert (r ∈ retained file) as Hr by (by eapply list_elem_of_lookup_2).
  destruct (Hfits r Hr) as (Hrs & Hrd & Hrsd).
  assert (add32 (wrap32 (start_of r)) (wrap32 (duration_of r)) =
          start_of r + duration_of r) as Hsum
    by (by rewrite !wrap32_int32, add32_int32).
  destruct (Hload self) as (self1 & data1 & km & w1 & Hself & Hn & _).
  exists i, r, self1, data1, km, w1. split; [done |]. split.
  { intros r' Hr'. specialize (Hmax r' Hr').
    destruct (Hfits r' Hr') as (Hrs' & _). by rewrite !wrap32_int32 in Hmax. }
  split.
  { intros j r' Hj Hlt. specialize (Hfirst j r' Hj Hlt).
    assert (r' ∈ retained file) as Hr' by (by eapply list_elem_of_lookup_2).
    destruct (Hfits r' Hr') as (Hrs' & _).
    by rewrite !wrap32_int32 in Hfirst. }
  split; [done |]. split; [by rewrite Hn |].
  intros ms o w2 Ho.
  apply load_data_inv in Ho as (s & d & k & w' & Hs & _ & Hno).
  destruct (Hload (fresh (default [5; 8; 14; 19; 22] ms)))
    as (s' & d' & k' & w'' & Hs' & Hn' & _).
  rewrite Hs in Hs'. injection Hs' as -> _ _ _. congruence.
Qed.

End PackageClaims.

Lemma C7_package_intervals_witness :
  ∃ self1 data1 km w1,
    LazyGantt.load_packages (fresh []) (read_csv scenario_A)
      LazyGantt.initial_world = (Return (self1, data1, km), w1) ∧
    LazyGantt.packages self1 = [(0, 3); (3, 7)].
Proof.
  destruct (C7_package_intervals LazyGantt.initial_world scenario_A)
    with (self := fresh [])
    as (self1 & data1 & km & w1 & Hload & Hpk & _).
  - left. vm_compute. reflexivity.
  - vm_compute. reflexivity.
  - vm_compute. reflexivity.
  - apply (bool_decide_unpack _). vm_compute. exact I.
  - intros _ Hu. vm_compute in Hu. discriminate Hu.
  - exists self1, data1, km, w1. split; [exact Hload |].
    rewrite Hpk. vm_compute. reflexivity.
Defined.

(** C8 as stated fails beyond 32 bits: for the single record
    (start 2147483647, duration 1) the derived duration is -2147483648,
    not 2147483648. *)
Lemma C8_overflow_counterexample :
  retained late_record = [record (Num 2147483647) (Num 1)] ∧
  LazyGantt.no_months <$>
    (LazyGantt.load_data late_record None LazyGantt.initial_world).1 =
    Return (-2147483648) ∧
  start_of (record (Num 2147483647) (Num 1)) +
    duration_of (record (Num 2147483647) (Num 1)) = 2147483648.
Proof. repeat split; vm_compute; reflexivity. Qed.

Lemma C8_total_duration_witness :
  ∃ self1 data1 km w1,
    LazyGantt.load_packages (fresh []) (read_csv scenario_A)
      LazyGantt.initial_world = (Return (self1, data1, km), w1) ∧
    LazyGantt.no_months self1 = 7.
Proof.
  assert (retained scenario_A =
          [record (Num 0) (Num 3); record (Num 3) (Num 4)]) as Hret
    by (vm_compute; reflexivity).
  destruct (C8_total_duration LazyGantt.initial_world scenario_A)
    with (self := fresh [])
    as (i & r & self1 & data1 & km & w1 & Hi & Hmax & _ & Hload & Hn & _).
  - left. vm_compute. reflexivity.
  - vm_compute. reflexivity.
  - vm_compute. reflexivity.
  - apply (bool_decide_unpack _). vm_compute. exact I.
  - intros _ Hu. vm_compute in Hu. discriminate Hu.
  - apply (bool_decide_unpack _). vm_compute. exact I.
  - exists self1, data1, km, w1. split; [exact Hload |].
    assert (r ∈ retained scenario_A) as Hr
      by (by eapply list_elem_of_lookup_2).
    rewrite Hn. rewrite Hret in Hr, Hmax.
    apply elem_of_cons in Hr as [->|Hr].
    + specialize (Hmax (record (Num 3) (Num 4))).
      exfalso. apply Hmax; [right; left | reflexivity].
    + apply list_elem_of_singleton in Hr as ->. reflexivity.
Defined.

(** C9.  For every milestone sequence and every total duration, the
    milestone filter returns without raising; the milestones kept are
    exactly those with [0 <= m <= total], in their original order; the heap
    is untouched, and the output grows by at most two lines: one line with
    all negative values if there is one, then one line with all values
    beyond the total if there is one. *)
Theorem C9_filter_milestones (self : LazyGantt.t) (w : world) :
  LazyGantt._filter_milestones self w =
    (Return (with_milestones self
               (filter (λ m, 0 ≤ m ≤ LazyGantt.no_months self)
                       (LazyGantt.milestones self))),
     {| heap := heap w;
        stdout := stdout w ++
                  milestone_report (LazyGantt.no_months self)
                                   (LazyGantt.milestones self) |}).
Proof.
  unfold LazyGantt._filter_milestones, milestone_report, with_milestones.
  rewrite <- filter_in_range, <- filter_exceeding.
  destruct (filter (λ m, m < 0) (LazyGantt.milestones self))
    as [|n ns] eqn:Hneg.
  - rewrite (filter_none_negative _ Hneg).
    unfold bind at 1, ret at 1.
    destruct (filter (λ m, m > LazyGantt.no_months self)
                     (LazyGantt.milestones self)) as [|b bs] eqn:Hbig.
    + rewrite (filter_none_exceeding _ _ Hbig).
      unfold bind, ret. simpl. rewrite app_nil_r. by destruct w.
    + unfold bind, ret, print. simpl. by destruct w.
  - unfold bind at 1, print at 1, ret at 1. unfold bind at 1. simpl.
    destruct (filter (λ m, m > LazyGantt.no_months self) _)
      as [|b bs] eqn:Hbig.
    + rewrite (filter_none_exceeding _ _ Hbig).
      unfold bind, ret. by simpl.
    + unfold bind, ret, print. simpl. by rewrite <- app_assoc.
Qed.

(** Scenario C: milestones [-5, 3, 50] on a project of 20 months. *)
Example scenario_C :
  LazyGantt._filter_milestones
    {| LazyGantt.no_months := 20; LazyGantt.no_packages := 1;
       LazyGantt.no_phases := None; LazyGantt.packages := [(0, 20)];
       LazyGantt.phases := None; LazyGantt.milestones := [-5; 3; 50] |}
    (world_with LazyGantt.ALL_COLUMNS ["start"; "duration"]) =
  (Return {| LazyGantt.no_months := 20; LazyGantt.no_packages := 1;
             LazyGantt.no_phases := None; LazyGantt.packages := [(0, 20)];
             LazyGantt.phases := None; LazyGantt.milestones := [3] |},
   {| heap := {[ LazyGantt.ALL_COLUMNS := ["start"; "duration"] ]};
      stdout := [NegativeMilestones [-5]; ExceedingMilestones 20 [50]] |}).
Proof. reflexivity. Qed.



(** The same table gives phases when it is loaded first, and none when it is
    loaded after a table without phase column. *)
Example phases_lost_after_a_load_without_phases :
  LazyGantt.phases <$>
    (LazyGantt.load_data scenario_B None LazyGantt.initial_world).1 =
    Return (Some [(0, 20); (6, 12)]) ∧
  LazyGantt.phases <$>
    (LazyGantt.load_data scenario_B None
       (LazyGantt.load_data scenario_A None LazyGantt.initial_world).2).1 =
    Return None.
Proof. split; vm_compute; reflexivity. Qed.

(** * Further properties *)

(** ** The column validator *)

Section ValidatorMore.
Import DataColumnChecker.

Lemma remove_first_length x l l' :
  remove_first x l = Some l' → length l = S (length l').
Proof.
  revert l'. induction l as [|y l IH]; intros l'; simpl; [done |].
  destruct (decide (x = y)); [by intros [= <-] |].
  destruct (remove_first x l) as [r|]; simpl; [|done].
  intros [= <-]. simpl. by rewrite (IH r).
Qed.

(** On a list without repetition, [remove] takes out the column at the
    position of the iterator. *)
Lemma remove_first_middle (done rest : list string) c :
  c ∉ done → remove_first c (done ++ c :: rest) = Some (done ++ rest).
Proof.
  induction done as [|d done IH]; intros Hc; simpl.
  { by rewrite decide_True. }
  apply not_elem_of_cons in Hc as [Hne Hc].
  rewrite decide_False by done. by rewrite IH.
Qed.

Lemma first_failure_names_column data c m :
  first_failure data c = Some m → ∃ rest, m = "Column '" +:+ c +:+ rest.
Proof.
  unfold first_failure. repeat case_match; intros [= <-]; by eexists.
Qed.

Lemma NoDup_middle (done rest : list string) c :
  NoDup (done ++ c :: rest) → (c ∉ done) ∧ NoDup (done ++ rest).
Proof.
  intros Hnd. apply NoDup_app in Hnd as (Hd & Hdisj & Hr).
  apply NoDup_cons in Hr as [Hc Hr]. split.
  - intros Hin. apply (Hdisj c Hin). by left.
  - apply NoDup_app. split; [done |]. split; [|done].
    intros x Hx Hx'. apply (Hdisj x Hx). by right.
Qed.

Lemma list_remove_middle l (done rest : list string) c w :
  heap w !! l = Some (done ++ c :: rest) → c ∉ done →
  list_remove l c w =
    (Return tt, {| heap := <[l := done ++ rest]> (heap w);
                   stdout := stdout w |}).
Proof.
  intros Hw Hc. unfold list_remove, bind, deref, assign. simpl.
  rewrite Hw. simpl. by rewrite remove_first_middle.
Qed.

(** The loop from position [length done] on, when the columns already
    passed are [done] and the columns still to come are [rest]. *)
Lemma columns_loop_surviving fuel self data (done rest : list string) w :
  heap w !! target_columns self = Some (done ++ rest) →
  NoDup (done ++ rest) →
  (length rest ≤ fuel)%nat →
  Forall (λ c, c ∈ mandatory_columns self → first_failure data c = None)
         (visited data rest) →
  columns_loop fuel self data (length done) w =
    (Return tt,
     {| heap := <[target_columns self := done ++ surviving data rest]> (heap w);
        stdout := stdout w ++ dropped_messages data rest |}).
Proof.
  revert done rest w.
  induction fuel as [|fuel IH]; intros done rest w Hw Hnd Hfuel Hvis.
  { destruct rest; [|simpl in Hfuel; lia]. simpl.
    rewrite !app_nil_r in *. rewrite insert_id by done. by destruct w. }
  destruct rest as [|c rest].
  { rewrite columns_loop_end.
    - simpl. rewrite !app_nil_r in *. rewrite insert_id by done.
      by destruct w.
    - unfold list_at. rewrite Hw. simpl. apply lookup_ge_None.
      rewrite app_nil_r. lia. }
  rewrite columns_loop_S. unfold list_at at 1. rewrite Hw.
  cbn [default from_option id].
  rewrite list_lookup_middle by done. rewrite check_cascade_spec.
  simpl in Hvis, Hfuel. cbn [surviving dropped_messages].
  destruct (first_failure data c) as [m|] eqn:Hff.
  - apply Forall_cons in Hvis as [Hc Hvis].
    rewrite bool_decide_eq_false_2
      by (intros Hmand; specialize (Hc Hmand); congruence).
    destruct (NoDup_middle _ _ _ Hnd) as [Hcd Hnd'].
    unfold bind at 1. rewrite (list_remove_middle _ done rest) by done.
    unfold bind at 1, print at 1. cbn [fst snd heap stdout]. unfold ret at 1.
    set (w1 := {| heap := <[target_columns self := done ++ rest]> (heap w);
                  stdout := stdout w ++ [Message m] |}).
    destruct rest as [|c' rest].
    + rewrite columns_loop_end.
      * unfold w1. by rewrite !app_nil_r.
      * unfold list_at, w1. cbn [heap]. rewrite lookup_insert_eq. simpl.
        apply lookup_ge_None. rewrite app_nil_r. lia.
    + replace (S (length done)) with (length (done ++ [c']))
        by (rewrite length_app; simpl; lia).
      rewrite (IH (done ++ [c']) rest w1).
      * unfold w1. cbn [heap stdout].
        rewrite insert_insert_eq, <- !app_assoc. done.
      * unfold w1. cbn [heap]. rewrite lookup_insert_eq.
        by rewrite <- app_assoc.
      * by rewrite <- app_assoc.
      * simpl in Hfuel. lia.
      * done.
  - apply Forall_cons in Hvis as [_ Hvis].
    replace (S (length done)) with (length (done ++ [c]))
      by (rewrite length_app; simpl; lia).
    rewrite (IH (done ++ [c]) rest w).
    + by rewrite <- !app_assoc.
    + by rewrite <- app_assoc.
    + by rewrite <- app_assoc.
    + lia.
    + done.
Qed.

End ValidatorMore.

(** X1.  On a list of recognized columns that is not empty and has no
    repetition, in which no mandatory column that the loop looks at fails a
    check, the checker returns; it leaves in the list exactly the columns
    given by [surviving]: every column that passes the checks when it is
    looked at, and every column that directly follows a dropped one; and it
    prints the message of the first failing check of each dropped column,
    in order. *)
Theorem checker_result (data : DataFrame) (l : loc)
    (mand : option (list string)) (w : world)
    (Hne : list_at w l ≠ [])
    (Hnd : NoDup (list_at w l))
    (Hmand : Forall (λ c, c ∈ default [] mand → first_failure data c = None)
                    (visited data (list_at w l))) :
  DataColumnChecker.__init__ data l mand w =
    (Return {| DataColumnChecker.target_columns := l;
               DataColumnChecker.mandatory_columns := default [] mand |},
     {| heap := <[l := surviving data (list_at w l)]> (heap w);
        stdout := stdout w ++ dropped_messages data (list_at w l) |}).
Proof.
  rewrite init_unfold. cbv zeta.
  destruct (list_at w l) as [|c cs] eqn:Hl; [done |].
  assert (heap w !! l = Some (c :: cs)) as Hw.
  { unfold list_at in Hl. destruct (heap w !! l); [by simplify_eq/= | done]. }
  rewrite (columns_loop_surviving _ _ data [] (c :: cs) w); done.
Qed.

Lemma checker_result_witness :
  DataColumnChecker.__init__ labelled_frame 7%nat (Some ["start"])
    (world_with 7%nat ["phase_number"; "label"; "start"]) =
    (Return {| DataColumnChecker.target_columns := 7%nat;
               DataColumnChecker.mandatory_columns := ["start"] |},
     {| heap := <[7%nat := ["label"; "start"]]>
                  (heap (world_with 7%nat ["phase_number"; "label"; "start"]));
        stdout :=
          [Message "Column 'phase_number' is missing in your input data!"]
     |}).
Proof.
  apply (checker_result labelled_frame 7%nat (Some ["start"])
           (world_with 7%nat ["phase_number"; "label"; "start"])).
  - vm_compute. discriminate.
  - apply (bool_decide_unpack _). vm_compute. exact I.
  - apply (bool_decide_unpack _). vm_compute. exact I.
Defined.

Section ValidatorAbort.
Import DataColumnChecker.

Lemma check_cascade_cases self column data w :
  column ∈ list_at w (target_columns self) →
  (first_failure data column = None ∧
   check_cascade self column data conditions w = (Return false, w)) ∨
  (∃ m, first_failure data column = Some m ∧
        column ∈ mandatory_columns self ∧
        check_cascade self column data conditions w =
          (Raise (Exception
                    ("Mandatory column cannot be processed! " +:+ m)), w)) ∨
  (∃ m v, first_failure data column = Some m ∧
          (column ∉ mandatory_columns self) ∧
          remove_first column (list_at w (target_columns self)) = Some v ∧
          check_cascade self column data conditions w =
            (Return true,
             {| heap := <[target_columns self := v]> (heap w);
                stdout := stdout w ++ [Message m] |})).
Proof.
  intros Hin. rewrite check_cascade_spec.
  destruct (first_failure data column) as [m|]; [|by left]. right.
  destruct (bool_decide (column ∈ mandatory_columns self)) eqn:Hm.
  - left. apply bool_decide_eq_true in Hm. by exists m.
  - right. apply bool_decide_eq_false in Hm.
    destruct (remove_first_is_Some _ _ Hin) as [v Hv]. exists m, v.
    repeat split; [done .. |].
    unfold list_remove, bind, deref, assign, print, ret. simpl.
    fold (list_at w (target_columns self)). by rewrite Hv.
Qed.

Lemma columns_loop_raise fuel self data i w e w' :
  columns_loop fuel self data i w = (Raise e, w') →
  ∃ c m, c ∈ list_at w (target_columns self) ∧
         c ∈ mandatory_columns self ∧
         first_failure data c = Some m ∧
         e = Exception ("Mandatory column cannot be processed! " +:+ m).
Proof.
  revert i w. induction fuel as [|fuel IH]; intros i w; [done |].
  rewrite columns_loop_S.
  destruct (list_at w (target_columns self) !! i) as [column|] eqn:Hi;
    [|done].
  pose proof (list_elem_of_lookup_2 _ _ _ Hi) as Hin.
  destruct (check_cascade_cases self column data w Hin)
    as [[_ ->]|[(m & Hm & Hmand & ->)|(m & v & Hm & _ & Hv & ->)]].
  - apply IH.
  - intros [= <- <-]. by exists column, m.
  - intros (c & m' & Hc & Hrest)%IH. exists c, m'. split; [|done].
    rewrite list_at_insert in Hc.
    eapply elem_of_sublist; [exact Hc | by eapply remove_first_sublist].
Qed.

Lemma logged_refl data mand l w : logged data mand l w w.
Proof. exists []. simpl. rewrite app_nil_r. repeat split; [lia | done]. Qed.

Lemma columns_loop_logged fuel self data i w :
  logged data (mandatory_columns self) (target_columns self)
    w (columns_loop fuel self data i w).2.
Proof.
  revert i w. induction fuel as [|fuel IH]; intros i w;
    [apply logged_refl |].
  rewrite columns_loop_S.
  destruct (list_at w (target_columns self) !! i) as [column|] eqn:Hi;
    [|apply logged_refl].
  pose proof (list_elem_of_lookup_2 _ _ _ Hi) as Hin.
  destruct (check_cascade_cases self column data w Hin)
    as [[_ ->]|[(m & Hm & Hmand & ->)|(m & v & Hm & Hopt & Hv & ->)]].
  - apply IH.
  - apply logged_refl.
  - set (w1 := {| heap := <[target_columns self := v]> (heap w);
                  stdout := stdout w ++ [Message m] |}).
    destruct (IH (S i) w1) as (msgs & Hout & Hlen & Hall).
    exists (m :: msgs). split; [|split].
    + rewrite Hout. unfold w1. simpl. by rewrite <- app_assoc.
    + unfold w1 in Hlen at 1. rewrite list_at_insert in Hlen.
      rewrite (remove_first_length _ _ _ Hv). simpl. lia.
    + constructor; [by exists column |].
      eapply Forall_impl; [exact Hall |]. intros m' (c & Hc & Hrest).
      exists c. split; [|done]. unfold w1 in Hc. rewrite list_at_insert in Hc.
      eapply elem_of_sublist; [exact Hc | by eapply remove_first_sublist].
Qed.

End ValidatorAbort.

(** X2.  The checker raises only in two cases, and only with the documented
    exceptions: on an empty list of recognized columns, with the world
    untouched; or at a column of the list that is mandatory and fails a
    check, with a message that consists of the fixed prefix and the message
    of the first failing check, which names that column. *)
Theorem checker_raises_only_when_fatal (data : DataFrame) (l : loc)
    (mand : option (list string)) (w w' : world) (e : exn)
    (Hraise : DataColumnChecker.__init__ data l mand w = (Raise e, w')) :
  (list_at w l = [] ∧ w' = w ∧
   e = Exception "Empty target_columns! No filtering possible!") ∨
  (∃ c m rest,
     c ∈ list_at w l ∧ c ∈ default [] mand ∧
     first_failure data c = Some m ∧
     m = "Column '" +:+ c +:+ rest ∧
     e = Exception ("Mandatory column cannot be processed! " +:+ m)).
Proof.
  rewrite init_unfold in Hraise. cbv zeta in Hraise.
  destruct (list_at w l) as [|c0 cs] eqn:Hl.
  { left. by injection Hraise as <- <-. }
  right.
  destruct (DataColumnChecker.columns_loop _ _ data 0 w) as [[[]|e'] w1] eqn:Hloop;
    [done |].
  injection Hraise as -> ->.
  apply columns_loop_raise in Hloop as (c & m & Hc & Hm & Hff & ->).
  destruct (first_failure_names_column _ _ _ Hff) as [rest Hrest].
  exists c, m, rest. simpl in Hc, Hm. by rewrite Hl in Hc.
Qed.

Lemma checker_raises_only_when_fatal_witness :
  ∃ c m rest,
    c ∈ ["start"] ∧ c ∈ ["start"] ∧
    first_failure frame_without_start c = Some m ∧
    m = "Column '" +:+ c +:+ rest ∧
    Exception "Mandatory column cannot be processed! Column 'start' is missing in your input data!" =
      Exception ("Mandatory column cannot be processed! " +:+ m).
Proof.
  destruct (checker_raises_only_when_fatal frame_without_start 7%nat
              (Some ["start"]) (world_with 7%nat ["start"])
              (world_with 7%nat ["start"])
              (Exception "Mandatory column cannot be processed! Column 'start' is missing in your input data!"))
    as [(Hempty & _)|H].
  - vm_compute. reflexivity.
  - vm_compute in Hempty. discriminate Hempty.
  - exact H.
Defined.

(** X3.  Whatever the outcome of the checker, it prints exactly one line
    per column that it removed from the list: the lines are messages of
    first failing checks of optional columns of the list, and their number
    is the number of columns by which the list got shorter. *)
Theorem checker_one_line_per_dropped_column (data : DataFrame) (l : loc)
    (mand : option (list string)) (w : world) :
  logged data (default [] mand) l w
    (DataColumnChecker.__init__ data l mand w).2.
Proof.
  rewrite init_unfold. cbv zeta.
  destruct (list_at w l) as [|c cs] eqn:Hl; [apply logged_refl |].
  pose proof (columns_loop_logged (length (c :: cs))
                {| DataColumnChecker.target_columns := l;
                   DataColumnChecker.mandatory_columns := default [] mand |}
                data 0 w) as Hlog.
  by destruct (DataColumnChecker.columns_loop _ _ data 0 w) as [[[]|e] w1].
Qed.

(** ** The milestone filter in a load *)

Section MilestonesMore.
Import LazyGantt.

Lemma filter_milestones_run self w :
  _filter_milestones self w =
    (Return (with_milestones self
               (filter (λ m, 0 ≤ m ≤ no_months self) (milestones self))),
     {| heap := heap w;
        stdout := stdout w ++
                  milestone_report (no_months self) (milestones self) |}).
Proof.
  unfold _filter_milestones, milestone_report, with_milestones.
  rewrite <- filter_in_range, <- filter_exceeding.
  destruct (filter (λ m, m < 0) (milestones self)) as [|n ns] eqn:Hneg.
  - rewrite (filter_none_negative _ Hneg). unfold bind at 1, ret at 1.
    destruct (filter (λ m, m > no_months self) (milestones self))
      as [|b bs] eqn:Hbig.
    + rewrite (filter_none_exceeding _ _ Hbig).
      unfold bind, ret. simpl. rewrite app_nil_r. by destruct w.
    + unfold bind, ret, print. simpl. by destruct w.
  - unfold bind at 1, print at 1, ret at 1. unfold bind at 1. simpl.
    destruct (filter (λ m, m > no_months self) _) as [|b bs] eqn:Hbig.
    + rewrite (filter_none_exceeding _ _ Hbig). unfold bind, ret. by simpl.
    + unfold bind, ret, print. simpl. by rewrite <- app_assoc.
Qed.

Lemma filter_nil_iff {A} (P : A → Prop) `{∀ x, Decision (P x)} (l : list A) :
  Forall (λ x, ¬ P x) l → filter P l = [].
Proof.
  induction 1 as [|x l Hx Hl IH]; [done |].
  rewrite filter_cons. by destruct (decide (P x)).
Qed.

Lemma milestone_report_in_range total (ms : list Z) :
  Forall (λ m, 0 ≤ m ≤ total) ms → milestone_report total ms = [].
Proof.
  intros Hms. unfold milestone_report.
  rewrite !filter_nil_iff; [done | |];
    (eapply Forall_impl; [exact Hms |]; intros m; simpl; lia).
Qed.

Lemma fill_packages_milestones self data cols self1 data1 km :
  fill_packages self data cols = Return (self1, data1, km) →
  milestones self1 = milestones self.
Proof.
  unfold fill_packages, mbind, outcome_bind.
  repeat (case_match; simplify_eq/=; try done). by intros [= <- _ _].
Qed.

Lemma fill_phases_milestones self data km o :
  fill_phases self data km = Return o → milestones o = milestones self.
Proof.
  unfold fill_phases, mbind, outcome_bind.
  repeat (case_match; simplify_eq/=; try done); by intros [= <-].
Qed.

Lemma fill_from_csv_milestones self data w o w' :
  _fill_from_csv self data w = (Return o, w') →
  milestones o = milestones self.
Proof.
  unfold _fill_from_csv, load_packages, bind, deref, lift.
  destruct (DataColumnChecker.__init__ _ _ _ w) as [[chk|e] w1]; [|done].
  destruct (fill_packages _ _ _) as [[[s d] k]|e] eqn:Hpk; [|done].
  destruct (fill_phases s d k) as [o1|e] eqn:Hph; [|done].
  intros [= <- _].
  rewrite (fill_phases_milestones _ _ _ _ Hph).
  by rewrite (fill_packages_milestones _ _ _ _ _ _ Hpk).
Qed.

End MilestonesMore.

(** X4.  The milestone filter is idempotent: run on the object that it
    returned, it returns that object again and prints nothing. *)
Theorem filter_milestones_idempotent (self : LazyGantt.t) (w : world) :
  ∃ o w1,
    LazyGantt._filter_milestones self w = (Return o, w1) ∧
    LazyGantt._filter_milestones o w1 = (Return o, w1).
Proof.
  eexists _, _. split; [apply filter_milestones_run |].
  rewrite filter_milestones_run. unfold with_milestones. simpl.
  rewrite (milestone_report_in_range (LazyGantt.no_months self)
             (filter (λ m, 0 ≤ m ≤ LazyGantt.no_months self)
                     (LazyGantt.milestones self))).
  2: { apply Forall_forall. by intros m [Hm _]%list_elem_of_filter. }
  rewrite app_nil_r. do 3 f_equal.
  rewrite list_filter_filter. apply list_filter_iff. intros m. tauto.
Qed.

(** X5.  A load that is given milestones and completes keeps exactly the
    given milestones that lie between 0 and the project duration derived
    from the table, in their order. *)
Theorem load_filters_given_milestones (file : table) (ms : list Z)
    (w w' : world) (o : LazyGantt.t)
    (Hload : LazyGantt.load_data file (Some ms) w = (Return o, w')) :
  LazyGantt.milestones o =
    filter (λ m, 0 ≤ m ≤ LazyGantt.no_months o) ms.
Proof.
  unfold LazyGantt.load_data, LazyGantt.__init__, bind in Hload.
  destruct (LazyGantt._fill_from_csv _ _ w) as [[o1|e] w1] eqn:Hfill;
    [|done].
  apply fill_from_csv_milestones in Hfill. simpl in Hfill.
  rewrite filter_milestones_run in Hload. injection Hload as <- _.
  unfold with_milestones. simpl. by rewrite Hfill.
Qed.

(** X6.  A load that is given no milestones and completes keeps the five
    default milestones as they are, also those beyond the project duration
    derived from the table: the filter runs only on given milestones. *)
Theorem load_keeps_default_milestones (file : table) (w w' : world)
    (o : LazyGantt.t)
    (Hload : LazyGantt.load_data file None w = (Return o, w')) :
  LazyGantt.milestones o = [5; 8; 14; 19; 22].
Proof.
  unfold LazyGantt.load_data, LazyGantt.__init__, bind in Hload.
  destruct (LazyGantt._fill_from_csv _ _ w) as [[o1|e] w1] eqn:Hfill;
    [|done].
  apply fill_from_csv_milestones in Hfill. injection Hload as <- _.
  exact Hfill.
Qed.

Lemma load_filters_given_milestones_witness :
  ∃ o w',
    LazyGantt.load_data scenario_A (Some [-5; 3; 50])
      LazyGantt.initial_world = (Return o, w') ∧
    LazyGantt.milestones o =
      filter (λ m, 0 ≤ m ≤ LazyGantt.no_months o) [-5; 3; 50].
Proof.
  eexists _, _. split; [vm_compute; reflexivity |].
  eapply (load_filters_given_milestones scenario_A [-5; 3; 50]
            LazyGantt.initial_world).
  vm_compute. reflexivity.
Defined.

Lemma load_keeps_default_milestones_witness :
  ∃ o w',
    LazyGantt.load_data scenario_A None LazyGantt.initial_world =
      (Return o, w') ∧
    LazyGantt.no_months o = 7 ∧
    LazyGantt.milestones o = [5; 8; 14; 19; 22].
Proof.
  eexists _, _. split; [vm_compute; reflexivity |].
  split; [reflexivity |].
  eapply (load_keeps_default_milestones scenario_A LazyGantt.initial_world).
  vm_compute. reflexivity.
Defined.

(** ** Loads *)

Section LoadMore.
Import LazyGantt.

Lemma init_surviving data l mand w :
  list_at w l ≠ [] → NoDup (list_at w l) →
  Forall (λ c, c ∈ default [] mand → first_failure data c = None)
         (visited data (list_at w l)) →
  DataColumnChecker.__init__ data l mand w =
    (Return {| DataColumnChecker.target_columns := l;
               DataColumnChecker.mandatory_columns := default [] mand |},
     {| heap := <[l := surviving data (list_at w l)]> (heap w);
        stdout := stdout w ++ dropped_messages data (list_at w l) |}).
Proof.
  intros Hne Hnd Hmand. rewrite init_unfold. cbv zeta.
  destruct (list_at w l) as [|c cs] eqn:Hl; [done |].
  assert (heap w !! l = Some (c :: cs)) as Hw.
  { unfold list_at in Hl. destruct (heap w !! l); [by simplify_eq/= | done]. }
  rewrite (columns_loop_surviving _ _ data [] (c :: cs) w); done.
Qed.

Lemma mandatory_is_start_or_duration c :
  c ∈ MANDATORY_COLUMNS → c = "start" ∨ c = "duration".
Proof.
  unfold MANDATORY_COLUMNS.
  intros [->|[->|H%elem_of_nil]%elem_of_cons]%elem_of_cons; auto. done.
Qed.

(** The checker of a load whose mandatory columns pass. *)
Lemma validator_explicit w data :
  class_ok w → usable data "start" → usable data "duration" →
  DataColumnChecker.__init__ data ALL_COLUMNS (Some MANDATORY_COLUMNS) w =
    (Return {| DataColumnChecker.target_columns := ALL_COLUMNS;
               DataColumnChecker.mandatory_columns := MANDATORY_COLUMNS |},
     {| heap := <[ALL_COLUMNS := surviving data (recognized w)]> (heap w);
        stdout := stdout w ++ dropped_messages data (recognized w) |}).
Proof.
  intros Hclass Hs Hd. unfold usable in Hs, Hd.
  destruct Hclass as [Hw|Hw];
    (apply (init_surviving data ALL_COLUMNS (Some MANDATORY_COLUMNS) w);
     fold (recognized w); rewrite Hw;
     [done | apply (bool_decide_unpack _); by vm_compute |]).
  - simpl. rewrite Hs, Hd.
    assert (∀ c, c ∈ MANDATORY_COLUMNS → first_failure data c = None) as Hm
      by (by intros c [-> | ->]%mandatory_is_start_or_duration).
    destruct (first_failure data "phase_number") eqn:Hp;
      repeat constructor; apply Hm.
  - simpl. rewrite Hs, Hd.
    assert (∀ c, c ∈ MANDATORY_COLUMNS → first_failure data c = None) as Hm
      by (by intros c [-> | ->]%mandatory_is_start_or_duration).
    repeat constructor; apply Hm.
Qed.

(** The checker of a load with a failing mandatory column. *)
Lemma validator_aborts w data m :
  class_ok w → first_mandatory_failure data = Some m →
  DataColumnChecker.__init__ data ALL_COLUMNS (Some MANDATORY_COLUMNS) w =
    (Raise (Exception ("Mandatory column cannot be processed! " +:+ m)), w).
Proof.
  intros Hclass Hm. rewrite init_unfold. cbv zeta.
  unfold class_ok, recognized in Hclass. unfold first_mandatory_failure in Hm.
  assert (bool_decide ("start" ∈ MANDATORY_COLUMNS) = true) as Hms
    by (by vm_compute).
  assert (bool_decide ("duration" ∈ MANDATORY_COLUMNS) = true) as Hmd
    by (by vm_compute).
  destruct Hclass as [Hw|Hw]; rewrite Hw; cbn [length];
    (rewrite columns_loop_S; cbn [DataColumnChecker.target_columns];
     rewrite Hw; cbn [lookup list_lookup]; rewrite check_cascade_spec;
     cbn [DataColumnChecker.mandatory_columns default from_option id];
     destruct (first_failure data "start") as [ms|];
     [rewrite Hms; by simplify_eq |];
     rewrite columns_loop_S; cbn [DataColumnChecker.target_columns];
     rewrite Hw; cbn [lookup list_lookup]; rewrite check_cascade_spec;
     cbn [DataColumnChecker.mandatory_columns default from_option id];
     rewrite Hm, Hmd; done).
Qed.

End LoadMore.

(** X7.  On every reachable state of the class, a load of a table whose
    start column, or else whose duration column, fails one of the three
    checks raises the exception of the checker with the message of that
    first failing check, before anything is printed or removed. *)
Theorem load_aborts_on_mandatory_failure (w : world) (file : table)
    (ms : option (list Z)) (m : string)
    (Hclass : class_ok w)
    (Hfail : first_mandatory_failure (read_csv file) = Some m) :
  LazyGantt.load_data file ms w =
    (Raise (Exception ("Mandatory column cannot be processed! " +:+ m)), w).
Proof.
  unfold LazyGantt.load_data, LazyGantt.__init__, LazyGantt._fill_from_csv,
    LazyGantt.load_packages.
  unfold bind. by rewrite (validator_aborts _ _ _ Hclass Hfail).
Qed.

Lemma load_aborts_on_mandatory_failure_witness :
  LazyGantt.load_data
    {| t_columns := ["duration"]; t_rows := [ {[ "duration" := Num 3 ]} ] |}
    None LazyGantt.initial_world =
    (Raise (Exception
       "Mandatory column cannot be processed! Column 'start' is missing in your input data!"),
     LazyGantt.initial_world).
Proof.
  apply (load_aborts_on_mandatory_failure LazyGantt.initial_world
           {| t_columns := ["duration"];
              t_rows := [ {[ "duration" := Num 3 ]} ] |} None
           "Column 'start' is missing in your input data!").
  - left. vm_compute. reflexivity.
  - vm_compute. reflexivity.
Defined.

Section PackagesExplicit.
Import LazyGantt.

(** Lines 173 to 205 on a file, with the frame that they leave. *)
Lemma fill_packages_explicit (file : table) (cols : list string)
    (km : list (string * string)) :
  let data := read_csv file in
  let R := labelled_retained file in
  foldl _build_key_mapper [] cols = km →
  dict_get km "start" = Some "start" →
  dict_get km "length" = Some "duration" →
  NoDup km.*2 → "start" ∈ km.*2 → "duration" ∈ km.*2 →
  Forall (λ kv, has_column data kv.2 = true ∧
                Forall (λ p, is_num (row_get p.2 kv.2) = true) R) km →
  R ≠ [] →
  ∃ lbl r,
    (lbl, r) ∈ R ∧
    (∀ p, p ∈ R → wrap32 (start_of p.2) ≤ wrap32 (start_of r)) ∧
    ∀ self,
      fill_packages self data cols =
        Return ({| no_months := add32 (wrap32 (start_of r))
                                      (wrap32 (duration_of r));
                   no_packages := Z.of_nat (max_list R.*1);
                   no_phases := no_phases self;
                   packages := package_of <$> retained file;
                   phases := phases self;
                   milestones := milestones self |},
                {| df_columns := t_columns file;
                   df_rows := convert_rows km.*2 R |}, km).
Proof.
  intros data R Hkm Hks Hkl Hnd Hs Hd Hcols HR.
  assert (has_column data "start" = true) as Hhs.
  { apply list_elem_of_fmap in Hs as [[k c] [-> Hin]].
    by apply (proj1 (Forall_forall _ _) Hcols _ Hin). }
  assert (has_column data "duration" = true) as Hhd.
  { apply list_elem_of_fmap in Hd as [[k c] [-> Hin]].
    by apply (proj1 (Forall_forall _ _) Hcols _ Hin). }
  destruct (idxmax_spec
              ((λ p, (p.1, wrap32 (int_of_cell (row_get p.2 "start")))) <$> R))
    as (m & lbl & i & Hmax & Hidx & Hi & Hub).
  { by destruct R. }
  apply list_lookup_fmap_Some in Hi as [[lbl' r] [[= -> ->] Hi]].
  simpl in Hi.
  set (data1 := drop_rows (labels_where is_null (column_of data "start"))
                          data).
  set (data2 := {| df_columns := t_columns file;
                   df_rows := convert_rows km.*2 R |}).
  exists lbl', r. split; [by eapply list_elem_of_lookup_2 |].
  split.
  { intros p Hp. apply (Hub (p.1, wrap32 (start_of p.2))).
    apply list_elem_of_fmap. by exists p. }
  intros self. unfold fill_packages. rewrite Hkm. cbv zeta.
  rewrite (dict_item_Some _ _ _ Hks), !bind_Return.
  rewrite (getitem_has _ _ Hhs), bind_Return. fold data data1.
  assert (df_rows data1 = R) as Hrows1
    by (apply drop_nan_rows, read_csv_NoDup).
  rewrite (convert_all km data1), bind_Return by (by rewrite Hrows1).
  rewrite Hrows1. clear Hrows1.
  change (df_columns data1) with (t_columns file). fold data2.
  rewrite bind_Return.
  rewrite (getitem_has data2 "start" Hhs), bind_Return.
  assert ((df_rows data2).*1 = R.*1) as ->.
  { unfold data2, convert_rows. simpl. by rewrite <- list_fmap_compose. }
  rewrite !(ints_column_converted km.*2 "start" data2 R) by done.
  rewrite Hmax, Hidx.
  rewrite (dict_item_Some _ _ _ Hkl), bind_Return.
  rewrite (getitem_has data2 "duration" Hhd), bind_Return.
  rewrite !(ints_column_converted km.*2 "duration" data2 R) by done.
  rewrite (at_label_elem _ lbl' (wrap32 (duration_of r))), bind_Return.
  - rewrite zip_packages. do 3 f_equal.
    rewrite <- (retained_read_csv file). by rewrite <- list_fmap_compose.
  - rewrite <- list_fmap_compose. simpl.
    eapply sublist_NoDup; [apply (read_csv_NoDup file) |].
    apply fmap_sublist, sublist_filter.
  - apply list_elem_of_fmap. exists (lbl', r).
    split; [done | by eapply list_elem_of_lookup_2].
Qed.

End PackagesExplicit.

Section LoadExplicit.
Import LazyGantt.

Variables (w : world) (file : table).
Hypothesis Hclass : class_ok w.
Hypothesis Hstart : usable (read_csv file) "start".
Hypothesis Hdur : usable (read_csv file) "duration".
Hypothesis Hdur_num : numeric_in file "duration".
Hypothesis Hphase_num :
  "phase_number" ∈ recognized w → usable (read_csv file) "phase_number" →
  numeric_in file "phase_number".

(** What the checker of a load leaves recognized. *)
Lemma validated_cases :
  (validated w file = ["start"; "duration"; "phase_number"] ∧
   "phase_number" ∈ recognized w ∧ usable (read_csv file) "phase_number") ∨
  (validated w file = ["start"; "duration"] ∧
   ("phase_number" ∈ recognized w →
    first_failure (read_csv file) "phase_number" ≠ None)).
Proof.
  pose proof Hstart as Hs. pose proof Hdur as Hd.
  unfold usable in Hs, Hd. unfold validated, usable.
  destruct Hclass as [Hw|Hw]; rewrite Hw; simpl; rewrite Hs, Hd.
  - destruct (first_failure (read_csv file) "phase_number") eqn:Hp.
    + right. split; [done |]. by intros _.
    + left. split; [done |]. split; [|done].
      apply (bool_decide_unpack _). by vm_compute.
  - right. split; [done |]. intros Hin. exfalso. revert Hin.
    apply (bool_decide_unpack _). by vm_compute.
Qed.

Lemma labelled_retained_rows c :
  numeric_in file c →
  Forall (λ p, is_num (row_get p.2 c) = true) (labelled_retained file).
Proof.
  unfold numeric_in. rewrite <- retained_read_csv. by rewrite Forall_fmap.
Qed.

Lemma labelled_retained_start :
  Forall (λ p, is_num (row_get p.2 "start") = true) (labelled_retained file).
Proof.
  apply Forall_forall. intros p [Hnull Hp]%list_elem_of_filter.
  apply cell_num; [done |]. by eapply usable_no_text.
Qed.

(** The load up to line 205, with the frame, the key mapper and the world
    that it leaves. *)
Lemma load_packages_explicit :
  ∃ r,
    r ∈ retained file ∧
    (∀ r', r' ∈ retained file → wrap32 (start_of r') ≤ wrap32 (start_of r)) ∧
    ∀ self,
      load_packages self (read_csv file) w =
        (Return (loaded_packages self file r, converted_frame w file,
                 load_key_mapper w file),
         world_after_checker w file).
Proof.
  pose proof (validator_explicit w (read_csv file) Hclass Hstart Hdur)
    as Hinit.
  assert (dict_get (load_key_mapper w file) "start" = Some "start" ∧
          dict_get (load_key_mapper w file) "length" = Some "duration" ∧
          NoDup (load_key_mapper w file).*2 ∧
          "start" ∈ (load_key_mapper w file).*2 ∧
          "duration" ∈ (load_key_mapper w file).*2 ∧
          Forall (λ kv, has_column (read_csv file) kv.2 = true ∧
                        Forall (λ p, is_num (row_get p.2 kv.2) = true)
                               (labelled_retained file))
                 (load_key_mapper w file))
    as (Hks & Hkl & Hnd & Hs & Hd & Hall).
  { pose proof labelled_retained_start as Hns.
    pose proof (labelled_retained_rows _ Hdur_num) as Hnd.
    pose proof (usable_has_column _ _ Hstart) as Hhs.
    pose proof (usable_has_column _ _ Hdur) as Hhd.
    unfold load_key_mapper.
    destruct validated_cases as [(-> & Hin & Hu)|[-> _]].
    - split; [done |]. split; [done |].
      split; [apply (bool_decide_unpack _); by vm_compute |].
      split; [apply (bool_decide_unpack _); by vm_compute |].
      split; [apply (bool_decide_unpack _); by vm_compute |].
      repeat constructor; simpl; try done.
      + by apply usable_has_column.
      + by apply labelled_retained_rows, Hphase_num.
    - split; [done |]. split; [done |].
      split; [apply (bool_decide_unpack _); by vm_compute |].
      split; [apply (bool_decide_unpack _); by vm_compute |].
      split; [apply (bool_decide_unpack _); by vm_compute |].
      repeat constructor; simpl; done. }
  destruct (fill_packages_explicit file (validated w file)
              (load_key_mapper w file) eq_refl Hks Hkl Hnd Hs Hd Hall)
    as (lbl & r & Hr & Hmax & Hfill).
  { by apply usable_some_content. }
  exists r. split; [|split].
  - rewrite <- retained_read_csv. apply list_elem_of_fmap. by exists (lbl, r).
  - intros r'. rewrite <- retained_read_csv.
    intros [p [-> Hp]]%list_elem_of_fmap. by apply Hmax.
  - intros self. unfold load_packages, bind. rewrite Hinit.
    unfold deref, lift. cbn [DataColumnChecker.get_valid_columns
                               DataColumnChecker.target_columns heap].
    rewrite lookup_insert_eq. cbn [default from_option id].
    fold (validated w file). by rewrite Hfill.
Qed.

End LoadExplicit.

Section LoadEnd.
Import LazyGantt.

(** A load whose package stage and phase stage return. *)
Lemma load_data_from_stages file ms w s d km w1 o1 :
  load_packages (fresh (default [5; 8; 14; 19; 22] ms)) (read_csv file) w =
    (Return (s, d, km), w1) →
  fill_phases s d km = Return o1 →
  load_data file ms w =
    match ms with
    | Some _ =>
        (Return (with_milestones o1
                   (filter (λ m, 0 ≤ m ≤ no_months o1) (milestones o1))),
         {| heap := heap w1;
            stdout := stdout w1 ++
                      milestone_report (no_months o1) (milestones o1) |})
    | None => (Return o1, w1)
    end.
Proof.
  intros Hpk Hph. unfold load_data, LazyGantt.__init__.
  fold (fresh (default [5; 8; 14; 19; 22] ms)).
  unfold _fill_from_csv, bind at 1 2. rewrite Hpk. unfold lift.
  rewrite Hph. destruct ms; [apply filter_milestones_run | done].
Qed.

End LoadEnd.

(** X8.  On every reachable state of the class, a load of a table whose
    start and duration columns pass the checks and whose retained records
    all have a duration completes also without a phase column: when the
    phase column is no longer recognized, or fails a check in this table,
    the object has no phases and no phase count, one package per retained
    record, and the class recognizes start and duration afterwards.  The
    message about the phase column is printed only if the column was still
    recognized before the load; the lines of the milestone filter follow. *)
Theorem load_without_phase_column (w : world) (file : table)
    (ms : option (list Z)) (m : string)
    (Hclass : class_ok w)
    (Hstart : usable (read_csv file) "start")
    (Hdur : usable (read_csv file) "duration")
    (Hdur_num : numeric_in file "duration")
    (Hphase : "phase_number" ∈ recognized w →
              first_failure (read_csv file) "phase_number" = Some m) :
  ∃ o w',
    LazyGantt.load_data file ms w = (Return o, w') ∧
    LazyGantt.no_phases o = None ∧
    LazyGantt.phases o = None ∧
    LazyGantt.packages o = package_of <$> retained file ∧
    recognized w' = ["start"; "duration"] ∧
    stdout w' =
      stdout w ++
      (if decide ("phase_number" ∈ recognized w) then [Message m] else []) ++
      milestone_lines (LazyGantt.no_months o) ms.
Proof.
  assert ("phase_number" ∈ recognized w →
          usable (read_csv file) "phase_number" →
          numeric_in file "phase_number") as Hphase_num.
  { intros Hin Hu. unfold usable in Hu. rewrite (Hphase Hin) in Hu.
    discriminate Hu. }
  destruct (load_packages_explicit w file Hclass Hstart Hdur Hdur_num
              Hphase_num) as (r & _ & _ & Hload).
  destruct (validated_cases w file Hclass Hstart Hdur)
    as [(_ & Hin & Hu)|[Hval _]].
  { unfold usable in Hu. rewrite (Hphase Hin) in Hu. discriminate Hu. }
  assert (dropped_messages (read_csv file) (recognized w) =
          if decide ("phase_number" ∈ recognized w) then [Message m] else [])
    as Hmsgs.
  { unfold usable in Hstart, Hdur.
    destruct (decide ("phase_number" ∈ recognized w)) as [Hin|Hout].
    - pose proof (Hphase Hin) as Hm.
      destruct Hclass as [Hw|Hw]; rewrite Hw in *; simpl.
      + by rewrite Hstart, Hdur, Hm.
      + exfalso. revert Hin. apply (bool_decide_unpack _). by vm_compute.
    - destruct Hclass as [Hw|Hw]; rewrite Hw in *; simpl.
      + exfalso. apply Hout. apply (bool_decide_unpack _). by vm_compute.
      + by rewrite Hstart, Hdur. }
  pose proof (load_data_from_stages file ms w _ _ _ _
                {| LazyGantt.no_months :=
                     add32 (wrap32 (start_of r)) (wrap32 (duration_of r));
                   LazyGantt.no_packages :=
                     Z.of_nat (max_list (labelled_retained file).*1);
                   LazyGantt.no_phases := None;
                   LazyGantt.packages := package_of <$> retained file;
                   LazyGantt.phases := None;
                   LazyGantt.milestones := default [5; 8; 14; 19; 22] ms |}
                (Hload _)) as Hrun.
  rewrite Hrun.
  2: { unfold LazyGantt.fill_phases, load_key_mapper. by rewrite Hval. }
  assert (recognized (world_after_checker w file) = ["start"; "duration"])
    as Hrec.
  { unfold recognized, list_at, world_after_checker. cbn [heap].
    by rewrite lookup_insert_eq, Hval. }
  destruct ms as [ms|]; eexists _, _; (split; [reflexivity |]).
  - repeat split; try done. cbn [stdout world_after_checker with_milestones
                                  LazyGantt.no_months LazyGantt.milestones
                                  milestone_lines default from_option id].
    by rewrite Hmsgs, <- app_assoc.
  - repeat split; try done. cbn [stdout world_after_checker milestone_lines].
    by rewrite Hmsgs, app_nil_r.
Qed.

Lemma load_without_phase_column_witness :
  ∃ o w',
    LazyGantt.load_data scenario_A (Some [-5; 3; 50])
      LazyGantt.initial_world = (Return o, w') ∧
    LazyGantt.no_phases o = None ∧
    LazyGantt.phases o = None ∧
    LazyGantt.packages o = package_of <$> retained scenario_A ∧
    recognized w' = ["start"; "duration"] ∧
    stdout w' =
      stdout LazyGantt.initial_world ++
      (if decide ("phase_number" ∈ recognized LazyGantt.initial_world)
       then [Message "Column 'phase_number' is missing in your input data!"]
       else []) ++
      milestone_lines (LazyGantt.no_months o) (Some [-5; 3; 50]).
Proof.
  apply (load_without_phase_column LazyGantt.initial_world scenario_A
           (Some [-5; 3; 50])
           "Column 'phase_number' is missing in your input data!").
  - left. vm_compute. reflexivity.
  - vm_compute. reflexivity.
  - vm_compute. reflexivity.
  - apply (bool_decide_unpack _). vm_compute. exact I.
  - intros _. vm_compute. reflexivity.
Defined.

(** ** The key mapper *)

Section KeyMapper.
Import LazyGantt.

Lemma dict_get_set d k v k' :
  dict_get (dict_set d k v) k' =
    if decide (k' = k) then Some v else dict_get d k'.
Proof.
  induction d as [|[k0 v0] d IH]; simpl.
  { by destruct (decide (k' = k)). }
  destruct (decide (k = k0)) as [->|Hne]; simpl.
  - by destruct (decide (k' = k0)).
  - rewrite IH. destruct (decide (k' = k0)) as [->|]; [|done].
    by rewrite decide_False by done.
Qed.

Lemma build_key_mapper_get d c role :
  dict_get (_build_key_mapper d c) role =
    if decide (dict_get VARIABLE_MAPPER c = Some role) then Some c
    else dict_get d role.
Proof.
  unfold _build_key_mapper.
  destruct (dict_get VARIABLE_MAPPER c) as [r|] eqn:Hr.
  - rewrite dict_get_set. destruct (decide (role = r)) as [->|Hne].
    + by rewrite decide_True.
    + rewrite decide_False; [done |]. by intros [= ->].
  - by rewrite decide_False.
Qed.

(** No two recognized columns have the same role. *)
Lemma variable_mapper_inj c c' role :
  dict_get VARIABLE_MAPPER c = Some role →
  dict_get VARIABLE_MAPPER c' = Some role → c = c'.
Proof.
  unfold VARIABLE_MAPPER. simpl. intros Hc Hc'.
  repeat (case_decide; simplify_eq/=); done.
Qed.

Lemma key_mapper_fold d cols role c :
  dict_get (foldl _build_key_mapper d cols) role = Some c ↔
    (c ∈ cols ∧ dict_get VARIABLE_MAPPER c = Some role) ∨
    (Forall (λ c', dict_get VARIABLE_MAPPER c' ≠ Some role) cols ∧
     dict_get d role = Some c).
Proof.
  revert d. induction cols as [|x cols IH]; intros d; simpl.
  { split; [by right | intros [[[]%elem_of_nil _]|[_ H]]; done]. }
  rewrite IH, build_key_mapper_get. split.
  - intros [[Hin Hc]|[Hall Hd]].
    + left. split; [by right | done].
    + destruct (decide (dict_get VARIABLE_MAPPER x = Some role)) as [Hx|Hx].
      * injection Hd as ->. left. split; [by left | done].
      * right. split; [by constructor | done].
  - intros [[Hin Hc]|[Hall Hd]].
    + apply elem_of_cons in Hin as [<-|Hin]; [|by left].
      destruct (decide (c ∈ cols)) as [Hin|Hout]; [by left |].
      right. rewrite decide_True by done. split; [|done].
      apply Forall_forall. intros c' Hc' Hrole.
      by rewrite (variable_mapper_inj _ _ _ Hrole Hc) in Hc'.
    + apply Forall_cons in Hall as [Hx Hall]. right.
      by rewrite decide_False.
Qed.

End KeyMapper.

(** X9.  The key mapper built from the columns that the checker left maps
    a role to a column exactly if the column is among them and the class
    gives it that role: a column without role is ignored, and a role whose
    column is not among them has no entry. *)
Theorem key_mapper_lookup (cols : list string) (role c : string) :
  dict_get (foldl LazyGantt._build_key_mapper [] cols) role = Some c ↔
    c ∈ cols ∧ dict_get LazyGantt.VARIABLE_MAPPER c = Some role.
Proof.
  rewrite key_mapper_fold. split; [|by left].
  intros [H|[_ H]]; [done | discriminate H].
Qed.

(** ** The number of packages *)

Section PackageCount.
Import LazyGantt.

Local Ltac bind_inv H x E :=
  match type of H with
  | (?m ≫= _) = Return _ =>
      destruct m as [x|] eqn:E;
      [rewrite bind_Return in H | by (cbv in H)]
  end.

Lemma astype_int32_labels (s s' : list (nat * cell)) :
  astype_int32 s = Return s' → s'.*1 = s.*1.
Proof.
  unfold astype_int32. revert s'.
  induction s as [|[l x] s IH]; intros s' Hs.
  { by injection Hs as <-. }
  rewrite mapM_cons_outcome in Hs. simpl in Hs.
  destruct x as [|z|t]; try discriminate Hs. rewrite bind_Return in Hs.
  bind_inv Hs k Hk. injection Hs as <-. simpl. f_equal. by apply IH.
Qed.

Lemma zip_with_labels {A B} (g : nat * A → B → A) (l1 : list (nat * A))
    (l2 : list B) :
  length l2 = length l1 →
  (zip_with (λ r p, (r.1, g r p)) l1 l2).*1 = l1.*1.
Proof.
  revert l2. induction l1 as [|r l1 IH]; intros [|p l2] Hlen; try done.
  simpl in *. f_equal. apply IH. lia.
Qed.

Lemma convert_column_labels data c data' :
  convert_column data c = Return data' →
  (df_rows data').*1 = (df_rows data).*1.
Proof.
  unfold convert_column. intros H. bind_inv H s Hs. bind_inv H s' Hs'.
  injection H as <-. unfold setitem. cbn [df_rows].
  apply (zip_with_labels (λ r p, <[c := p.2]> r.2)).
  apply astype_int32_labels in Hs'.
  unfold getitem in Hs. destruct (has_column data c); [|done].
  injection Hs as <-.
  rewrite <- (length_fmap fst s'), Hs', length_fmap.
  unfold column_of. by rewrite length_fmap.
Qed.

Lemma for_each_convert_labels (km : list (string * string)) data data' :
  for_each (λ data kv, convert_column data kv.2) data km = Return data' →
  (df_rows data').*1 = (df_rows data).*1.
Proof.
  revert data. induction km as [|kv km IH]; intros data H.
  { by injection H as <-. }
  simpl in H. bind_inv H data1 H1. rewrite (IH _ H).
  by eapply convert_column_labels.
Qed.

Lemma key_mapper_start cols c :
  dict_item (foldl _build_key_mapper [] cols) "start" = Return c →
  c = "start".
Proof.
  unfold dict_item.
  destruct (dict_get _ "start") as [c'|] eqn:Hc; [|done].
  intros [= ->]. apply key_mapper_fold in Hc as [[_ Hc]|[_ Hc]]; [|done].
  revert Hc. unfold VARIABLE_MAPPER. simpl.
  repeat (case_decide; simplify_eq/=); done.
Qed.

(** Lines 173 to 205, when they return, count the packages by the greatest
    label among the rows with a start, and there is such a row. *)
Lemma fill_packages_no_packages file self cols s d km :
  fill_packages self (read_csv file) cols = Return (s, d, km) →
  labelled_retained file ≠ [] ∧
  no_packages s = Z.of_nat (max_list (labelled_retained file).*1).
Proof.
  unfold fill_packages. cbv zeta. intros H.
  bind_inv H c Hc. apply key_mapper_start in Hc as ->.
  bind_inv H starts Hstarts. unfold getitem in Hstarts.
  destruct (has_column (read_csv file) "start"); [|done].
  injection Hstarts as <-.
  bind_inv H data2 Hconv. apply for_each_convert_labels in Hconv.
  rewrite drop_nan_rows in Hconv by apply read_csv_NoDup.
  fold (labelled_retained file) in Hconv.
  bind_inv H c Hc. bind_inv H starts Hstarts.
  destruct (series_max (ints starts)) as [m|] eqn:Hmax; [|done].
  destruct (idxmax (ints starts)); [|done].
  bind_inv H c' Hc'. bind_inv H lengths Hlengths. bind_inv H dur Hlast.
  injection H as <- <- <-.
  cbn [no_packages]. rewrite Hconv. split; [|done].
  intros Hnil. rewrite Hnil in Hconv.
  apply fmap_nil_inv in Hconv.
  unfold getitem in Hstarts. destruct (has_column data2 c); [|done].
  injection Hstarts as <-. unfold column_of in Hmax.
  rewrite Hconv in Hmax. discriminate Hmax.
Qed.

Lemma fill_phases_no_packages self data km o :
  fill_phases self data km = Return o → no_packages o = no_packages self.
Proof.
  unfold fill_phases, mbind, outcome_bind.
  repeat (case_match; simplify_eq/=; try done); by intros [= <-].
Qed.

Lemma max_list_elem (l : list nat) : l ≠ [] → max_list l ∈ l.
Proof.
  induction l as [|x l IH]; [done |]. intros _. simpl.
  destruct l as [|y l].
  { simpl. rewrite Nat.max_0_r. by left. }
  destruct (Nat.max_spec x (max_list (y :: l))) as [[_ ->]|[_ ->]].
  - right. by apply IH.
  - by left.
Qed.

Lemma elem_of_read_csv file i r :
  (i, r) ∈ df_rows (read_csv file) ↔ t_rows file !! i = Some r.
Proof.
  unfold read_csv. cbn [df_rows]. rewrite list_elem_of_lookup. split.
  - intros [j Hj]. rewrite list_lookup_imap in Hj.
    destruct (t_rows file !! j) eqn:Hr; by simplify_eq/=.
  - intros Hi. exists i. by rewrite list_lookup_imap, Hi.
Qed.

End PackageCount.

(** X10.  After a load that completes, [no_packages] is the position in the
    file, counted from 0, of the last record that has a start: with records
    that all have a start it is the number of records minus one. *)
Theorem loaded_no_packages (file : table) (ms : option (list Z))
    (w w' : world) (o : LazyGantt.t)
    (Hload : LazyGantt.load_data file ms w = (Return o, w')) :
  ∃ i r,
    t_rows file !! i = Some r ∧
    is_null (row_get r "start") = false ∧
    (∀ j r', t_rows file !! j = Some r' →
             is_null (row_get r' "start") = false → (j ≤ i)%nat) ∧
    LazyGantt.no_packages o = Z.of_nat i.
Proof.
  unfold LazyGantt.load_data, LazyGantt.__init__ in Hload.
  unfold LazyGantt._fill_from_csv, LazyGantt.load_packages in Hload.
  unfold bind at 1 2 3 in Hload.
  destruct (DataColumnChecker.__init__ _ _ _ w) as [[chk|e] w1]; [|done].
  unfold bind, deref, lift in Hload.
  destruct (LazyGantt.fill_packages _ _ _) as [[[s d] km]|e] eqn:Hpk;
    [|done].
  apply fill_packages_no_packages in Hpk as [Hne Hs].
  destruct (LazyGantt.fill_phases s d km) as [o1|e] eqn:Hph; [|done].
  apply fill_phases_no_packages in Hph.
  assert (LazyGantt.no_packages o = LazyGantt.no_packages o1) as ->.
  { destruct ms as [ms|].
    - rewrite filter_milestones_run in Hload. by injection Hload as <- _.
    - by injection Hload as <- _. }
  rewrite Hph, Hs.
  assert ((labelled_retained file).*1 ≠ []) as Hne'.
  { by intros ?%fmap_nil_inv. }
  pose proof (max_list_elem _ Hne') as Hin.
  apply list_elem_of_fmap in Hin as [[i r] [Hi Hin]]. simpl in Hi.
  apply list_elem_of_filter in Hin as [Hnull Hin]. simpl in Hnull.
  apply elem_of_read_csv in Hin.
  exists i, r. split; [done |]. split; [done |]. split; [|by rewrite Hi].
  intros j r' Hj Hnull'. rewrite <- Hi. apply max_list_elem_of_le.
  apply list_elem_of_fmap. exists (j, r'). split; [done |].
  apply list_elem_of_filter. split; [done |]. by apply elem_of_read_csv.
Qed.

Lemma loaded_no_packages_witness :
  ∃ o w',
    LazyGantt.load_data scenario_B None LazyGantt.initial_world =
      (Return o, w') ∧
    length (t_rows scenario_B) = 4%nat ∧
    ∃ i r,
      t_rows scenario_B !! i = Some r ∧
      is_null (row_get r "start") = false ∧
      (∀ j r', t_rows scenario_B !! j = Some r' →
               is_null (row_get r' "start") = false → (j ≤ i)%nat) ∧
      LazyGantt.no_packages o = Z.of_nat i.
Proof.
  eexists _, _. split; [vm_compute; reflexivity |]. split; [reflexivity |].
  eapply (loaded_no_packages scenario_B None LazyGantt.initial_world).
  vm_compute. reflexivity.
Defined.

(** ** A phase column with one phase *)

Section SinglePhase.
Import LazyGantt.

Lemma remove_dups_all_equal {A} `{EqDecision A} (l : list A) :
  (∀ x y, x ∈ l → y ∈ l → x = y) → (length (remove_dups l) ≤ 1)%nat.
Proof.
  intros Heq. pose proof (NoDup_remove_dups l) as Hnd.
  destruct (remove_dups l) as [|a [|b t]] eqn:Hl; simpl; [lia | lia |].
  exfalso. apply NoDup_cons in Hnd as [Hab _]. apply Hab.
  assert (a ∈ l) as Ha by (apply elem_of_remove_dups; rewrite Hl; by left).
  assert (b ∈ l) as Hb.
  { apply elem_of_remove_dups. rewrite Hl. right. by left. }
  rewrite (Heq a b Ha Hb). by left.
Qed.

Lemma has_column_converted w file c :
  has_column (converted_frame w file) c = has_column (read_csv file) c.
Proof. reflexivity. Qed.

End SinglePhase.

(** X11.  On a class that still recognizes the phase column, a load of a
    table whose three columns pass the checks and hold integers in every
    retained record, and whose retained records all carry the same phase
    number, completes and leaves the phase data of the default object in
    place: the three default phases and the phase count 3, beside the
    packages of the table. *)
Theorem single_phase_load_keeps_default_phases (w : world) (file : table)
    (ms : option (list Z))
    (Hrec : recognized w = ["start"; "duration"; "phase_number"])
    (Hstart : usable (read_csv file) "start")
    (Hdur : usable (read_csv file) "duration")
    (Hphase : usable (read_csv file) "phase_number")
    (Hdur_num : numeric_in file "duration")
    (Hphase_num : numeric_in file "phase_number")
    (Hsame : ∀ r r', r ∈ retained file → r' ∈ retained file →
               row_get r "phase_number" = row_get r' "phase_number") :
  ∃ o w',
    LazyGantt.load_data file ms w = (Return o, w') ∧
    LazyGantt.phases o = Some [(0, 6); (6, 16); (16, 24)] ∧
    LazyGantt.no_phases o = Some 3 ∧
    LazyGantt.packages o = package_of <$> retained file ∧
    recognized w' = ["start"; "duration"; "phase_number"].
Proof.
  assert (class_ok w) as Hclass by (by left).
  destruct (load_packages_explicit w file Hclass Hstart Hdur Hdur_num
              (λ _ _, Hphase_num)) as (r & _ & _ & Hload).
  destruct (validated_cases w file Hclass Hstart Hdur)
    as [(Hval & _ & _)|[_ Hfail]].
  2: { exfalso. apply Hfail; [|exact Hphase]. rewrite Hrec.
       apply (bool_decide_unpack _). by vm_compute. }
  assert (load_key_mapper w file =
          [("start", "start"); ("length", "duration");
           ("phase", "phase_number")]) as Hkm.
  { unfold load_key_mapper. by rewrite Hval. }
  pose proof (load_data_from_stages file ms w _ _ _ _
                (loaded_packages (fresh (default [5; 8; 14; 19; 22] ms))
                                 file r)
                (Hload _)) as Hrun.
  rewrite Hrun.
  2: { assert (dict_get (load_key_mapper w file) "phase" =
               Some "phase_number") as Hph by (by rewrite Hkm).
       unfold LazyGantt.fill_phases. rewrite Hph.
       rewrite getitem_has
         by (rewrite has_column_converted; by apply usable_has_column).
       rewrite bind_Return.
       rewrite bool_decide_eq_false_2; [done |].
       unfold nunique.
       rewrite (ints_column_converted (load_key_mapper w file).*2
                  "phase_number" _ (labelled_retained file));
         [| rewrite Hkm; apply (bool_decide_unpack _); by vm_compute
          | rewrite Hkm; apply (bool_decide_unpack _); by vm_compute
          | done].
       apply Nat.le_ngt, remove_dups_all_equal.
       unfold values. rewrite <- list_fmap_compose.
       intros x y [p [-> Hp]]%list_elem_of_fmap
                  [q [-> Hq]]%list_elem_of_fmap.
       simpl. do 2 f_equal. apply Hsame;
         rewrite <- retained_read_csv; apply list_elem_of_fmap;
         eexists; (split; [reflexivity | eassumption]). }
  assert (recognized (world_after_checker w file) =
          ["start"; "duration"; "phase_number"]) as Hw'.
  { unfold recognized, list_at, world_after_checker. cbn [heap].
    by rewrite lookup_insert_eq, Hval. }
  destruct ms as [ms|]; eexists _, _; (split; [reflexivity |]);
    repeat split; done.
Qed.

Lemma single_phase_load_keeps_default_phases_witness :
  ∃ o w',
    LazyGantt.load_data single_phase (Some [2; 30])
      LazyGantt.initial_world = (Return o, w') ∧
    LazyGantt.phases o = Some [(0, 6); (6, 16); (16, 24)] ∧
    LazyGantt.no_phases o = Some 3 ∧
    LazyGantt.packages o = package_of <$> retained single_phase ∧
    recognized w' = ["start"; "duration"; "phase_number"].
Proof.
  apply (single_phase_load_keeps_default_phases LazyGantt.initial_world
           single_phase (Some [2; 30])).
  - vm_compute. reflexivity.
  - vm_compute. reflexivity.
  - vm_compute. reflexivity.
  - vm_compute. reflexivity.
  - apply (bool_decide_unpack _). vm_compute. exact I.
  - apply (bool_decide_unpack _). vm_compute. exact I.
  - intros r r' Hr Hr'.
    assert (Forall (λ r, row_get r "phase_number" = Num 1)
                   (retained single_phase)) as Hall.
    { replace (retained single_phase) with (t_rows single_phase)
        by (vm_compute; reflexivity).
      repeat constructor. }
    rewrite (proj1 (Forall_forall _ _) Hall r Hr).
    by rewrite (proj1 (Forall_forall _ _) Hall r' Hr').
Defined.

(** ** Grids and the plot *)

Section Grids.
Import LazyGantt.

Lemma set_slice_lookup_clip (n : nat) s e (k : nat) :
  0 ≤ s → 0 ≤ e → (k < n)%nat →
  set_slice s e (replicate n false) !! k =
    Some (bool_decide (s ≤ Z.of_nat k < e)).
Proof.
  intros Hs He Hk. unfold set_slice.
  rewrite list_lookup_imap, length_replicate.
  rewrite lookup_replicate_2 by done. simpl. f_equal.
  unfold slice_bound.
  destruct (Z.ltb_spec s 0); [lia |].
  destruct (Z.ltb_spec e 0); [lia |].
  destruct (Z.leb_spec (Z.min s (Z.of_nat n)) (Z.of_nat k));
    destruct (Z.ltb_spec (Z.of_nat k) (Z.min e (Z.of_nat n))); simpl;
    [rewrite bool_decide_eq_true_2 by lia
    |rewrite bool_decide_eq_false_2 by lia
    |rewrite bool_decide_eq_false_2 by lia
    |rewrite bool_decide_eq_false_2 by lia]; done.
Qed.

Lemma to_boolean_array_run self arr :
  0 ≤ no_months self →
  _to_boolean_array self (Some arr) (no_months self) =
    Return (Some (filled self arr)).
Proof.
  intros Hn. unfold _to_boolean_array.
  destruct (Z.ltb_spec (Z.of_nat (length arr) * no_months self) 0); [nia |].
  destruct (Z.leb_spec 0 (no_months self)); [|lia].
  by rewrite Z.eqb_refl.
Qed.

Lemma to_boolean_array_negative self arr :
  no_months self < 0 →
  _to_boolean_array self (Some arr) (no_months self) = Raise ValueError.
Proof.
  intros Hn. unfold _to_boolean_array.
  destruct (Z.ltb_spec (Z.of_nat (length arr) * no_months self) 0) as [|Hy];
    [done |].
  assert (length arr = 0%nat) as -> by nia.
  by destruct (Z.leb_spec 0 (no_months self)); [lia |].
Qed.

Lemma filled_length self arr : length (filled self arr) = length arr.
Proof. unfold filled. rewrite length_zip_with, length_replicate. lia. Qed.

Lemma filled_rows self arr :
  Forall (λ row, length row = Z.to_nat (no_months self)) (filled self arr).
Proof.
  apply Forall_forall. intros row Hrow. unfold filled in Hrow.
  apply list_elem_of_lookup in Hrow as [i Hi].
  apply lookup_zip_with_Some in Hi as (p & row0 & -> & _ & Hrow0).
  apply lookup_replicate in Hrow0 as [-> _].
  by rewrite set_slice_length, length_replicate.
Qed.

End Grids.

(** X12.  [plot] depends on the sign of the total duration only: with a
    negative [no_months] the conversion of the packages raises a
    [ValueError]; otherwise, whatever the bounds of the intervals are,
    [plot] hands the chart the milestones and one grid per kind of
    interval, the packages first and the phases only if the object has
    phases, with one row per interval and [no_months] cells per row, and
    asks for two subplots exactly if the object has phases. *)
Theorem plot_figure (self : LazyGantt.t) :
  (LazyGantt.no_months self < 0 ∧ LazyGantt.plot self = Raise ValueError) ∨
  (0 ≤ LazyGantt.no_months self ∧
   ∃ fig,
     LazyGantt.plot self = Return fig ∧
     fig_events fig = LazyGantt.milestones self ∧
     fig_subplots fig = match LazyGantt.phases self with
                        | Some _ => (2, 1)%nat
                        | None => (1, 1)%nat
                        end ∧
     (fig_slots fig).*1 = "primary" :: match LazyGantt.phases self with
                                       | Some _ => ["secondary"]
                                       | None => []
                                       end ∧
     length <$> (fig_slots fig).*2 =
       length (LazyGantt.packages self) ::
       match LazyGantt.phases self with
       | Some p => [length p]
       | None => []
       end ∧
     Forall (Forall (λ row, length row =
                            Z.to_nat (LazyGantt.no_months self)))
            (fig_slots fig).*2).
Proof.
  destruct (Z.lt_ge_cases (LazyGantt.no_months self) 0) as [Hneg|Hpos].
  { left. split; [done |]. unfold LazyGantt.plot.
    by rewrite to_boolean_array_negative. }
  right. split; [done |]. unfold LazyGantt.plot.
  rewrite to_boolean_array_run, bind_Return by done.
  destruct (LazyGantt.phases self) as [p|] eqn:Hp.
  - rewrite to_boolean_array_run, bind_Return by done.
    eexists. split; [reflexivity |]. simpl.
    rewrite !filled_length. repeat split; try done.
    repeat constructor; apply filled_rows.
  - simpl. eexists. split; [reflexivity |]. simpl.
    rewrite filled_length. repeat split; try done.
    repeat constructor; apply filled_rows.
Qed.

(** X13.  Whenever the conversion returns a grid, the grid has the shape
    that the caller asked for: one row per interval and [x_range] cells per
    row.  For at least one interval it returns only if [x_range] is not
    negative and the object's [no_months] is [x_range] or negative, which
    the reshape takes as a dimension to infer: a [no_months] that is not
    negative and differs from [x_range] is refused. *)
Theorem grid_shape (self : LazyGantt.t) (arr : list (Z * Z)) (x_range : Z)
    (g : list (list bool))
    (Hret : LazyGantt._to_boolean_array self (Some arr) x_range =
              Return (Some g)) :
  length g = length arr ∧
  Forall (λ row, length row = Z.to_nat x_range) g ∧
  (arr ≠ [] →
   0 ≤ x_range ∧
   (LazyGantt.no_months self = x_range ∨ LazyGantt.no_months self < 0)).
Proof.
  unfold LazyGantt._to_boolean_array in Hret.
  destruct (Z.ltb_spec (Z.of_nat (length arr) * x_range) 0) as [|Hsize];
    [done |].
  assert (arr ≠ [] → 0 < Z.of_nat (length arr)) as Hlen.
  { intros Hne. destruct arr; [done | simpl; lia]. }
  assert (∀ columns : Z,
            (arr ≠ [] → columns = x_range) →
            g = zip_with (λ p row, LazyGantt.set_slice p.1 p.2 row) arr
                  (replicate (length arr)
                             (replicate (Z.to_nat columns) false)) →
            length g = length arr ∧
            Forall (λ row, length row = Z.to_nat x_range) g) as Hshape.
  { intros columns Hcol ->. split.
    { rewrite length_zip_with, length_replicate. lia. }
    apply Forall_forall. intros row Hrow.
    apply list_elem_of_lookup in Hrow as [i Hi].
    apply lookup_zip_with_Some in Hi as (p & row0 & -> & Hp & Hrow0).
    apply lookup_replicate in Hrow0 as [-> _].
    rewrite set_slice_length, length_replicate, Hcol; [done |].
    intros ->. by rewrite lookup_nil in Hp. }
  destruct (Z.leb_spec 0 (LazyGantt.no_months self)) as [Hpos|Hneg].
  - destruct (Z.eqb_spec (Z.of_nat (length arr) * LazyGantt.no_months self)
                (Z.of_nat (length arr) * x_range)) as [Heq|]; [|done].
    simpl in Hret. injection Hret as Hg. symmetry in Hg.
    assert (arr ≠ [] → LazyGantt.no_months self = x_range) as Hcol.
    { intros Hne. specialize (Hlen Hne). nia. }
    destruct (Hshape _ Hcol Hg) as [H1 H2].
    split; [done |]. split; [done |]. intros Hne.
    specialize (Hcol Hne). split; [lia | by left].
  - destruct (Z.ltb_spec 0 (Z.of_nat (length arr))); [|done].
    simpl in Hret. injection Hret as Hg. symmetry in Hg.
    destruct (Hshape x_range (λ _, eq_refl) Hg) as [H1 H2].
    split; [done |]. split; [done |]. intros Hne. split; [nia | by right].
Qed.

Lemma grid_shape_witness :
  ∃ g,
    LazyGantt._to_boolean_array five_months (Some [(0, 3); (3, 5)]) 5 =
      Return (Some g) ∧
    length g = 2%nat ∧
    Forall (λ row, length row = 5%nat) g ∧
    ([(0, 3); (3, 5)] ≠ [] →
     0 ≤ 5 ∧
     (LazyGantt.no_months five_months = 5 ∨
      LazyGantt.no_months five_months < 0)).
Proof.
  eexists. split; [vm_compute; reflexivity |].
  apply (grid_shape five_months [(0, 3); (3, 5)] 5).
  vm_compute. reflexivity.
Defined.

(** ** Phase aggregation *)

Section ComposeMore.
Import LazyGantt.

Lemma mapM_outcome_length {A B} (f : A → outcome B) (l : list A) l' :
  mapM f l = Return l' → length l' = length l.
Proof.
  revert l'. induction l as [|x l IH]; intros l' H.
  { by injection H as <-. }
  rewrite mapM_cons_outcome in H.
  destruct (f x) as [y|]; [|done]. rewrite bind_Return in H.
  destruct (mapM f l) as [k|]; [|done]. rewrite bind_Return in H.
  injection H as <-. simpl. f_equal. by apply IH.
Qed.

Lemma broadcast_length {A} (n : nat) (v v' : list A) :
  broadcast n v = Return v' → length v' = n ∧ (length v = n ∨ length v = 1%nat).
Proof.
  unfold broadcast. destruct (decide (length v = n)) as [Hn|Hn].
  { intros [= <-]. auto. }
  destruct v as [|x [|y v]]; try done.
  intros [= <-]. rewrite length_replicate. auto.
Qed.

End ComposeMore.

(** X14.  On three series over one index without repeated labels, as the
    columns of a loaded table are, phase aggregation returns only when the
    phase count of the object is the number of contiguous runs of the group
    ids: with any other count, and for an empty table, it raises.  An array
    that it returns has one row per run. *)
Theorem compose_phases_returns_only_for_run_count (self : LazyGantt.t)
    (idx : list nat) (ids starts durs : list Z) (res : list (Z * Z))
    (Hidx : NoDup idx)
    (Hids : length ids = length idx)
    (Hstarts : length starts = length idx)
    (Hdurs : length durs = length idx)
    (Hret : LazyGantt._compose_phases self (zip idx ids) (zip idx starts)
              (zip idx durs) = Return res) :
  LazyGantt.no_phases self = Some (Z.of_nat (length (run_starts ids))) ∧
  length res = length (run_starts ids).
Proof.
  unfold LazyGantt._compose_phases in Hret.
  destruct (LazyGantt.no_phases self) as [n|]; [|done].
  destruct (Z.ltb_spec n 0) as [|Hn]; [done |].
  rewrite bind_Return in Hret. rewrite labels_diff in Hret by done.
  set (labels := (λ j, idx !!! j) <$> run_starts ids) in Hret.
  assert (length labels = length (run_starts ids)) as Hlabels
    by (unfold labels; by rewrite length_fmap).
  destruct (at_labels (zip idx starts) labels) as [s0|] eqn:Hs0; [|done].
  apply mapM_outcome_length in Hs0. rewrite bind_Return in Hret.
  destruct (broadcast (Z.to_nat n) s0) as [col0|] eqn:Hcol0; [|done].
  apply broadcast_length in Hcol0 as [Hcol0 Hcase].
  rewrite bind_Return in Hret.
  destruct (at_labels (zip idx starts) (tail labels)) as [a|] eqn:Ha;
    [|done].
  apply mapM_outcome_length in Ha. rewrite bind_Return in Hret.
  destruct (at_labels (zip idx durs) (tail labels)) as [b|] eqn:Hb; [|done].
  apply mapM_outcome_length in Hb. rewrite bind_Return in Hret.
  destruct (broadcast (Z.to_nat n - 1) (zip_with add32 a b)) as [col1|]
    eqn:Hcol1; [|done].
  apply broadcast_length in Hcol1 as [Hcol1 Hcase1].
  rewrite bind_Return in Hret.
  set (phases := zip_with _ (take _ _) col1 ++ drop _ _) in Hret.
  assert (length phases = Z.to_nat n) as Hphases.
  { unfold phases.
    rewrite length_app, length_zip_with, length_take, length_drop,
      length_zip_with, length_replicate.
    lia. }
  clearbody phases.
  rewrite length_zip_with, Ha, Hb, length_tl, Nat.min_id in Hcase1.
  destruct (Z.to_nat n) as [|n'] eqn:Hnat; [done |].
  injection Hret as <-.
  assert (S n' = length (run_starts ids)) as Hruns by lia.
  split.
  - f_equal. lia.
  - rewrite length_alter. lia.
Qed.

Lemma compose_phases_returns_only_for_run_count_witness :
  LazyGantt.no_phases scenario_B_self =
    Some (Z.of_nat (length (run_starts [1; 1; 2; 2]))) ∧
  length [(0, 20); (6, 12)] = length (run_starts [1; 1; 2; 2]).
Proof.
  apply (compose_phases_returns_only_for_run_count scenario_B_self
           [0; 1; 2; 3]%nat [1; 1; 2; 2] [0; 3; 6; 8] [3; 6; 14; 4]
           [(0, 20); (6, 12)]).
  - apply (bool_decide_unpack _). vm_compute. exact I.
  - reflexivity.
  - reflexivity.
  - reflexivity.
  - vm_compute. reflexivity.
Defined.

(** ** The class attribute over a session *)

Section SessionState.
Import LazyGantt.

Lemma surviving_class_ok data l :
  l = ["start"; "duration"; "phase_number"] ∨ l = ["start"; "duration"] →
  first_failure data "start" = None →
  first_failure data "duration" = None →
  surviving data l = ["start"; "duration"; "phase_number"] ∨
  surviving data l = ["start"; "duration"].
Proof.
  intros [-> | ->] Hs Hd; simpl; rewrite Hs, Hd; [|by right].
  destruct (first_failure data "phase_number"); [by right | by left].
Qed.

(** A load keeps the class in one of its two states, whether it completes
    or raises. *)
Lemma load_data_class_ok file ms w :
  class_ok w → class_ok (load_data file ms w).2.
Proof.
  intros Hclass. unfold class_ok, recognized, list_at.
  rewrite load_data_heap.
  destruct (first_mandatory_failure (read_csv file)) as [m|] eqn:Hm.
  { by rewrite (validator_aborts _ _ _ Hclass Hm). }
  unfold first_mandatory_failure in Hm.
  destruct (first_failure (read_csv file) "start") eqn:Hs; [done |].
  rewrite (validator_explicit _ _ Hclass Hs Hm). cbn [snd heap].
  rewrite lookup_insert_eq. cbn [default from_option id].
  by apply surviving_class_ok.
Qed.

End SessionState.

(** X15.  In every session, whatever tables are loaded and whether the
    loads complete or raise, the class recognizes either start, duration
    and phase_number or only start and duration: the mandatory columns are
    never removed, no column is ever added or reordered, and the phase
    column is the only one that loads can remove. *)
Theorem session_class_state (loads : list (table * option (list Z))) :
  recognized (session loads LazyGantt.initial_world) =
    ["start"; "duration"; "phase_number"] ∨
  recognized (session loads LazyGantt.initial_world) =
    ["start"; "duration"].
Proof.
  change (class_ok (session loads LazyGantt.initial_world)).
  assert (class_ok LazyGantt.initial_world) as Hinit by (by left).
  revert Hinit. generalize LazyGantt.initial_world.
  induction loads as [|[file ms] loads IH]; intros w Hw; [done |].
  simpl. apply IH. by apply load_data_class_ok.
Qed.

(** ** A load with several phases *)

Section ComposeRun.
Import LazyGantt.

(** Phase aggregation on series over a common index, when the phase count
    is the number of runs. *)
Lemma compose_phases_run (self : t) (idx : list nat)
    (ids starts durs : list Z) :
  NoDup idx → ids ≠ [] → length ids = length idx →
  length starts = length idx → length durs = length idx →
  no_phases self = Some (Z.of_nat (length (run_starts ids))) →
  Forall (λ j, int32 (starts !!! j + durs !!! j)) (tail (run_starts ids)) →
  ∃ res : list (Z * Z),
    _compose_phases self (zip idx ids) (zip idx starts) (zip idx durs) =
      Return res ∧
    length res = length (run_starts ids) ∧
    ∀ m i, run_starts ids !! m = Some i →
      res !! m =
        Some (starts !!! i,
              match run_starts ids !! S m with
              | Some j => starts !!! j + durs !!! j
              | None => no_months self
              end).
Proof.
  intros Hidx Hne Hids Hstarts Hdurs Hself Hfit.
  unfold _compose_phases. rewrite Hself.
  destruct (Z.ltb_spec (Z.of_nat (length (run_starts ids))) 0); [lia |].
  rewrite Nat2Z.id, bind_Return.
  pose proof (run_starts_bound ids) as Hbound. rewrite Hids in Hbound.
  rewrite labels_diff by done.
  rewrite (at_labels_positions idx starts), bind_Return by done.
  rewrite broadcast_same, bind_Return by (by rewrite length_fmap).
  rewrite <- fmap_tail.
  rewrite (at_labels_positions idx starts), bind_Return
    by (done || by apply Forall_tail).
  rewrite (at_labels_positions idx durs), bind_Return
    by (done || by apply Forall_tail).
  assert (zip_with add32 ((λ j, starts !!! j) <$> tail (run_starts ids))
            ((λ j, durs !!! j) <$> tail (run_starts ids)) =
          (λ j, add32 (starts !!! j) (durs !!! j)) <$> tail (run_starts ids))
    as -> by (by rewrite zip_with_fmap_l, zip_with_fmap_r, zip_with_diag).
  rewrite broadcast_same, bind_Return by (by rewrite length_fmap, length_tl).
  destruct (run_starts ids) as [|r0 rest] eqn:Hrs.
  { by destruct ids. }
  cbn [length tail]. rewrite Nat.sub_succ, Nat.sub_0_r.
  rewrite zip_with_replicate_l by (by rewrite length_fmap).
  eexists. split; [reflexivity |].
  pose proof (phases_array (length rest) ((λ j, starts !!! j) <$> r0 :: rest)
                ((λ j, add32 (starts !!! j) (durs !!! j)) <$> rest)
                (no_months self)) as Harr.
  rewrite !length_fmap in Harr.
  destruct Harr as [Hlen Hres]; [done .. |].
  split; [exact Hlen |].
  intros m i Hm.
  etrans; [apply (Hres m (starts !!! i)); by rewrite list_lookup_fmap, Hm |].
  f_equal. f_equal. rewrite list_lookup_fmap.
  change ((r0 :: rest) !! S m) with (rest !! m).
  destruct (rest !! m) as [j|] eqn:Hj; simpl; [|done].
  apply add32_int32.
  simpl in Hfit. by eapply (proj1 (Forall_lookup _ _) Hfit).
Qed.

Lemma wrap32_range z : int32 (wrap32 z).
Proof.
  unfold int32, wrap32.
  pose proof (Z.mod_pos_bound (z + 2 ^ 31) (2 ^ 32)). lia.
Qed.

Lemma wrap32_idemp z : wrap32 (wrap32 z) = wrap32 z.
Proof. apply wrap32_int32, wrap32_range. Qed.

(** The greatest value of a series whose values are bounded by one of
    them. *)
Lemma series_max_bound (s : list (nat * Z)) (m : Z) :
  m ∈ s.*2 → Forall (λ x, x ≤ m) s.*2 → series_max s = Some m.
Proof.
  intros Hin Hub. unfold series_max, values.
  destruct (s.*2) as [|x l] eqn:Hs; [by apply elem_of_nil in Hin |].
  destruct (foldl_max_spec x l) as [Hmax Hle]. f_equal.
  apply Z.le_antisymm.
  - by apply (proj1 (Forall_forall _ _) Hub).
  - by apply Hle.
Qed.

Lemma fmap_as_zip {A B} (f : A → B) (l : list (nat * A)) :
  (λ p, (p.1, f p.2)) <$> l = zip l.*1 (f <$> l.*2).
Proof.
  induction l as [|[i x] l IH]; [done |]. csimpl. by f_equal.
Qed.

End ComposeRun.

Section LoadPhases.
Import LazyGantt.

Variables (w : world) (file : table).
Hypothesis Hrec : recognized w = ["start"; "duration"; "phase_number"].
Hypothesis Hstart : usable (read_csv file) "start".
Hypothesis Hdur : usable (read_csv file) "duration".
Hypothesis Hphase : usable (read_csv file) "phase_number".
Hypothesis Hdur_num : numeric_in file "duration".
Hypothesis Hphase_num : numeric_in file "phase_number".

Lemma full_key_mapper :
  load_key_mapper w file =
    [("start", "start"); ("length", "duration"); ("phase", "phase_number")].
Proof.
  pose proof Hstart as Hs. pose proof Hdur as Hd. pose proof Hphase as Hp.
  unfold usable in Hs, Hd, Hp.
  unfold load_key_mapper, validated. rewrite Hrec. simpl.
  by rewrite Hs, Hd, Hp.
Qed.

Lemma converted_numeric c :
  c ∈ ["start"; "duration"; "phase_number"] →
  Forall (λ p, is_num (row_get p.2 c) = true) (labelled_retained file).
Proof.
  intros Hc. pose proof Hdur_num as Hd. pose proof Hphase_num as Hp.
  pose proof Hstart as Hs.
  apply elem_of_cons in Hc as [->|Hc].
  { apply Forall_forall. intros p [Hnull Hin]%list_elem_of_filter.
    apply cell_num; [done |]. by eapply usable_no_text. }
  apply elem_of_cons in Hc as [->|Hc].
  { unfold numeric_in in Hd. rewrite <- retained_read_csv in Hd.
    by rewrite Forall_fmap in Hd. }
  apply list_elem_of_singleton in Hc as ->.
  unfold numeric_in in Hp. rewrite <- retained_read_csv in Hp.
  by rewrite Forall_fmap in Hp.
Qed.

Lemma reconvert :
  convert_column (converted_frame w file) "phase_number" =
    Return (reconverted w file).
Proof.
  rewrite convert_column_numeric; [done | |].
  - change (has_column (read_csv file) "phase_number" = true).
    by apply usable_has_column.
  - unfold converted_frame, convert_rows. cbn [df_rows].
    rewrite Forall_fmap. eapply Forall_impl.
    + apply (converted_numeric "phase_number").
      apply (bool_decide_unpack _). by vm_compute.
    + intros p Hp. simpl. by apply is_num_converted.
Qed.

Lemma ints_reconverted c :
  c ∈ ["start"; "duration"; "phase_number"] →
  ints (column_of (reconverted w file) c) =
    zip (labelled_retained file).*1
        ((λ r, wrap32 (int_of_cell (row_get r c))) <$> retained file).
Proof.
  intros Hc. rewrite <- retained_read_csv. fold (labelled_retained file).
  rewrite <- (fmap_as_zip (λ r, wrap32 (int_of_cell (row_get r c)))).
  unfold ints, column_of, reconverted, converted_frame, convert_rows.
  cbn [df_rows]. rewrite <- !list_fmap_compose.
  apply list_fmap_ext. intros i p _. simpl. f_equal.
  rewrite row_get_convert_row.
  assert (NoDup (load_key_mapper w file).*2) as Hnd.
  { rewrite full_key_mapper. apply (bool_decide_unpack _). by vm_compute. }
  assert (∀ c', c' ∈ ["start"; "duration"; "phase_number"] →
                c' ∈ (load_key_mapper w file).*2) as Hin.
  { rewrite full_key_mapper. intros c' Hc'.
    apply elem_of_cons in Hc' as [->|Hc'];
      [apply (bool_decide_unpack _); by vm_compute |].
    apply elem_of_cons in Hc' as [->|Hc'];
      [apply (bool_decide_unpack _); by vm_compute |].
    apply list_elem_of_singleton in Hc' as ->.
    apply (bool_decide_unpack _). by vm_compute. }
  destruct (decide ("phase_number" = c)) as [<-|Hne].
  - rewrite row_get_converted by (done || by apply Hin). simpl.
    by rewrite wrap32_idemp.
  - by rewrite row_get_converted by (done || by apply Hin).
Qed.

Lemma has_column_reconverted c :
  usable (read_csv file) c → has_column (reconverted w file) c = true.
Proof. intros Hu. by apply usable_has_column in Hu. Qed.

Hypothesis Hmany : (1 < length (remove_dups (phase_ids file)))%nat.
Hypothesis Hmax_in :
  Z.of_nat (length (run_starts (phase_ids file))) ∈ phase_ids file.
Hypothesis Hmax_ub :
  Forall (λ x, x ≤ Z.of_nat (length (run_starts (phase_ids file))))
         (phase_ids file).
Hypothesis Hfit :
  Forall (λ j, int32 (starts_of file !!! j + durations_of file !!! j))
         (tail (run_starts (phase_ids file))).

(** Lines 207 to 219 on the frame of the package stage. *)
Lemma fill_phases_run (self : t) :
  ∃ res : list (Z * Z),
    fill_phases self (converted_frame w file) (load_key_mapper w file) =
      Return {| no_months := no_months self;
                no_packages := no_packages self;
                no_phases :=
                  Some (Z.of_nat (length (run_starts (phase_ids file))));
                packages := packages self;
                phases := Some res;
                milestones := milestones self |} ∧
    length res = length (run_starts (phase_ids file)) ∧
    ∀ m i, run_starts (phase_ids file) !! m = Some i →
      res !! m =
        Some (starts_of file !!! i,
              match run_starts (phase_ids file) !! S m with
              | Some j => starts_of file !!! j + durations_of file !!! j
              | None => no_months self
              end).
Proof.
  assert ("start" ∈ ["start"; "duration"; "phase_number"]) as Hs3
    by (apply (bool_decide_unpack _); by vm_compute).
  assert ("duration" ∈ ["start"; "duration"; "phase_number"]) as Hd3
    by (apply (bool_decide_unpack _); by vm_compute).
  assert ("phase_number" ∈ ["start"; "duration"; "phase_number"]) as Hp3
    by (apply (bool_decide_unpack _); by vm_compute).
  assert (length (labelled_retained file).*1 = length (retained file))
    as Hlen.
  { rewrite <- retained_read_csv. fold (labelled_retained file).
    by rewrite !length_fmap. }
  assert (NoDup (labelled_retained file).*1) as Hidx.
  { eapply sublist_NoDup; [apply (read_csv_NoDup file) |].
    apply fmap_sublist, sublist_filter. }
  set (self' := {| no_months := no_months self;
                   no_packages := no_packages self;
                   no_phases :=
                     Some (Z.of_nat (length (run_starts (phase_ids file))));
                   packages := packages self;
                   phases := phases self;
                   milestones := milestones self |}).
  destruct (compose_phases_run self' (labelled_retained file).*1
              (phase_ids file) (starts_of file) (durations_of file))
    as (res & Hres & Hreslen & Hrows); try done.
  { intros Hnil. rewrite Hnil in Hmax_in. by apply elem_of_nil in Hmax_in. }
  { unfold phase_ids. by rewrite length_fmap. }
  { unfold starts_of. by rewrite length_fmap. }
  { unfold durations_of. by rewrite length_fmap. }
  exists res. split; [|done].
  assert (dict_get (load_key_mapper w file) "phase" = Some "phase_number")
    as Hkp by (by rewrite full_key_mapper).
  assert (dict_item (load_key_mapper w file) "start" = Return "start")
    as Hks by (by rewrite full_key_mapper).
  assert (dict_item (load_key_mapper w file) "length" = Return "duration")
    as Hkl by (by rewrite full_key_mapper).
  assert (last (load_key_mapper w file) = Some ("phase", "phase_number"))
    as Hlast by (by rewrite full_key_mapper).
  unfold fill_phases. rewrite Hkp.
  rewrite getitem_has
    by (change (has_column (read_csv file) "phase_number" = true);
        by apply usable_has_column).
  rewrite bind_Return.
  assert (nunique (ints (column_of (converted_frame w file) "phase_number"))
          = length (remove_dups (phase_ids file))) as ->.
  { unfold nunique.
    rewrite (ints_column_converted (load_key_mapper w file).*2
               "phase_number" _ (labelled_retained file));
      [| rewrite full_key_mapper; apply (bool_decide_unpack _);
         by vm_compute
       | rewrite full_key_mapper; apply (bool_decide_unpack _);
         by vm_compute
       | done].
    unfold values, phase_ids. rewrite <- retained_read_csv.
    fold (labelled_retained file). by rewrite <- !list_fmap_compose. }
  rewrite bool_decide_eq_true_2 by done.
  rewrite Hlast. cbn [snd]. rewrite reconvert, bind_Return.
  rewrite (getitem_has (reconverted w file) "phase_number")
    by (by apply has_column_reconverted).
  rewrite bind_Return.
  rewrite (ints_reconverted "phase_number") by done.
  fold phase_of. fold (phase_ids file).
  rewrite (series_max_bound _ (Z.of_nat (length (run_starts (phase_ids file)))));
    [| by rewrite snd_zip by (unfold phase_ids; rewrite length_fmap; lia)
     | by rewrite snd_zip by (unfold phase_ids; rewrite length_fmap; lia)].
  rewrite Hks, bind_Return.
  rewrite (getitem_has (reconverted w file) "start")
    by (by apply has_column_reconverted).
  rewrite bind_Return, Hkl, bind_Return.
  rewrite (getitem_has (reconverted w file) "duration")
    by (by apply has_column_reconverted).
  rewrite bind_Return.
  rewrite (ints_reconverted "start"), (ints_reconverted "duration") by done.
  fold start_of duration_of. fold (starts_of file) (durations_of file).
  fold self'.
  unfold phase_ids, starts_of, durations_of, phase_of, start_of,
    duration_of in Hres.
  by rewrite Hres.
Qed.

End LoadPhases.

(** X16.  On a class that still recognizes the phase column, take a table
    whose three columns pass the checks and hold integers in every retained
    record, whose phase numbers take at least two values and have the
    number of their contiguous runs as greatest value (as they do when the
    phases are numbered 1, 2, ..., n in ascending order), and in which
    start plus duration fits in 32 bits at the first record of every run
    after the first.  Then the load completes, [no_phases] is the number
    of runs, and the phases are one interval per run: it starts at the
    start of the first record of the run, and it ends at start plus
    duration of the first record of the next run, or, for the last run, at
    the total duration of the project. *)
Theorem load_with_phases (w : world) (file : table) (ms : option (list Z))
    (Hrec : recognized w = ["start"; "duration"; "phase_number"])
    (Hstart : usable (read_csv file) "start")
    (Hdur : usable (read_csv file) "duration")
    (Hphase : usable (read_csv file) "phase_number")
    (Hdur_num : numeric_in file "duration")
    (Hphase_num : numeric_in file "phase_number")
    (Hmany : (1 < length (remove_dups (phase_ids file)))%nat)
    (Hmax_in : Z.of_nat (length (run_starts (phase_ids file))) ∈
               phase_ids file)
    (Hmax_ub : Forall (λ x, x ≤ Z.of_nat (length (run_starts
                                                   (phase_ids file))))
                      (phase_ids file))
    (Hfit : Forall (λ j, int32 (starts_of file !!! j +
                                durations_of file !!! j))
                   (tail (run_starts (phase_ids file)))) :
  ∃ o w' res,
    LazyGantt.load_data file ms w = (Return o, w') ∧
    LazyGantt.no_phases o =
      Some (Z.of_nat (length (run_starts (phase_ids file)))) ∧
    LazyGantt.phases o = Some res ∧
    LazyGantt.packages o = package_of <$> retained file ∧
    length res = length (run_starts (phase_ids file)) ∧
    ∀ m i, run_starts (phase_ids file) !! m = Some i →
      res !! m =
        Some (starts_of file !!! i,
              match run_starts (phase_ids file) !! S m with
              | Some j => starts_of file !!! j + durations_of file !!! j
              | None => LazyGantt.no_months o
              end).
Proof.
  assert (class_ok w) as Hclass by (by left).
  destruct (load_packages_explicit w file Hclass Hstart Hdur Hdur_num
              (λ _ _, Hphase_num)) as (r & _ & _ & Hload).
  destruct (fill_phases_run w file Hrec Hstart Hdur Hphase Hdur_num
              Hphase_num Hmany Hmax_in Hmax_ub Hfit
              (loaded_packages (fresh (default [5; 8; 14; 19; 22] ms))
                               file r))
    as (res & Hph & Hlen & Hrows).
  rewrite (load_data_from_stages file ms w _ _ _ _ _ (Hload _) Hph).
  destruct ms as [ms|]; eexists _, _, res; (split; [reflexivity |]);
    repeat split; done.
Qed.

Lemma load_with_phases_witness :
  ∃ o w' res,
    LazyGantt.load_data scenario_B None LazyGantt.initial_world =
      (Return o, w') ∧
    LazyGantt.no_phases o =
      Some (Z.of_nat (length (run_starts (phase_ids scenario_B)))) ∧
    LazyGantt.phases o = Some res ∧
    LazyGantt.packages o = package_of <$> retained scenario_B ∧
    length res = length (run_starts (phase_ids scenario_B)) ∧
    ∀ m i, run_starts (phase_ids scenario_B) !! m = Some i →
      res !! m =
        Some (starts_of scenario_B !!! i,
              match run_starts (phase_ids scenario_B) !! S m with
              | Some j =>
                  starts_of scenario_B !!! j + durations_of scenario_B !!! j
              | None => LazyGantt.no_months o
              end).
Proof.
  apply (load_with_phases LazyGantt.initial_world scenario_B None).
  - vm_compute. reflexivity.
  - vm_compute. reflexivity.
  - vm_compute. reflexivity.
  - vm_compute. reflexivity.
  - apply (bool_decide_unpack _). vm_compute. exact I.
  - apply (bool_decide_unpack _). vm_compute. exact I.
  - vm_compute. lia.
  - apply (bool_decide_unpack _). vm_compute. exact I.
  - apply (bool_decide_unpack _). vm_compute. exact I.
  - apply (bool_decide_unpack _). vm_compute. exact I.
Defined.

(** ** The configuration of the chart *)

Section ChartColors.
Import ChartConfig.

Variables (CSS4_COLORS : list string) (CSS4_text : string).

Lemma is_color_valid v s : is_color CSS4_COLORS v = Some s → s ∈ CSS4_COLORS.
Proof.
  unfold is_color. destruct v as [| | | |s']; try done.
  destruct (decide (s' ∈ CSS4_COLORS)); [by intros [= <-] | done].
Qed.

Lemma colors_loop_lookup colors items w k :
  NoDup items.*1 →
  dict_get (colors_loop CSS4_COLORS CSS4_text colors items w).1 k =
    match assoc_get items k ≫= is_color CSS4_COLORS with
    | Some s => Some s
    | None => dict_get colors k
    end.
Proof.
  revert colors w. induction items as [|[k0 v0] items IH];
    intros colors w Hnd; [done |].
  apply NoDup_cons in Hnd as [Hk0 Hnd]. cbn [colors_loop assoc_get].
  assert (assoc_get items k0 = None) as Hfresh.
  { clear -Hk0. induction items as [|[k1 v1] items IH]; [done |].
    apply not_elem_of_cons in Hk0 as [Hne Hk0]. simpl.
    rewrite decide_False by done. by apply IH. }
  destruct (is_color CSS4_COLORS v0) as [s|] eqn:Hv0.
  - rewrite IH by done. rewrite dict_get_set.
    destruct (decide (k = k0)) as [->|Hne].
    + rewrite Hfresh. simpl. by rewrite Hv0.
    + done.
  - rewrite IH by done.
    destruct (decide (k = k0)) as [->|Hne]; [|done].
    rewrite Hfresh. simpl. by rewrite Hv0.
Qed.

Lemma colors_loop_world colors items w :
  (colors_loop CSS4_COLORS CSS4_text colors items w).2 =
    {| heap := heap w;
       stdout := stdout w ++
                 ((λ kv, unknown_color CSS4_text kv.1) <$>
                  filter (λ kv, is_color CSS4_COLORS kv.2 = None) items) |}.
Proof.
  revert colors w. induction items as [|[k0 v0] items IH]; intros colors w.
  { simpl. rewrite app_nil_r. by destruct w. }
  cbn [colors_loop]. rewrite filter_cons. cbn [snd].
  destruct (is_color CSS4_COLORS v0) as [s|] eqn:Hv0.
  - rewrite decide_False by done. apply IH.
  - rewrite decide_True by done. rewrite IH. unfold print. cbn [snd heap stdout].
    rewrite fmap_cons. cbn [fst]. by rewrite <- app_assoc.
Qed.

Lemma dict_set_keeps d k v k' :
  is_Some (dict_get d k') → is_Some (dict_get (dict_set d k v) k').
Proof.
  rewrite dict_get_set. by destruct (decide (k' = k)).
Qed.

Lemma colors_loop_keeps colors items w k :
  is_Some (dict_get colors k) →
  is_Some (dict_get (colors_loop CSS4_COLORS CSS4_text colors items w).1 k).
Proof.
  revert colors w. induction items as [|[k0 v0] items IH];
    intros colors w Hk; [done |].
  cbn [colors_loop]. destruct (is_color CSS4_COLORS v0).
  - apply IH. by apply dict_set_keeps.
  - by apply IH.
Qed.

Lemma dict_set_values (P : string → Prop) d k v :
  P v → Forall (λ kv, P kv.2) d → Forall (λ kv, P kv.2) (dict_set d k v).
Proof.
  intros Hv. induction 1 as [|[k0 v0] d Hx Hd IH]; simpl.
  { by repeat constructor. }
  destruct (decide (k = k0)); constructor; done.
Qed.

Lemma colors_loop_values colors items w :
  Forall (λ kv, kv.2 ∈ CSS4_COLORS) colors →
  Forall (λ kv, kv.2 ∈ CSS4_COLORS)
         (colors_loop CSS4_COLORS CSS4_text colors items w).1.
Proof.
  revert colors w. induction items as [|[k0 v0] items IH];
    intros colors w Hc; [done |].
  cbn [colors_loop]. destruct (is_color CSS4_COLORS v0) eqn:Hv0.
  - apply IH. apply (dict_set_values (λ s, s ∈ CSS4_COLORS)); [|done].
    by eapply is_color_valid.
  - by apply IH.
Qed.

(** The colors and the world after [_process_config], whatever the other
    sections are. *)
Lemma process_config_colors self config w :
  colors (_process_config CSS4_COLORS CSS4_text self config w).1.2 =
    match assoc_get config "colors" with
    | Some items =>
        (colors_loop CSS4_COLORS CSS4_text (colors self) items w).1
    | None => colors self
    end ∧
  (_process_config CSS4_COLORS CSS4_text self config w).2 =
    match assoc_get config "colors" with
    | Some items =>
        (colors_loop CSS4_COLORS CSS4_text (colors self) items w).2
    | None => w
    end.
Proof.
  unfold _process_config.
  destruct (assoc_get config "colors") as [items|]; [|done].
  destruct (colors_loop _ _ _ items w) as [colors' w'].
  destruct (assoc_get config "image"); [|done].
  destruct (assoc_get config "font"); [|done].
  destruct (assoc_get config "milestones"); [|done].
  by destruct (assoc_get config "labels").
Qed.

Lemma load_config_keeps self document w k :
  is_Some (dict_get (colors self) k) →
  is_Some (dict_get
             (colors (load_config CSS4_COLORS CSS4_text self document w).1.2)
             k).
Proof.
  intros Hk. destruct document as [config|]; [|done]. simpl.
  rewrite (proj1 (process_config_colors self config w)).
  destruct (assoc_get config "colors"); [|done]. by apply colors_loop_keeps.
Qed.

Lemma load_config_values self document w :
  Forall (λ kv, kv.2 ∈ CSS4_COLORS) (colors self) →
  Forall (λ kv, kv.2 ∈ CSS4_COLORS)
    (colors (load_config CSS4_COLORS CSS4_text self document w).1.2).
Proof.
  intros Hc. destruct document as [config|]; [|done]. simpl.
  rewrite (proj1 (process_config_colors self config w)).
  destruct (assoc_get config "colors"); [|done]. by apply colors_loop_values.
Qed.

Lemma configured_invariant (P : t → Prop) documents w :
  P defaults →
  (∀ self document w,
     P self → P (load_config CSS4_COLORS CSS4_text self document w).1.2) →
  P (configured CSS4_COLORS CSS4_text documents w).1.
Proof.
  intros Hinit Hstep. unfold configured. cbn [__init__ fst snd].
  assert (∀ cw : t * world,
            P cw.1 →
            P (foldl (λ (cw : t * world) document,
                        let '(_, c, w) :=
                          load_config CSS4_COLORS CSS4_text cw.1 document
                                      cw.2 in (c, w))
                     cw documents).1) as Hall; [|by apply Hall].
  induction documents as [|document documents IH]; intros [self w'] Hself;
    [done |].
  cbn [foldl fst snd].
  pose proof (Hstep self document w' Hself) as Hnext.
  destruct (load_config CSS4_COLORS CSS4_text self document w')
    as [[o c] w1].
  by apply IH.
Qed.

End ChartColors.

(** X17.  After [_process_config] on a configuration whose color section
    has no repeated key, whether it returns or raises for a missing later
    section, every color of the chart is: the value that the section gives
    for its key, if that value is a string among the CSS4 color names; and
    otherwise the color that the chart had before.  Keys that the section
    lacks, and keys with any other value, keep their color. *)
Theorem config_color_lookup (CSS4_COLORS : list string) (CSS4_text : string)
    (self : ChartConfig.t)
    (config : list (string * list (string * scalar)))
    (items : list (string * scalar)) (w : world) (k : string)
    (Hitems : assoc_get config "colors" = Some items)
    (Hkeys : NoDup items.*1) :
  dict_get
    (ChartConfig.colors
       (ChartConfig._process_config CSS4_COLORS CSS4_text self config w).1.2)
    k =
    match assoc_get items k ≫= ChartConfig.is_color CSS4_COLORS with
    | Some s => Some s
    | None => dict_get (ChartConfig.colors self) k
    end.
Proof.
  rewrite (proj1 (process_config_colors _ _ self config w)), Hitems.
  by apply colors_loop_lookup.
Qed.

Lemma config_color_lookup_witness :
  dict_get
    (ChartConfig.colors
       (ChartConfig._process_config ["steelblue"; "navy"] "['steelblue', 'navy']"
          ChartConfig.defaults
          [("colors", [("primary", SStr "navy"); ("secondary", SStr "sky")])]
          LazyGantt.initial_world).1.2)
    "primary" =
    match assoc_get [("primary", SStr "navy"); ("secondary", SStr "sky")]
            "primary" ≫= ChartConfig.is_color ["steelblue"; "navy"] with
    | Some s => Some s
    | None => dict_get (ChartConfig.colors ChartConfig.defaults) "primary"
    end.
Proof.
  apply (config_color_lookup ["steelblue"; "navy"] "['steelblue', 'navy']"
           ChartConfig.defaults
           [("colors", [("primary", SStr "navy"); ("secondary", SStr "sky")])]
           [("primary", SStr "navy"); ("secondary", SStr "sky")]
           LazyGantt.initial_world "primary").
  - reflexivity.
  - apply (bool_decide_unpack _). vm_compute. exact I.
Defined.

(** X19.  For a color section whose values are scalars (strings, numbers,
    booleans or null), [_process_config] prints one line per entry whose
    value is not a CSS4 color name, in the order of the section, each
    naming the key of the entry, and nothing else; without a color section
    it prints nothing. *)
Theorem config_messages (CSS4_COLORS : list string) (CSS4_text : string)
    (self : ChartConfig.t)
    (config : list (string * list (string * scalar))) (w : world) :
  (ChartConfig._process_config CSS4_COLORS CSS4_text self config w).2 =
    {| heap := heap w;
       stdout :=
         stdout w ++
         ((λ kv, Message ("Color stated for '" +:+ kv.1 +:+
                          "' does not exist! " +:+
                          "                      Choose color from: '" +:+
                          CSS4_text +:+ "'")) <$>
          filter (λ kv, ChartConfig.is_color CSS4_COLORS kv.2 = None)
                 (default [] (assoc_get config "colors"))) |}.
Proof.
  rewrite (proj2 (process_config_colors _ _ self config w)).
  destruct (assoc_get config "colors") as [items|].
  - apply colors_loop_world.
  - simpl. rewrite app_nil_r. by destruct w.
Qed.

(** X20.  A chart made without configuration keeps, through any sequence
    of configuration files, whether their loads return or raise, a color
    for each of the keys primary, secondary, contrast and background, so
    the lookups of the plot by these keys find a color; and if the four
    default colors are CSS4 color names, every color of the chart is
    one. *)
Theorem configured_keeps_plot_colors (CSS4_COLORS : list string)
    (CSS4_text : string)
    (documents : list (option (list (string * list (string * scalar)))))
    (w : world) :
  Forall (λ k, is_Some (dict_get
                          (ChartConfig.colors
                             (ChartConfig.configured CSS4_COLORS CSS4_text
                                documents w).1) k))
         ["primary"; "secondary"; "contrast"; "background"] ∧
  (Forall (λ s, s ∈ CSS4_COLORS)
          ["steelblue"; "yellowgreen"; "darkred"; "beige"] →
   Forall (λ kv, kv.2 ∈ CSS4_COLORS)
          (ChartConfig.colors
             (ChartConfig.configured CSS4_COLORS CSS4_text documents w).1)).
Proof.
  split.
  - apply (configured_invariant CSS4_COLORS CSS4_text
             (λ c, Forall (λ k, is_Some (dict_get (ChartConfig.colors c) k))
                          ["primary"; "secondary"; "contrast";
                           "background"])).
    + repeat constructor; by eexists.
    + intros self document w' Hself.
      eapply Forall_impl; [exact Hself |].
      intros k Hk. by apply load_config_keeps.
  - intros Hdefaults.
    apply (configured_invariant CSS4_COLORS CSS4_text
             (λ c, Forall (λ kv, kv.2 ∈ CSS4_COLORS) (ChartConfig.colors c))).
    + apply Forall_forall. intros [k v] Hkv.
      apply (proj1 (Forall_forall _ _) Hdefaults).
      simpl in *. apply list_elem_of_fmap_2 with (f := snd) in Hkv.
      exact Hkv.
    + intros self document w' Hself. by apply load_config_values.
Qed.

(** ** The positions of the slot labels *)

Section TextPositions.
Import LazyGantt.

Lemma zip_with_replicate_same {A B C} (f : A → B → C) (l : list A) (y : B) :
  zip_with f l (replicate (length l) y) = (λ x, f x y) <$> l.
Proof. induction l as [|x l IH]; [done |]. simpl. by f_equal. Qed.

Lemma argmax_slice (n : nat) (s e : Z) :
  0 ≤ s → 0 ≤ e →
  ChartConfig.argmax (set_slice s e (replicate n false)) =
    if bool_decide (s < e ∧ s < Z.of_nat n) then Z.to_nat s else 0%nat.
Proof.
  intros Hs He. unfold ChartConfig.argmax.
  destruct (decide (s < e ∧ s < Z.of_nat n)) as [[Hse Hsn]|Hout].
  - rewrite bool_decide_eq_true_2 by done.
    assert (list_find (λ b : bool, b = true)
              (set_slice s e (replicate n false)) = Some (Z.to_nat s, true))
      as ->; [|done].
    apply list_find_Some. split; [|split; [done |]].
    + rewrite set_slice_lookup_clip by lia.
      by rewrite bool_decide_eq_true_2 by lia.
    + intros j y Hj Hlt.
      rewrite set_slice_lookup_clip in Hj by lia.
      injection Hj as <-. rewrite bool_decide_eq_false_2 by lia. done.
  - rewrite bool_decide_eq_false_2 by done.
    assert (list_find (λ b : bool, b = true)
              (set_slice s e (replicate n false)) = None) as ->; [|done].
    apply list_find_None, Forall_forall. intros b Hb.
    apply list_elem_of_lookup in Hb as [k Hk].
    assert (k < n)%nat as Hkn.
    { apply lookup_lt_Some in Hk.
      by rewrite set_slice_length, length_replicate in Hk. }
    rewrite set_slice_lookup_clip in Hk by lia.
    injection Hk as <-. rewrite bool_decide_eq_false_2 by lia. done.
Qed.

End TextPositions.

(** X21.  For a project of at least one month and intervals whose bounds
    are not negative, the conversion returns a grid for which the plot
    computes one label position per interval: the start of the interval,
    if the interval is not empty and starts within the project, and
    otherwise month 0, so that the label of an empty interval, or of one
    that starts at or after the end of the project, is put where the label
    of an interval that starts at 0 is put. *)
Theorem labels_at_interval_starts (self : LazyGantt.t) (arr : list (Z * Z))
    (Hmonths : 0 < LazyGantt.no_months self)
    (Hbounds : Forall (λ p, 0 ≤ p.1 ∧ 0 ≤ p.2) arr) :
  ∃ g,
    LazyGantt._to_boolean_array self (Some arr) (LazyGantt.no_months self) =
      Return (Some g) ∧
    ChartConfig.text_positions (Z.to_nat (LazyGantt.no_months self)) g =
      Return ((λ p, if bool_decide (p.1 < p.2 ∧
                                    p.1 < LazyGantt.no_months self)
                    then Z.to_nat p.1 else 0%nat) <$> arr).
Proof.
  exists (filled self arr). split; [apply to_boolean_array_run; lia |].
  unfold ChartConfig.text_positions.
  rewrite decide_False by lia. f_equal.
  unfold filled. rewrite zip_with_replicate_same, <- list_fmap_compose.
  apply Forall_fmap_ext_1. eapply Forall_impl; [exact Hbounds |].
  intros p [Hp1 Hp2]. simpl. rewrite argmax_slice by done.
  by rewrite Z2Nat.id by lia.
Qed.

Lemma labels_at_interval_starts_witness :
  ∃ g,
    LazyGantt._to_boolean_array five_months (Some [(0, 3); (3, 5); (4, 4)])
      (LazyGantt.no_months five_months) = Return (Some g) ∧
    ChartConfig.text_positions (Z.to_nat (LazyGantt.no_months five_months)) g
      = Return ((λ p, if bool_decide (p.1 < p.2 ∧
                                      p.1 < LazyGantt.no_months five_months)
                      then Z.to_nat p.1 else 0%nat) <$>
                [(0, 3); (3, 5); (4, 4)]).
Proof.
  apply (labels_at_interval_starts five_months [(0, 3); (3, 5); (4, 4)]).
  - reflexivity.
  - repeat constructor; simpl; lia.
Defined.
